(** * bud: configuration, TLS context table and SNI dispatch ([src/config.c])

    A shallow embedding of the functions of [src/config.c] together with the
    properties of the specification that concern them.  C strings are
    [string]s whose content ends at the first NUL byte (or at the end of the
    Rocq string), C [int]s and bit masks are [Z], arrays are lists, [NULL]-able
    pointers are [option]s, and the calls into OpenSSL, libuv and the
    allocator are the fields of a type class. *)

From Stdlib Require Import ZArith List String Ascii Bool Arith Lia.
Import ListNotations.

Local Open Scope string_scope.
Local Open Scope Z_scope.

Set Warnings "-register-all".

(** ** C strings and the libc functions [config.c] uses *)

Module CStr.

(** The code of a [char] read as [unsigned char]. *)
Definition code (a : ascii) : Z := Z.of_N (N_of_ascii a).

Definition is_nul (a : ascii) : bool := code a =? 0.

(** The byte a [const char*] points at: the terminator once the content is
    exhausted. *)
Definition head (s : string) : Z :=
  match s with
  | EmptyString => 0
  | String a _ => code a
  end.

Definition tail (s : string) : string :=
  match s with
  | EmptyString => EmptyString
  | String _ r => r
  end.

(** [tolower] in the C locale. *)
Definition tolower (c : Z) : Z :=
  if (65 <=? c) && (c <=? 90) then c + 32 else c.

Fixpoint strlen (s : string) : nat :=
  match s with
  | EmptyString => O
  | String a r => if is_nul a then O else S (strlen r)
  end.

(** The bytes [memcpy (dst, s, strlen (s))] copies. *)
Fixpoint bytes (s : string) : list ascii :=
  match s with
  | EmptyString => []
  | String a r => if is_nul a then [] else a :: bytes r
  end.

(** [strcmp]: the difference of the first pair of bytes that differ, 0 when
    both strings end together. *)
Fixpoint strcmp (l r : string) : Z :=
  match l with
  | EmptyString => 0 - head r
  | String a l' =>
      if (code a =? head r) && negb (is_nul a)
      then strcmp l' (tail r)
      else code a - head r
  end.

(** [strncasecmp]: at most [n] bytes are compared, each through [tolower];
    the scan stops at the first difference or at a terminator. *)
Fixpoint strncasecmp (l r : string) (n : nat) : Z :=
  match n with
  | O => 0
  | S n' =>
      let cl := head l in
      let cr := head r in
      if (cl =? 0) || negb (tolower cl =? tolower cr)
      then tolower cl - tolower cr
      else strncasecmp (tail l) (tail r) n'
  end.

(** A string with no embedded NUL: all of it is content. *)
Fixpoint no_nul (s : string) : bool :=
  match s with
  | EmptyString => true
  | String a r => negb (is_nul a) && no_nul r
  end.

(** Equality up to the case of ASCII letters. *)
Definition lower_bytes (s : string) : list Z :=
  map (fun a => tolower (code a)) (bytes s).

End CStr.

(** ** parson: the JSON values the configuration is read from *)

Module Parson.

(** Numbers are kept as integers: every number [config.c] reads is stored
    into an [int] or a [uint16_t]. *)
Inductive JSON_Value : Type :=
| JSONNull
| JSONString (s : string)
| JSONNumber (n : Z)
| JSONObject (members : list (string * JSON_Value))
| JSONArray (items : list JSON_Value)
| JSONBoolean (b : bool).

Definition JSON_Object := list (string * JSON_Value).
Definition JSON_Array := list JSON_Value.

Definition is_JSONString (v : JSON_Value) : bool :=
  match v with
  | JSONString _ => true
  | _ => false
  end.

Definition json_value_get_object (v : JSON_Value) : option JSON_Object :=
  match v with
  | JSONObject m => Some m
  | _ => None
  end.

(** The first member whose name compares equal under [strcmp]. *)
Fixpoint json_object_get_value (o : JSON_Object) (name : string)
  : option JSON_Value :=
  match o with
  | [] => None
  | (k, v) :: o' =>
      if CStr.strcmp k name =? 0 then Some v else json_object_get_value o' name
  end.

Definition json_value_get_string (v : option JSON_Value) : option string :=
  match v with
  | Some (JSONString s) => Some s
  | _ => None
  end.

Definition json_value_get_number (v : option JSON_Value) : Z :=
  match v with
  | Some (JSONNumber n) => n
  | _ => 0
  end.

Definition json_value_get_boolean (v : option JSON_Value) : Z :=
  match v with
  | Some (JSONBoolean b) => if b then 1 else 0
  | _ => -1
  end.

Definition json_value_get_array (v : option JSON_Value) : option JSON_Array :=
  match v with
  | Some (JSONArray a) => Some a
  | _ => None
  end.

Definition json_object_get_string (o : JSON_Object) (name : string) :=
  json_value_get_string (json_object_get_value o name).

Definition json_object_get_number (o : JSON_Object) (name : string) :=
  json_value_get_number (json_object_get_value o name).

Definition json_object_get_boolean (o : JSON_Object) (name : string) :=
  json_value_get_boolean (json_object_get_value o name).

Definition json_object_get_array (o : JSON_Object) (name : string) :=
  json_value_get_array (json_object_get_value o name).

Definition json_object_get_object (o : JSON_Object) (name : string)
  : option JSON_Object :=
  match json_object_get_value o name with
  | Some v => json_value_get_object v
  | None => None
  end.

Definition json_array_get_count (a : JSON_Array) : nat := List.length a.

Definition json_array_get_value (a : JSON_Array) (i : nat)
  : option JSON_Value := nth_error a i.

Definition json_array_get_string (a : JSON_Array) (i : nat) : option string :=
  json_value_get_string (json_array_get_value a i).

Definition json_array_get_object (a : JSON_Array) (i : nat)
  : option JSON_Object :=
  match json_array_get_value a i with
  | Some v => json_value_get_object v
  | None => None
  end.

End Parson.

(** ** Errors ([bud_error_t])

    [config.c] only builds errors and tests them with [bud_is_ok]; the codes
    below are the ones it names. *)

Inductive bud_error_code : Type :=
| kBudOk
| kBudErrJSONParse
| kBudErrJSONNonObjectRoot
| kBudErrJSONNonObjectCtx
| kBudErrNoMem
| kBudErrNPNNonString
| kBudErrNPNNotSupported
| kBudErrSNINotSupported
| kBudErrExePath
| kBudErrECDHNotFound
| kBudErrPton
| kBudErrLoadCert
| kBudErrParseCert
| kBudErrParseKey.

Record bud_error_t : Type := mk_error {
  code : bud_error_code;
  str : option string;
  ret : Z
}.

Definition bud_ok : bud_error_t := mk_error kBudOk None 0.
Definition bud_error (c : bud_error_code) : bud_error_t := mk_error c None 0.
Definition bud_error_str (c : bud_error_code) (s : string) : bud_error_t :=
  mk_error c (Some s) 0.
Definition bud_error_num (c : bud_error_code) (n : Z) : bud_error_t :=
  mk_error c None n.

Definition bud_is_ok (e : bud_error_t) : bool :=
  match code e with
  | kBudOk => true
  | _ => false
  end.

(** ** The part of OpenSSL that [config.c] drives *)

Module OpenSSL.

Inductive SSL_METHOD : Type :=
| SSLv23_server_method
| SSLv3_server_method
| TLSv1_server_method
| TLSv1_1_server_method
| TLSv1_2_server_method.

(** Objects that OpenSSL owns are named by handles. *)
Definition X509 := nat.
Definition EC_KEY := nat.
Definition OCSP_CERTID := nat.
Definition OCSP_REQUEST := list OCSP_CERTID.

(** Constants of [openssl/ssl.h] (1.0.1). *)
Definition SSL_SESS_CACHE_OFF : Z := 0x0000.
Definition SSL_SESS_CACHE_SERVER : Z := 0x0002.
Definition SSL_OP_LEGACY_SERVER_CONNECT : Z := 0x00000004.
Definition SSL_OP_ALL : Z := 0x80000BFF.
Definition SSL_OP_NO_TICKET : Z := 0x00004000.
Definition SSL_OP_SINGLE_ECDH_USE : Z := 0x00080000.
Definition SSL_OP_CIPHER_SERVER_PREFERENCE : Z := 0x00400000.
Definition SSL_OP_NO_SSLv2 : Z := 0x01000000.
Definition SSL_OP_NO_SSLv3 : Z := 0x02000000.
Definition NID_undef : Z := 0.
Definition SSL_TLSEXT_ERR_OK : Z := 0.

(** The settings of an [SSL_CTX] that [bud_config_new_ssl_ctx] touches. *)
Record SSL_CTX : Type := mk_SSL_CTX {
  method : SSL_METHOD;
  session_cache_mode : Z;
  options : Z;
  tmp_ecdh : option EC_KEY;
  cipher_list : option string;
  tlsext_servername_callback : bool;
  next_protos_advertised_cb : bool;
  tlsext_status_cb : bool
}.

Definition SSL_CTX_set_session_cache_mode (c : SSL_CTX) (m : Z) : SSL_CTX :=
  mk_SSL_CTX (method c) m (options c) (tmp_ecdh c) (cipher_list c)
    (tlsext_servername_callback c) (next_protos_advertised_cb c)
    (tlsext_status_cb c).

(** [SSL_CTX_set_options] adds the bits of the mask to the options. *)
Definition SSL_CTX_set_options (c : SSL_CTX) (op : Z) : SSL_CTX :=
  mk_SSL_CTX (method c) (session_cache_mode c) (Z.lor (options c) op)
    (tmp_ecdh c) (cipher_list c) (tlsext_servername_callback c)
    (next_protos_advertised_cb c) (tlsext_status_cb c).

Definition SSL_CTX_set_tmp_ecdh (c : SSL_CTX) (k : EC_KEY) : SSL_CTX :=
  mk_SSL_CTX (method c) (session_cache_mode c) (options c) (Some k)
    (cipher_list c) (tlsext_servername_callback c)
    (next_protos_advertised_cb c) (tlsext_status_cb c).

(** The cipher string last handed to [SSL_CTX_set_cipher_list]. *)
Definition SSL_CTX_set_cipher_list (c : SSL_CTX) (s : string) : SSL_CTX :=
  mk_SSL_CTX (method c) (session_cache_mode c) (options c) (tmp_ecdh c)
    (Some s) (tlsext_servername_callback c) (next_protos_advertised_cb c)
    (tlsext_status_cb c).

Definition SSL_CTX_set_tlsext_servername_callback (c : SSL_CTX) : SSL_CTX :=
  mk_SSL_CTX (method c) (session_cache_mode c) (options c) (tmp_ecdh c)
    (cipher_list c) true (next_protos_advertised_cb c) (tlsext_status_cb c).

Definition SSL_CTX_set_next_protos_advertised_cb (c : SSL_CTX) : SSL_CTX :=
  mk_SSL_CTX (method c) (session_cache_mode c) (options c) (tmp_ecdh c)
    (cipher_list c) (tlsext_servername_callback c) true (tlsext_status_cb c).

Definition SSL_CTX_set_tlsext_status_cb (c : SSL_CTX) : SSL_CTX :=
  mk_SSL_CTX (method c) (session_cache_mode c) (options c) (tmp_ecdh c)
    (cipher_list c) (tlsext_servername_callback c)
    (next_protos_advertised_cb c) true.

(** [sk_OPENSSL_STRING_pop]: the last element of the stack is removed and
    returned, [NULL] on an empty stack. *)
Definition sk_OPENSSL_STRING_pop (sk : list string)
  : option string * list string :=
  match rev sk with
  | [] => (None, sk)
  | top :: below => (Some top, rev below)
  end.

End OpenSSL.
Import OpenSSL.

(** ** Sockets *)

Inductive address_family : Type := AF_INET | AF_INET6.

(** What [uv_inet_pton] reports: the parsed address, or a libuv error
    number, which is negative. *)
Inductive pton_result : Type :=
| PtonOk (address : list Z)
| PtonErr (errno : positive).

(** [struct sockaddr_storage] seen through [sockaddr_in] and [sockaddr_in6]:
    the family, the 16-bit port field the two views share (as the host reads
    it), and the two address fields. *)
Record sockaddr_storage : Type := mk_sockaddr {
  ss_family : option address_family;
  ss_port : Z;
  sin_addr : list Z;
  sin6_addr : list Z
}.

Inductive endianness : Type := LittleEndian | BigEndian.

(** ** What the environment decides

    The results of the calls that leave [config.c]. *)

Class Externals : Type := {
  json_parse_file : string -> option Parson.JSON_Value;
  (** whether an allocation of that many bytes succeeds *)
  malloc : nat -> bool;
  (** whether the [calloc] of a configuration with that many contexts succeeds *)
  calloc_config : nat -> bool;
  SSL_CTX_new : SSL_METHOD -> option SSL_CTX;
  OBJ_sn2nid : string -> Z;
  EC_KEY_new_by_curve_name : Z -> option EC_KEY;
  X509_get1_ocsp : X509 -> option (list string);
  OCSP_CERTID_dup : OCSP_CERTID -> option OCSP_CERTID;
  OCSP_REQUEST_new : option OCSP_REQUEST;
  OCSP_request_add0_id : OCSP_REQUEST -> OCSP_CERTID -> option OCSP_REQUEST;
  i2d_OCSP_REQUEST : OCSP_REQUEST -> list ascii;
  uv_inet_pton : address_family -> string -> pton_result;
  host_byte_order : endianness
}.

(** ** The configuration ([bud_config_t], [bud_context_t])

    The fields are those [config.c] reads and writes; the fields of the nested
    structs carry the name of their struct. *)

(** A [char*] to a buffer that [config.c] fills: [NULL], a local pointer that
    was never assigned, or allocated bytes. *)
Inductive buffer : Type :=
| BufNull
| BufUnassigned
| Buf (content : list ascii).

Record bud_context_t : Type := mk_context {
  servername : option string;
  servername_len : nat;
  cert_file : option string;
  key_file : option string;
  npn : option Parson.JSON_Array;
  ciphers : option string;
  ecdh : option string;
  ctx : option SSL_CTX;
  cert : option X509;
  issuer : option X509;
  ocsp_id : option OCSP_CERTID;
  ocsp_url : option string;
  ocsp_url_len : nat;
  npn_line : buffer;
  npn_line_len : nat
}.

Record bud_config_log_t : Type := mk_log {
  log_level : option string;
  log_facility : option string;
  log_stdio : Z;
  log_syslog : Z
}.

Record bud_config_frontend_t : Type := mk_frontend {
  frontend_port : Z;
  frontend_host : option string;
  frontend_security : option string;
  frontend_npn : option Parson.JSON_Array;
  frontend_ciphers : option string;
  frontend_ecdh : option string;
  frontend_cert_file : option string;
  frontend_key_file : option string;
  frontend_reneg_window : Z;
  frontend_reneg_limit : Z;
  frontend_proxyline : Z;
  frontend_keepalive : Z;
  frontend_server_preference : Z;
  frontend_ssl3 : Z;
  frontend_method : option SSL_METHOD
}.

Record bud_config_backend_t : Type := mk_backend {
  backend_port : Z;
  backend_host : option string;
  backend_keepalive : Z
}.

Record bud_config_http_pool_t : Type := mk_pool {
  pool_enabled : Z;
  pool_port : Z;
  pool_host : option string;
  pool_query_fmt : option string
}.

(** [contexts] is the array at the end of the struct: slot 0 is the default
    context, slots 1 to [context_count] are the SNI entries. *)
Record bud_config_t : Type := mk_config {
  json : option Parson.JSON_Value;
  worker_count : Z;
  restart_timeout : Z;
  log : bud_config_log_t;
  frontend : bud_config_frontend_t;
  backend : bud_config_backend_t;
  sni : bud_config_http_pool_t;
  stapling : bud_config_http_pool_t;
  context_count : nat;
  contexts : list bud_context_t
}.

(** A slot as [calloc] leaves it. *)
Definition zeroed_context : bud_context_t :=
  mk_context None 0 None None None None None None None None None None 0
    BufNull 0.

Definition zeroed_pool : bud_config_http_pool_t := mk_pool 0 0 None None.

(** [&config->contexts[i]], read. *)
Definition context_at (config : bud_config_t) (i : nat) : bud_context_t :=
  nth i (contexts config) zeroed_context.

(** The array holds the [context_count + 1] slots that [bud_config_load]
    allocates. *)
Definition contexts_allocated (config : bud_config_t) : Prop :=
  List.length (contexts config) = S (context_count config).

Definition uint16_t (n : Z) : Z := n mod 65536.

(** ** [bud_config_verify_npn] *)

Fixpoint verify_npn_items (items : Parson.JSON_Array) : bud_error_t :=
  match items with
  | [] => bud_ok
  | v :: rest =>
      if Parson.is_JSONString v
      then verify_npn_items rest
      else bud_error kBudErrNPNNonString
  end.

Definition bud_config_verify_npn (npn : option Parson.JSON_Array)
  : bud_error_t :=
  match npn with
  | None => bud_ok
  | Some items => verify_npn_items items
  end.

(** ** [bud_config_set_defaults] *)

Definition DEFAULT {A : Type} (eqb : A -> A -> bool) (param null value : A) : A :=
  if eqb param null then value else param.

Definition DEFAULT_ptr (param : option string) (value : string)
  : option string :=
  match param with
  | None => Some value
  | Some _ => param
  end.

Definition bud_config_set_defaults (config : bud_config_t) : bud_config_t :=
  let l := log config in
  let f := frontend config in
  let b := backend config in
  let s := sni config in
  let o := stapling config in
  mk_config (json config)
    (DEFAULT Z.eqb (worker_count config) (-1) 1)
    (DEFAULT Z.eqb (restart_timeout config) (-1) 250)
    (mk_log (DEFAULT_ptr (log_level l) "info")
       (DEFAULT_ptr (log_facility l) "user")
       (DEFAULT Z.eqb (log_stdio l) (-1) 1)
       (DEFAULT Z.eqb (log_syslog l) (-1) 0))
    (mk_frontend (DEFAULT Z.eqb (frontend_port f) 0 1443)
       (DEFAULT_ptr (frontend_host f) "0.0.0.0")
       (DEFAULT_ptr (frontend_security f) "ssl23")
       (frontend_npn f)
       (frontend_ciphers f)
       (DEFAULT_ptr (frontend_ecdh f) "prime256v1")
       (DEFAULT_ptr (frontend_cert_file f) "keys/cert.pem")
       (DEFAULT_ptr (frontend_key_file f) "keys/key.pem")
       (DEFAULT Z.eqb (frontend_reneg_window f) 0 600)
       (DEFAULT Z.eqb (frontend_reneg_limit f) 0 3)
       (DEFAULT Z.eqb (frontend_proxyline f) (-1) 0)
       (DEFAULT Z.eqb (frontend_keepalive f) (-1) 3600)
       (DEFAULT Z.eqb (frontend_server_preference f) (-1) 1)
       (DEFAULT Z.eqb (frontend_ssl3 f) (-1) 0)
       (frontend_method f))
    (mk_backend (DEFAULT Z.eqb (backend_port b) 0 8000)
       (DEFAULT_ptr (backend_host b) "127.0.0.1")
       (DEFAULT Z.eqb (backend_keepalive b) (-1) 3600))
    (mk_pool (pool_enabled s)
       (DEFAULT Z.eqb (pool_port s) 0 9000)
       (DEFAULT_ptr (pool_host s) "127.0.0.1")
       (DEFAULT_ptr (pool_query_fmt s) "/bud/sni/%s"))
    (mk_pool (pool_enabled o)
       (DEFAULT Z.eqb (pool_port o) 0 9000)
       (DEFAULT_ptr (pool_host o) "127.0.0.1")
       (DEFAULT_ptr (pool_query_fmt o) "/bud/stapling/%s"))
    (context_count config)
    (contexts config).

(** ** [bud_config_read_pool_conf] *)

Definition bud_config_read_pool_conf (obj : Parson.JSON_Object) (key : string)
    (pool : bud_config_http_pool_t) : bud_config_http_pool_t :=
  match Parson.json_object_get_object obj key with
  | Some p =>
      mk_pool (Parson.json_object_get_boolean p "enabled")
        (uint16_t (Parson.json_object_get_number p "port"))
        (Parson.json_object_get_string p "host")
        (Parson.json_object_get_string p "query")
  | None => pool
  end.

(** ** [bud_config_load] *)

(** [val = json_object_get_value (obj, name); if (val != NULL) field = get (val)]
    over a field preset to [unset]. *)
Definition read_if_present (get : option Parson.JSON_Value -> Z)
    (obj : Parson.JSON_Object) (name : string) (unset : Z) : Z :=
  match Parson.json_object_get_value obj name with
  | None => unset
  | Some v => get (Some v)
  end.

Definition load_log (obj : Parson.JSON_Object) : bud_config_log_t :=
  match Parson.json_object_get_object obj "log" with
  | None => mk_log None None (-1) (-1)
  | Some l =>
      mk_log (Parson.json_object_get_string l "level")
        (Parson.json_object_get_string l "facility")
        (read_if_present Parson.json_value_get_boolean l "stdio" (-1))
        (read_if_present Parson.json_value_get_boolean l "syslog" (-1))
  end.

(** The frontend block, up to and including the check of its "npn" array. *)
Definition load_frontend (obj : Parson.JSON_Object)
  : bud_error_t * bud_config_frontend_t :=
  match Parson.json_object_get_object obj "frontend" with
  | None =>
      (bud_ok,
       mk_frontend 0 None None None None None None None 0 0 (-1) (-1) (-1) (-1)
         None)
  | Some f =>
      let npn := Parson.json_object_get_array f "npn" in
      (bud_config_verify_npn npn,
       mk_frontend (uint16_t (Parson.json_object_get_number f "port"))
         (Parson.json_object_get_string f "host")
         (Parson.json_object_get_string f "security")
         npn
         (Parson.json_object_get_string f "ciphers")
         (Parson.json_object_get_string f "ecdh")
         (Parson.json_object_get_string f "cert")
         (Parson.json_object_get_string f "key")
         (Parson.json_object_get_number f "reneg_window")
         (Parson.json_object_get_number f "reneg_limit")
         (read_if_present Parson.json_value_get_boolean f "proxyline" (-1))
         (read_if_present Parson.json_value_get_number f "keepalive" (-1))
         (read_if_present Parson.json_value_get_boolean f "server_preference"
            (-1))
         (read_if_present Parson.json_value_get_boolean f "ssl3" (-1))
         None)
  end.

Definition load_backend (obj : Parson.JSON_Object) : bud_config_backend_t :=
  match Parson.json_object_get_object obj "backend" with
  | None => mk_backend 0 None (-1)
  | Some b =>
      mk_backend (uint16_t (Parson.json_object_get_number b "port"))
        (Parson.json_object_get_string b "host")
        (read_if_present Parson.json_value_get_number b "keepalive" (-1))
  end.

(** The body of the loop over "contexts" for one entry that is an object:
    the fields it stores into [config->contexts[i + 1]]. *)
Definition load_context (obj : Parson.JSON_Object) : bud_context_t :=
  let name := Parson.json_object_get_string obj "servername" in
  mk_context name
    (match name with
     | None => O
     | Some s => CStr.strlen s
     end)
    (Parson.json_object_get_string obj "cert")
    (Parson.json_object_get_string obj "key")
    (Parson.json_object_get_array obj "npn")
    (Parson.json_object_get_string obj "ciphers")
    (Parson.json_object_get_string obj "ecdh")
    None None None None None 0 BufNull 0.

(** The loop over "contexts": the slots 1, 2, ... in the order of the array,
    or the error of the first entry that is refused. *)
Fixpoint load_contexts (entries : Parson.JSON_Array)
  : bud_error_t + list bud_context_t :=
  match entries with
  | [] => inr []
  | v :: rest =>
      match Parson.json_value_get_object v with
      | None => inl (bud_error kBudErrJSONNonObjectCtx)
      | Some obj =>
          let c := load_context obj in
          let err := bud_config_verify_npn (npn c) in
          if bud_is_ok err
          then match load_contexts rest with
               | inl e => inl e
               | inr slots => inr (c :: slots)
               end
          else inl err
      end
  end.

Section Config.

Context {ext : Externals}.

(** The pointer returned and the error stored through [err]. *)
Definition bud_config_load (path : string)
  : option bud_config_t * bud_error_t :=
  match json_parse_file path with
  | None => (None, bud_error_str kBudErrJSONParse path)
  | Some value =>
      match Parson.json_value_get_object value with
      | None => (None, bud_error kBudErrJSONNonObjectRoot)
      | Some obj =>
          let entries :=
            match Parson.json_object_get_array obj "contexts" with
            | None => []
            | Some a => a
            end in
          let count := Parson.json_array_get_count entries in
          if negb (calloc_config count)
          then (None, bud_error_str kBudErrNoMem "bud_config_t")
          else
            let (err, fe) := load_frontend obj in
            if negb (bud_is_ok err) then (None, err)
            else
              match load_contexts entries with
              | inl e => (None, e)
              | inr slots =>
                  (Some
                     (bud_config_set_defaults
                        (mk_config (Some value)
                           (read_if_present Parson.json_value_get_number obj
                              "workers" (-1))
                           (read_if_present Parson.json_value_get_number obj
                              "restart_timeout" (-1))
                           (load_log obj)
                           fe
                           (load_backend obj)
                           (bud_config_read_pool_conf obj "sni" zeroed_pool)
                           (bud_config_read_pool_conf obj "stapling"
                              zeroed_pool)
                           count
                           (zeroed_context :: slots))),
                   bud_ok)
              end
      end
  end.

(** ** [bud_config_encode_npn]

    [None] stands for behaviour that C leaves undefined (here: [strlen] of the
    [NULL] that [json_array_get_string] returns for an element that is not a
    string). *)

Fixpoint npn_items (items : Parson.JSON_Array) : option (list string) :=
  match items with
  | [] => Some []
  | v :: rest =>
      match Parson.json_value_get_string (Some v), npn_items rest with
      | Some s, Some l => Some (s :: l)
      | _, _ => None
      end
  end.

(** The first loop: [npn_line_len += 1 + strlen (item)]. *)
Fixpoint npn_storage (items : list string) : nat :=
  match items with
  | [] => O
  | s :: rest => (1 + CStr.strlen s + npn_storage rest)%nat
  end.

(** The store [npn_line[offset++] = npn_item_len]: an [int] into a [char]. *)
Definition length_octet (npn_item_len : nat) : ascii :=
  ascii_of_nat (npn_item_len mod 256).

(** The second loop: what it leaves in [npn_line[0 .. offset)]. *)
Fixpoint fill_npn_line (items : list string) : list ascii :=
  match items with
  | [] => []
  | s :: rest =>
      length_octet (CStr.strlen s) :: CStr.bytes s ++ fill_npn_line rest
  end.

(** The pointer returned, the value stored through [len] when the function
    stores one, and the error. *)
Record encode_npn_result : Type := mk_encode {
  encoded_line : buffer;
  encoded_len : option nat;
  encoded_err : bud_error_t
}.

Definition bud_config_encode_npn (config : bud_config_t)
    (npn : option Parson.JSON_Array) : option encode_npn_result :=
  let npn :=
    match npn with
    | None => frontend_npn (frontend config)
    | Some _ => npn
    end in
  match npn with
  | None => Some (mk_encode BufNull (Some O) bud_ok)
  | Some array =>
      match npn_items array with
      | None => None
      | Some items =>
          let npn_line_len := npn_storage items in
          if (npn_line_len =? 0)%nat
          then Some (mk_encode BufUnassigned (Some npn_line_len) bud_ok)
          else if malloc npn_line_len
          then Some (mk_encode (Buf (fill_npn_line items)) (Some npn_line_len)
                       bud_ok)
          else Some (mk_encode BufNull None
                       (bud_error_str kBudErrNoMem "NPN copy"))
      end
  end.

(** The bytes an advertisement callback hands to OpenSSL: the first
    [npn_line_len] bytes behind [npn_line]. *)
Definition npn_line_bytes (line : buffer) (len : nat) : list ascii :=
  match line with
  | Buf content => firstn len content
  | BufNull | BufUnassigned => []
  end.

(** ** [bud_config_new_ssl_ctx] *)

Definition select_method (security : string) : SSL_METHOD :=
  if CStr.strcmp security "tls1.1" =? 0 then TLSv1_1_server_method
  else if CStr.strcmp security "tls1.0" =? 0 then TLSv1_server_method
  else if CStr.strcmp security "tls1.2" =? 0 then TLSv1_2_server_method
  else if CStr.strcmp security "ssl3" =? 0 then SSLv3_server_method
  else SSLv23_server_method.

Definition set_frontend_method (config : bud_config_t) (m : SSL_METHOD)
  : bud_config_t :=
  let f := frontend config in
  mk_config (json config) (worker_count config) (restart_timeout config)
    (log config)
    (mk_frontend (frontend_port f) (frontend_host f) (frontend_security f)
       (frontend_npn f) (frontend_ciphers f) (frontend_ecdh f)
       (frontend_cert_file f) (frontend_key_file f) (frontend_reneg_window f)
       (frontend_reneg_limit f) (frontend_proxyline f) (frontend_keepalive f)
       (frontend_server_preference f) (frontend_ssl3 f) (Some m))
    (backend config) (sni config) (stapling config) (context_count config)
    (contexts config).

Definition set_npn_line (c : bud_context_t) (line : buffer) (len : nat)
  : bud_context_t :=
  mk_context (servername c) (servername_len c) (cert_file c) (key_file c)
    (npn c) (ciphers c) (ecdh c) (ctx c) (cert c) (issuer c) (ocsp_id c)
    (ocsp_url c) (ocsp_url_len c) line len.

Definition set_ctx (c : bud_context_t) (handle : SSL_CTX) : bud_context_t :=
  mk_context (servername c) (servername_len c) (cert_file c) (key_file c)
    (npn c) (ciphers c) (ecdh c) (Some handle) (cert c) (issuer c) (ocsp_id c)
    (ocsp_url c) (ocsp_url_len c) (npn_line c) (npn_line_len c).

Definition set_ocsp_url (c : bud_context_t) (url : string) : bud_context_t :=
  mk_context (servername c) (servername_len c) (cert_file c) (key_file c)
    (npn c) (ciphers c) (ecdh c) (ctx c) (cert c) (issuer c) (ocsp_id c)
    (Some url) (CStr.strlen url) (npn_line c) (npn_line_len c).

(** An [int] holding [z]. *)
Definition int32 (z : Z) : Z := (z + 2 ^ 31) mod 2 ^ 32 - 2 ^ 31.

(** The method step: the method a first call chooses and later calls reuse;
    [None] when [strcmp] would be given a [NULL] security string. *)
Definition choose_method (config : bud_config_t) : option SSL_METHOD :=
  match frontend_method (frontend config) with
  | Some m => Some m
  | None =>
      match frontend_security (frontend config) with
      | Some security => Some (select_method security)
      | None => None
      end
  end.

(** The ECDH step: the context with its curve, or the error of [goto fatal]. *)
Definition select_ecdh (config : bud_config_t) (context : bud_context_t)
    (c : SSL_CTX) : bud_error_t + SSL_CTX :=
  let name :=
    match ecdh context with
    | Some n => Some n
    | None => frontend_ecdh (frontend config)
    end in
  match name with
  | None => inr c
  | Some curve =>
      let ecdh_nid := OBJ_sn2nid curve in
      if ecdh_nid =? NID_undef
      then inl (bud_error_str kBudErrECDHNotFound curve)
      else
        match EC_KEY_new_by_curve_name ecdh_nid with
        | None => inl (bud_error_str kBudErrNoMem "EC_KEY")
        | Some key =>
            inr (SSL_CTX_set_tmp_ecdh
                   (SSL_CTX_set_options c SSL_OP_SINGLE_ECDH_USE) key)
        end
  end.

Definition select_ciphers (config : bud_config_t) (context : bud_context_t)
    (c : SSL_CTX) : SSL_CTX :=
  match ciphers context with
  | Some l => SSL_CTX_set_cipher_list c l
  | None =>
      match frontend_ciphers (frontend config) with
      | Some l => SSL_CTX_set_cipher_list c l
      | None => c
      end
  end.

(** [options], an [int], as it is handed to [SSL_CTX_set_options]. *)
Definition ssl_options (config : bud_config_t) : Z :=
  let options := int32 (Z.lor SSL_OP_NO_SSLv2 SSL_OP_ALL) in
  let options :=
    if frontend_ssl3 (frontend config) =? 0
    then int32 (Z.lor options SSL_OP_NO_SSLv3)
    else options in
  if frontend_server_preference (frontend config) =? 0
  then options
  else int32 (Z.lor options SSL_OP_CIPHER_SERVER_PREFERENCE).

Definition install_servername_callback (config : bud_config_t) (c : SSL_CTX)
  : SSL_CTX :=
  if (context_count config =? 0)%nat
  then c
  else SSL_CTX_set_tlsext_servername_callback c.

(** The error returned, and the configuration and the context as the call
    leaves them.  [None] where C leaves the behaviour undefined: a [NULL]
    security string given to [strcmp], an "npn" element that is not a string,
    or the test [npn_line != NULL] on the pointer that
    [bud_config_encode_npn] returns without having assigned it (an empty
    "npn" array). *)
Definition bud_config_new_ssl_ctx (config : bud_config_t)
    (context : bud_context_t)
  : option (bud_error_t * bud_config_t * bud_context_t) :=
  match choose_method config with
  | None => None
  | Some m =>
      let config := set_frontend_method config m in
      match SSL_CTX_new m with
      | None => Some (bud_error_str kBudErrNoMem "SSL_CTX", config, context)
      | Some c =>
          let c := SSL_CTX_set_session_cache_mode c SSL_SESS_CACHE_OFF in
          match select_ecdh config context c with
          | inl err => Some (err, config, context)
          | inr c =>
              let c := select_ciphers config context c in
              let c := SSL_CTX_set_options c (ssl_options config) in
              let c := install_servername_callback config c in
              match bud_config_encode_npn config (npn context) with
              | None => None
              | Some r =>
                  let context :=
                    set_npn_line context (encoded_line r)
                      (match encoded_len r with
                       | Some n => n
                       | None => npn_line_len context
                       end) in
                  if negb (bud_is_ok (encoded_err r))
                  then Some (encoded_err r, config, context)
                  else
                    match encoded_line r with
                    | BufUnassigned => None
                    | BufNull =>
                        Some (bud_ok, config,
                              set_ctx context (SSL_CTX_set_tlsext_status_cb c))
                    | Buf _ =>
                        Some (bud_ok, config,
                              set_ctx context
                                (SSL_CTX_set_tlsext_status_cb
                                   (SSL_CTX_set_next_protos_advertised_cb c)))
                    end
              end
          end
      end
  end.

(** ** [bud_context_get_ocsp_req] *)

(** The URL returned, the value stored through [size], the request stored
    through [ocsp_request] when one is built, and the context as the call
    leaves it. *)
Record ocsp_req_result : Type := mk_ocsp_req {
  req_url : option string;
  req_size : nat;
  req_encoded : option (list ascii);
  req_context : bud_context_t
}.

(** From label [has_url] to [done]: the DER request, when every step of its
    construction succeeds. *)
Definition build_ocsp_request (context : bud_context_t)
  : option (list ascii) :=
  match ocsp_url context with
  | None => None
  | Some _ =>
      match ocsp_id context with
      | None => None
      | Some cid =>
          match OCSP_CERTID_dup cid with
          | None => None
          | Some id =>
              match OCSP_REQUEST_new with
              | None => None
              | Some req =>
                  match OCSP_request_add0_id req id with
                  | None => None
                  | Some req =>
                      let encoded := i2d_OCSP_REQUEST req in
                      if malloc (List.length encoded)
                      then Some encoded
                      else None
                  end
              end
          end
      end
  end.

Definition ocsp_req_done (context : bud_context_t)
    (request : option (list ascii)) : ocsp_req_result :=
  mk_ocsp_req (ocsp_url context) (ocsp_url_len context) request context.

(** [None]: the certificate pointer is [NULL], or the stack popped is empty
    and [strlen] is given [NULL]. *)
Definition bud_context_get_ocsp_req (context : bud_context_t)
  : option ocsp_req_result :=
  match ocsp_url context with
  | Some _ => Some (ocsp_req_done context (build_ocsp_request context))
  | None =>
      match cert context with
      | None => None
      | Some x =>
          match X509_get1_ocsp x with
          | None => Some (ocsp_req_done context None)
          | Some urls =>
              match fst (sk_OPENSSL_STRING_pop urls) with
              | None => None
              | Some url =>
                  let context := set_ocsp_url context url in
                  Some (ocsp_req_done context (build_ocsp_request context))
              end
          end
      end
  end.

(** ** [bud_config_select_context] *)

(** The string behind [ctx->servername]; a [NULL] one has [servername_len] 0
    and [strncasecmp] reads nothing of it. *)
Definition servername_chars (c : bud_context_t) : string :=
  match servername c with
  | Some s => s
  | None => EmptyString
  end.

(** The loop from index [i] with [remaining = context_count - i] rounds to
    go; the result is the index of the slot returned. *)
Fixpoint select_context_loop (config : bud_config_t) (name : string)
    (name_len : nat) (i remaining : nat) : nat :=
  match remaining with
  | O => O
  | S remaining' =>
      let c := context_at config (i + 1) in
      if negb (name_len =? servername_len c)%nat
      then select_context_loop config name name_len (S i) remaining'
      else if negb (CStr.strncasecmp name (servername_chars c)
                      (servername_len c) =? 0)
      then O
      else (i + 1)%nat
  end.

Definition bud_config_select_context (config : bud_config_t)
    (name : string) (name_len : nat) : nat :=
  select_context_loop config name name_len 0 (context_count config).

(** ** [bud_config_select_sni_context] *)

(** An [SSL] session: the server_name of its ClientHello, its ex-data slots
    (the slot at [kBudSSLSNIIndex] holds a context), the [SSL_CTX] it runs on
    and the one it was created on. *)
Record SSL : Type := mk_SSL {
  tlsext_hostname : option string;
  ex_data : Z -> option bud_context_t;
  ssl_ctx : SSL_CTX;
  initial_ctx : SSL_CTX
}.

Definition SSL_get_servername (s : SSL) : option string := tlsext_hostname s.

Definition SSL_get_ex_data (s : SSL) (idx : Z) : option bud_context_t :=
  ex_data s idx.

(** [SSL_set_SSL_CTX]: a [NULL] context stands for the initial one. *)
Definition SSL_set_SSL_CTX (s : SSL) (c : option SSL_CTX) : SSL :=
  mk_SSL (tlsext_hostname s) (ex_data s)
    (match c with
     | Some c' => c'
     | None => initial_ctx s
     end)
    (initial_ctx s).

(** The value returned, the session as the callback leaves it, and the
    server names [bud_config_select_context] was called with. *)
Record sni_result : Type := mk_sni {
  sni_ret : Z;
  sni_ssl : SSL;
  sni_lookups : list string
}.

Definition bud_config_select_sni_context (kBudSSLSNIIndex : Z) (s : SSL)
    (config : bud_config_t) : sni_result :=
  match SSL_get_servername s with
  | None => mk_sni SSL_TLSEXT_ERR_OK s []
  | Some name =>
      match SSL_get_ex_data s kBudSSLSNIIndex with
      | Some c => mk_sni SSL_TLSEXT_ERR_OK (SSL_set_SSL_CTX s (ctx c)) []
      | None =>
          let c :=
            context_at config
              (bud_config_select_context config name (CStr.strlen name)) in
          mk_sni SSL_TLSEXT_ERR_OK (SSL_set_SSL_CTX s (ctx c)) [name]
      end
  end.

(** ** [bud_config_str_to_addr] *)

Definition htons (order : endianness) (port : Z) : Z :=
  match order with
  | BigEndian => port
  | LittleEndian => Z.lor (Z.shiftl (Z.land port 255) 8) (Z.shiftr port 8)
  end.

(** The two bytes of a 16-bit field in memory, lowest address first. *)
Definition bytes_in_memory (order : endianness) (v : Z) : list Z :=
  match order with
  | BigEndian => [Z.shiftr v 8; Z.land v 255]
  | LittleEndian => [Z.land v 255; Z.shiftr v 8]
  end.

Definition pton_status (r : pton_result) : Z :=
  match r with
  | PtonOk _ => 0
  | PtonErr e => Z.neg e
  end.

(** The value returned, the storage as the call leaves it, and the families
    [uv_inet_pton] was called with, in order. *)
Record str_to_addr_result : Type := mk_str_to_addr {
  addr_r : Z;
  addr_out : sockaddr_storage;
  addr_parses : list address_family
}.

Definition bud_config_str_to_addr (host : string) (port : Z)
    (addr : sockaddr_storage) : str_to_addr_result :=
  match uv_inet_pton AF_INET host with
  | PtonOk a =>
      mk_str_to_addr 0
        (mk_sockaddr (Some AF_INET) (htons host_byte_order port) a
           (sin6_addr addr))
        [AF_INET]
  | PtonErr _ =>
      let r := uv_inet_pton AF_INET6 host in
      mk_str_to_addr (pton_status r)
        (match r with
         | PtonOk a =>
             mk_sockaddr (Some AF_INET6) (htons host_byte_order port)
               (sin_addr addr) a
         | PtonErr _ =>
             mk_sockaddr (Some AF_INET6) (ss_port addr) (sin_addr addr)
               (sin6_addr addr)
         end)
        [AF_INET; AF_INET6]
  end.

End Config.

(** The lengths [bud_config_load] stores next to the names. *)
Definition servername_lengths_stored (config : bud_config_t) : Prop :=
  Forall (fun c => servername_len c = CStr.strlen (servername_chars c))
    (contexts config).

(** ** The NPN wire format, read back

    The format of the specification: one octet of length followed by that
    many bytes, repeated to the end of the line. *)
Fixpoint decode_npn_fuel (fuel : nat) (line : list ascii)
  : option (list (list ascii)) :=
  match fuel with
  | O => None
  | S fuel' =>
      match line with
      | [] => Some []
      | octet :: rest =>
          let n := nat_of_ascii octet in
          if (n <=? List.length rest)%nat
          then match decode_npn_fuel fuel' (skipn n rest) with
               | Some tokens => Some (firstn n rest :: tokens)
               | None => None
               end
          else None
      end
  end.

Definition decode_npn (line : list ascii) : option (list (list ascii)) :=
  decode_npn_fuel (S (List.length line)) line.

(** ** What the specification says of the context table

    These follow the words of the specification, to be compared with what
    [bud_config_load] builds. *)

(** The names of the SNI entries, slots 1 to [context_count], in table order. *)
Definition table_servernames (config : bud_config_t) : list (option string) :=
  map servername (firstn (context_count config) (skipn 1 (contexts config))).

(** "non-empty servername" *)
Definition servername_nonempty (name : option string) : bool :=
  match name with
  | Some s => negb (CStr.strlen s =? 0)%nat
  | None => false
  end.

(** [strcasecmp]: "case-insensitive, lexicographic, byte-wise". *)
Fixpoint strcasecmp (l r : string) : Z :=
  match l with
  | EmptyString => 0 - CStr.tolower (CStr.head r)
  | String a l' =>
      let cl := CStr.code a in
      let cr := CStr.head r in
      if (cl =? 0) || negb (CStr.tolower cl =? CStr.tolower cr)
      then CStr.tolower cl - CStr.tolower cr
      else strcasecmp l' (CStr.tail r)
  end.

Definition servername_cmp (a b : option string) : Z :=
  strcasecmp (match a with Some s => s | None => EmptyString end)
    (match b with Some s => s | None => EmptyString end).

(** "sorted by servername" *)
Fixpoint servernames_sorted (names : list (option string)) : bool :=
  match names with
  | [] => true
  | a :: rest =>
      match rest with
      | [] => true
      | b :: _ => (servername_cmp a b <=? 0) && servernames_sorted rest
      end
  end.

(** "unique servername": no two entries compare equal. *)
Fixpoint servernames_unique (names : list (option string)) : bool :=
  match names with
  | [] => true
  | a :: rest =>
      forallb (fun b => negb (servername_cmp a b =? 0)) rest
      && servernames_unique rest
  end.

(** Some element of an "npn" array is not a JSON string. *)
Definition npn_has_non_string (npn : option Parson.JSON_Array) : bool :=
  match npn with
  | None => false
  | Some items => existsb (fun v => negb (Parson.is_JSONString v)) items
  end.

(** The "contexts" array of a configuration file, empty when there is none. *)
Definition contexts_of_file (obj : Parson.JSON_Object) : Parson.JSON_Array :=
  match Parson.json_object_get_array obj "contexts" with
  | None => []
  | Some a => a
  end.

(** An entry of the "contexts" array whose "npn" array holds an element that
    is not a string, all entries before it being objects: the loop of
    [bud_config_load] gets as far as checking it. *)
Definition npn_fault_reached (entries : Parson.JSON_Array) : Prop :=
  exists i obj,
    nth_error entries i = Some (Parson.JSONObject obj) /\
    npn_has_non_string (Parson.json_object_get_array obj "npn") = true /\
    forall j, (j < i)%nat ->
      exists o, nth_error entries j = Some (Parson.JSONObject o).

(** The "npn" array of the "frontend" object holds an element that is not a
    string. *)
Definition frontend_npn_fault (obj : Parson.JSON_Object) : Prop :=
  exists f,
    Parson.json_object_get_object obj "frontend" = Some f /\
    npn_has_non_string (Parson.json_object_get_array f "npn") = true.

(** ** Sample inputs *)

Module Sample.

Import Parson.

Definition openssl_new (m : SSL_METHOD) : option SSL_CTX :=
  Some (mk_SSL_CTX m SSL_SESS_CACHE_SERVER SSL_OP_LEGACY_SERVER_CONNECT None
          None false false false).

(** Two entries of equal length, in alphabetical order. *)
Definition two_hosts : JSON_Value :=
  JSONObject
    [("frontend", JSONObject [("security", JSONString "bogus");
                              ("npn", JSONArray [JSONString "http/1.1";
                                                 JSONString "http/1.0"])]);
     ("contexts",
      JSONArray [JSONObject [("servername", JSONString "a.example")];
                 JSONObject [("servername", JSONString "b.example")]])].

(** Entries out of order, one name twice, one entry without a name. *)
Definition unordered : JSON_Value :=
  JSONObject
    [("contexts",
      JSONArray [JSONObject [("servername", JSONString "b.example")];
                 JSONObject [("servername", JSONString "a.example")];
                 JSONObject [("servername", JSONString "a.example")];
                 JSONObject [("cert", JSONString "keys/c.pem")]])].

(** An entry that is not an object before one whose "npn" holds a number. *)
Definition number_then_npn : JSON_Value :=
  JSONObject
    [("contexts",
      JSONArray [JSONNumber 5;
                 JSONObject [("servername", JSONString "a.example");
                             ("npn", JSONArray [JSONNumber 1])]])].

Definition files (path : string) : option JSON_Value :=
  if String.eqb path "two_hosts.json" then Some two_hosts
  else if String.eqb path "unordered.json" then Some unordered
  else if String.eqb path "number_then_npn.json" then Some number_then_npn
  else None.

Definition inet_pton (af : address_family) (host : string) : pton_result :=
  match af with
  | AF_INET =>
      if String.eqb host "127.0.0.1" then PtonOk [127; 0; 0; 1] else PtonErr 22
  | AF_INET6 =>
      if String.eqb host "::1"
      then PtonOk [0; 0; 0; 0; 0; 0; 0; 0; 0; 0; 0; 0; 0; 0; 0; 1]
      else PtonErr 22
  end.

(** Certificate 1 names two OCSP responders, certificate 2 one. *)
Definition ocsp_urls (x : X509) : option (list string) :=
  match x with
  | 1%nat => Some ["http://ocsp.one.example"; "http://ocsp.two.example"]
  | 2%nat => Some ["http://ocsp.one.example"]
  | _ => None
  end.

Definition env : Externals := {|
  json_parse_file := files;
  malloc := fun _ => true;
  calloc_config := fun _ => true;
  SSL_CTX_new := openssl_new;
  OBJ_sn2nid := fun name => if String.eqb name "prime256v1" then 415 else 0;
  EC_KEY_new_by_curve_name := fun nid => Some (Z.to_nat nid);
  X509_get1_ocsp := ocsp_urls;
  OCSP_CERTID_dup := fun id => Some id;
  OCSP_REQUEST_new := Some [];
  OCSP_request_add0_id := fun req id => Some (req ++ [id])%list;
  i2d_OCSP_REQUEST := fun req => map ascii_of_nat req;
  uv_inet_pton := inet_pton;
  host_byte_order := LittleEndian
|}.

(** The configuration loaded from [two_hosts]. *)
Definition two_hosts_config : bud_config_t :=
  match fst (bud_config_load (ext := env) "two_hosts.json") with
  | Some config => config
  | None => mk_config None 0 0 (mk_log None None 0 0)
              (mk_frontend 0 None None None None None None None 0 0 0 0 0 0
                 None)
              (mk_backend 0 None 0) zeroed_pool zeroed_pool 0 []
  end.

(** A token of 256 bytes. *)
Definition long_token : string :=
  string_of_list_ascii (repeat "a"%char 256).

(** A context whose certificate is certificate 1. *)
Definition context_with_cert (x : X509) : bud_context_t :=
  mk_context None 0 None None None None None None (Some x) (Some 7%nat)
    (Some 9%nat) None 0 BufNull 0.

(** A session that asks for [name], with the given content of the slot at
    index 1. *)
Definition session (name : option string) (slot : option bud_context_t) : SSL :=
  mk_SSL name (fun idx => if idx =? 1 then slot else None)
    (mk_SSL_CTX SSLv23_server_method 0 0 None None false false false)
    (mk_SSL_CTX SSLv23_server_method 0 0 None None false false false).

End Sample.

(** ** Further sample inputs *)

Module Examples.

Import Parson.

(** The environment [e] with another file system. *)
Definition with_files (e : Externals)
    (fs : string -> option JSON_Value) : Externals := {|
  json_parse_file := fs;
  malloc := @malloc e;
  calloc_config := @calloc_config e;
  SSL_CTX_new := @SSL_CTX_new e;
  OBJ_sn2nid := @OBJ_sn2nid e;
  EC_KEY_new_by_curve_name := @EC_KEY_new_by_curve_name e;
  X509_get1_ocsp := @X509_get1_ocsp e;
  OCSP_CERTID_dup := @OCSP_CERTID_dup e;
  OCSP_REQUEST_new := @OCSP_REQUEST_new e;
  OCSP_request_add0_id := @OCSP_request_add0_id e;
  i2d_OCSP_REQUEST := @i2d_OCSP_REQUEST e;
  uv_inet_pton := @uv_inet_pton e;
  host_byte_order := @host_byte_order e
|}.

(** The environment [e] with another allocator. *)
Definition with_malloc (e : Externals) (m : nat -> bool) : Externals := {|
  json_parse_file := @json_parse_file e;
  malloc := m;
  calloc_config := @calloc_config e;
  SSL_CTX_new := @SSL_CTX_new e;
  OBJ_sn2nid := @OBJ_sn2nid e;
  EC_KEY_new_by_curve_name := @EC_KEY_new_by_curve_name e;
  X509_get1_ocsp := @X509_get1_ocsp e;
  OCSP_CERTID_dup := @OCSP_CERTID_dup e;
  OCSP_REQUEST_new := @OCSP_REQUEST_new e;
  OCSP_request_add0_id := @OCSP_request_add0_id e;
  i2d_OCSP_REQUEST := @i2d_OCSP_REQUEST e;
  uv_inet_pton := @uv_inet_pton e;
  host_byte_order := @host_byte_order e
|}.

(** Three entries whose names have three lengths; the second one has its own
    "npn", "ciphers" and an "ecdh" curve that OpenSSL does not know. *)
Definition three_hosts : JSON_Value :=
  JSONObject
    [("frontend", JSONObject [("port", JSONNumber 0);
                              ("ssl3", JSONBoolean true);
                              ("server_preference", JSONBoolean false);
                              ("npn", JSONArray [JSONString "http/1.1"])]);
     ("backend", JSONObject [("port", JSONNumber 8080);
                             ("host", JSONString "10.0.0.1")]);
     ("contexts",
      JSONArray [JSONObject [("servername", JSONString "a.example")];
                 JSONObject [("servername", JSONString "www.example");
                             ("npn", JSONArray [JSONString "spdy/3"]);
                             ("ecdh", JSONString "nocurve")];
                 JSONObject [("servername", JSONString "b.example.org");
                             ("npn", JSONArray [])]])].

Definition files (path : string) : option JSON_Value :=
  if String.eqb path "three_hosts.json" then Some three_hosts
  else Sample.files path.

Definition env : Externals := with_files Sample.env files.

(** The same environment, out of memory. *)
Definition env_no_memory : Externals := with_malloc env (fun _ => false).

Definition empty_config : bud_config_t :=
  mk_config None 0 0 (mk_log None None 0 0)
    (mk_frontend 0 None None None None None None None 0 0 0 0 0 0 None)
    (mk_backend 0 None 0) zeroed_pool zeroed_pool 0 [].

(** The configuration loaded from [three_hosts]. *)
Definition three_hosts_config : bud_config_t :=
  match fst (bud_config_load (ext := env) "three_hosts.json") with
  | Some config => config
  | None => empty_config
  end.

End Examples.

(** No field that [bud_config_set_defaults] looks at holds its marker of
    "not configured" ([-1], [0] or [NULL]). *)
Definition defaults_filled (config : bud_config_t) : Prop :=
  (worker_count config <> -1 /\ restart_timeout config <> -1) /\
  (log_level (log config) <> None /\ log_facility (log config) <> None /\
   log_stdio (log config) <> -1 /\ log_syslog (log config) <> -1) /\
  (frontend_port (frontend config) <> 0 /\
   frontend_host (frontend config) <> None /\
   frontend_proxyline (frontend config) <> -1 /\
   frontend_security (frontend config) <> None /\
   frontend_ecdh (frontend config) <> None /\
   frontend_keepalive (frontend config) <> -1 /\
   frontend_server_preference (frontend config) <> -1 /\
   frontend_ssl3 (frontend config) <> -1 /\
   frontend_cert_file (frontend config) <> None /\
   frontend_key_file (frontend config) <> None /\
   frontend_reneg_window (frontend config) <> 0 /\
   frontend_reneg_limit (frontend config) <> 0) /\
  (backend_port (backend config) <> 0 /\
   backend_host (backend config) <> None /\
   backend_keepalive (backend config) <> -1) /\
  (pool_port (sni config) <> 0 /\ pool_host (sni config) <> None /\
   pool_query_fmt (sni config) <> None) /\
  (pool_port (stapling config) <> 0 /\ pool_host (stapling config) <> None /\
   pool_query_fmt (stapling config) <> None).

(** An entry of "contexts" that the loop of [bud_config_load] accepts: an
    object whose "npn", when it is an array, holds strings only. *)
Definition entry_accepted (v : Parson.JSON_Value) : Prop :=
  exists o,
    v = Parson.JSONObject o /\
    npn_has_non_string (Parson.json_object_get_array o "npn") = false.

(** A port as a [uint16_t] that is not 0. *)
Definition port_in_range (port : Z) : Prop := 1 <= port <= 65535.

(** The "npn" array [bud_config_encode_npn] works on: the context's own, and
    the frontend's when the context has none. *)
Definition npn_in_effect (config : bud_config_t)
    (npn : option Parson.JSON_Array) : option Parson.JSON_Array :=
  match npn with
  | Some a => Some a
  | None => frontend_npn (frontend config)
  end.

(** Every "npn" array of the configuration holds strings only, which is what
    [bud_config_verify_npn] checks while loading. *)
Definition npn_verified (config : bud_config_t) : Prop :=
  npn_has_non_string (frontend_npn (frontend config)) = false /\
  Forall (fun c => npn_has_non_string (npn c) = false) (contexts config).

(** Whether an option of [openssl/ssl.h] is set on a context. *)
Definition option_set (c : SSL_CTX) (flag : Z) : bool :=
  negb (Z.land (options c) flag =? 0).

(** The curve [bud_config_new_ssl_ctx] asks for: the context's own, and the
    frontend's when the context has none. *)
Definition ecdh_in_effect (config : bud_config_t) (context : bud_context_t)
  : option string :=
  match ecdh context with
  | Some n => Some n
  | None => frontend_ecdh (frontend config)
  end.

(** ** [bud_context_get_ocsp_id], [bud_context_free]

    The two functions also use the fields [ocsp_der_id] and
    [ocsp_der_id_len] of [bud_context_t], which the record above leaves out:
    here a context comes with them. *)
Record bud_context_ids_t : Type := mk_context_ids {
  id_context : bud_context_t;
  ocsp_der_id : option (list ascii);
  ocsp_der_id_len : nat
}.

(** The encoders behind [bud_context_get_ocsp_id]: OpenSSL's DER encoding of
    a CertID, and the base64 functions of [common.c], which take the size of
    the output buffer. *)
Class IdEncoders : Type := {
  i2d_OCSP_CERTID : OCSP_CERTID -> list ascii;
  bud_base64_encoded_size : nat -> nat;
  bud_base64_encode : list ascii -> nat -> list ascii
}.

(** The pointer returned, the value stored through [size] when the function
    stores one, and the context as the call leaves it. *)
Record ocsp_id_result : Type := mk_ocsp_id {
  id_returned : option (list ascii);
  id_size : option nat;
  id_after : bud_context_ids_t
}.

Definition bud_context_get_ocsp_id {ext : Externals} {enc : IdEncoders}
    (context : bud_context_ids_t) : ocsp_id_result :=
  match ocsp_id (id_context context) with
  | None => mk_ocsp_id None None context
  | Some cid =>
      match ocsp_der_id context with
      | Some _ =>
          mk_ocsp_id (ocsp_der_id context) (Some (ocsp_der_id_len context))
            context
      | None =>
          let encoded := i2d_OCSP_CERTID cid in
          let encoded_len := List.length encoded in
          let base64_len := bud_base64_encoded_size encoded_len in
          if malloc encoded_len && malloc base64_len
          then
            let context :=
              mk_context_ids (id_context context)
                (Some (bud_base64_encode encoded base64_len)) base64_len in
            mk_ocsp_id (ocsp_der_id context) (Some (ocsp_der_id_len context))
              context
          else
            mk_ocsp_id (ocsp_der_id context) (Some (ocsp_der_id_len context))
              context
      end
  end.

(** What a call hands back to OpenSSL or to the allocator. *)
Inductive released : Type :=
| FreedSSL_CTX (c : SSL_CTX)
| FreedX509 (x : X509)
| FreedCERTID (id : OCSP_CERTID)
| FreedBytes (content : list ascii).

Definition free_if {A : Type} (make : A -> released) (p : option A)
  : list released :=
  match p with
  | Some a => [make a]
  | None => []
  end.

(** The objects released, in the order of the calls, and the context with
    its pointers reset; [None] when [free] is given the NPN pointer that was
    never assigned. *)
Definition bud_context_free (context : bud_context_ids_t)
  : option (list released * bud_context_ids_t) :=
  let c := id_context context in
  match npn_line c with
  | BufUnassigned => None
  | line =>
      Some
        ((free_if FreedSSL_CTX (ctx c) ++ free_if FreedX509 (cert c)
          ++ free_if FreedX509 (issuer c) ++ free_if FreedCERTID (ocsp_id c)
          ++ free_if FreedBytes (ocsp_der_id context)
          ++ match line with
             | Buf content => [FreedBytes content]
             | _ => []
             end)%list,
         mk_context_ids
           (mk_context (servername c) (servername_len c) (cert_file c)
              (key_file c) (npn c) (ciphers c) (ecdh c) None None None None
              (ocsp_url c) (ocsp_url_len c) BufNull (npn_line_len c))
           None (ocsp_der_id_len context))
  end.

Module ExampleIds.

(** Encoders that keep the lengths of base64: four bytes out for every three
    bytes in. *)
Definition encoders : IdEncoders := {|
  i2d_OCSP_CERTID := fun id => repeat "0"%char (S id);
  bud_base64_encoded_size := fun n => (4 * ((n + 2) / 3))%nat;
  bud_base64_encode := fun bytes size => repeat "A"%char size
|}.

(** Other encoders. *)
Definition other_encoders : IdEncoders := {|
  i2d_OCSP_CERTID := fun id => [];
  bud_base64_encoded_size := fun n => n;
  bud_base64_encode := fun bytes size => bytes
|}.

(** A context with a certificate, an issuer and a CertID, and no encoded
    id yet. *)
Definition context : bud_context_ids_t :=
  mk_context_ids (Sample.context_with_cert 2%nat) None 0.

End ExampleIds.

(** ** [bud_context_use_certificate_chain] *)

(** What [X509_STORE_CTX_get1_issuer] reports: 1 and the issuer, 0, or a
    negative value. *)
Inductive issuer_lookup : Type :=
| IssuerFound (issuer : X509)
| IssuerNotFound
| IssuerError.

(** The answers of OpenSSL to the calls of
    [bud_context_use_certificate_chain], each for the arguments of the
    call; memory management ([X509_free], reference counts) is left to
    OpenSSL. *)
Class CertificateCalls : Type := {
  (** [SSL_CTX_use_certificate] returned non-zero *)
  SSL_CTX_use_certificate : option SSL_CTX -> X509 -> bool;
  (** [ERR_peek_error () != 0] after it *)
  ERR_peek_error : option SSL_CTX -> X509 -> bool;
  (** [SSL_CTX_add_extra_chain_cert] returned non-zero *)
  SSL_CTX_add_extra_chain_cert : option SSL_CTX -> X509 -> bool;
  (** [X509_check_issued (ca, x) == X509_V_OK] *)
  X509_check_issued : X509 -> X509 -> bool;
  (** [X509_STORE_CTX_init] on the store of the context returned non-zero *)
  X509_STORE_CTX_init : option SSL_CTX -> bool;
  X509_STORE_CTX_get1_issuer : option SSL_CTX -> X509 -> issuer_lookup;
  OCSP_cert_to_id : X509 -> X509 -> option OCSP_CERTID
}.

(** What the PEM reader finds in the [BIO]: the certificate that
    [PEM_read_bio_X509_AUX] returns, the certificates that the calls of
    [PEM_read_bio_X509] return until one returns [NULL], and whether the
    error left by that last call is "no start line", the end of the file. *)
Record pem_input : Type := mk_pem {
  pem_leaf : option X509;
  pem_chain : list X509;
  pem_ends_at_eof : bool
}.

Definition set_certificates (c : bud_context_t) (x issuer : option X509)
    (id : option OCSP_CERTID) : bud_context_t :=
  mk_context (servername c) (servername_len c) (cert_file c) (key_file c)
    (npn c) (ciphers c) (ecdh c) (ctx c) x issuer id (ocsp_url c)
    (ocsp_url_len c) (npn_line c) (npn_line_len c).

Section CertificateChain.

Context {calls : CertificateCalls}.

(** The loop over the CA certificates: whether every one of them was added
    to the chain, and [ctx->issuer] when the loop is left. *)
Fixpoint read_chain (handle : option SSL_CTX) (x : X509) (chain : list X509)
    (issuer : option X509) : bool * option X509 :=
  match chain with
  | [] => (true, issuer)
  | ca :: rest =>
      if SSL_CTX_add_extra_chain_cert handle ca
      then read_chain handle x rest
             (match issuer with
              | Some _ => issuer
              | None => if X509_check_issued ca x then Some ca else None
              end)
      else (false, issuer)
  end.

(** From label [end] on, when [ret] is not 0 there: the value returned and
    the issuer and CertID the context is left with. *)
Definition find_issuer (handle : option SSL_CTX) (x : X509)
    (issuer : option X509) (id : option OCSP_CERTID)
  : Z * option X509 * option OCSP_CERTID :=
  let found :=
    match issuer with
    | Some _ => Some (1, issuer)
    | None =>
        if X509_STORE_CTX_init handle
        then match X509_STORE_CTX_get1_issuer handle x with
             | IssuerFound i => Some (1, Some i)
             | IssuerNotFound => Some (1, None)
             | IssuerError => Some (0, None)
             end
        else None
    end in
  match found with
  | None => (0, None, id)
  | Some (ret, Some i) =>
      match OCSP_cert_to_id x i with
      | Some cid => (ret, Some i, Some cid)
      | None => (ret, None, None)
      end
  | Some (ret, None) => (ret, None, id)
  end.

(** The value returned and the context as the call leaves it. *)
Definition bud_context_use_certificate_chain (c : bud_context_t)
    (input : pem_input) : Z * bud_context_t :=
  match pem_leaf input with
  | None => (0, c)
  | Some x =>
      if SSL_CTX_use_certificate (ctx c) x && negb (ERR_peek_error (ctx c) x)
      then
        let (added, issuer) := read_chain (ctx c) x (pem_chain input) None in
        if added && pem_ends_at_eof input
        then
          let '(ret, issuer, id) := find_issuer (ctx c) x issuer (ocsp_id c) in
          (ret, set_certificates c (Some x) issuer id)
        else (0, set_certificates c (Some x) issuer (ocsp_id c))
      else (0, set_certificates c (Some x) None (ocsp_id c))
  end.

End CertificateChain.


Module ExampleChain.

(** Certificate 10 was issued by 20, which comes second in its file; the
    store knows the issuer 30 of certificate 11. *)
Definition calls : CertificateCalls := {|
  SSL_CTX_use_certificate := fun _ _ => true;
  ERR_peek_error := fun _ _ => false;
  SSL_CTX_add_extra_chain_cert := fun _ _ => true;
  X509_check_issued := fun ca x =>
    ((ca =? 20) && (x =? 10))%nat || ((ca =? 30) && (x =? 11))%nat;
  X509_STORE_CTX_init := fun _ => true;
  X509_STORE_CTX_get1_issuer := fun _ x =>
    if (x =? 11)%nat then IssuerFound 30%nat else IssuerNotFound;
  OCSP_cert_to_id := fun x i => Some (x + i)%nat
|}.


End ExampleChain.

(** ** [bud_config_init] *)

(** The configuration with the fields of [bud_config_t] that
    [bud_config_init] uses and the record above leaves out. *)
Record bud_init_t : Type := mk_init {
  init_config : bud_config_t;
  is_worker : Z;
  frontend_addr : sockaddr_storage;
  backend_addr : sockaddr_storage;
  (** [config->workers != NULL] *)
  workers : bool;
  sni_pool : option nat;
  stapling_pool : option nat
}.

(** The two global ex-data indexes. *)
Record ssl_indexes : Type := mk_indexes {
  kBudSSLClientIndex : Z;
  kBudSSLSNIIndex : Z
}.

(** The answers to the calls of [bud_config_init] that leave [config.c]. *)
Class InitCalls : Type := {
  (** the results of the two calls of [SSL_get_ex_new_index] *)
  SSL_get_ex_new_index : Z * Z;
  (** whether the [calloc] of that many workers succeeds *)
  calloc_workers : Z -> bool;
  bud_logger_new : bud_error_t;
  (** the pool returned for a host and port, and the error stored through
      [err] when one is stored *)
  bud_http_pool_new : option string -> Z -> option nat * option bud_error_t;
  (** the content of the file opened, [None] when it cannot be opened *)
  BIO_new_file : option string -> option pem_input;
  (** [SSL_CTX_use_PrivateKey_file] returned non-zero *)
  SSL_CTX_use_PrivateKey_file : option SSL_CTX -> option string -> bool
}.

(** [config->contexts[i] = c]. *)
Fixpoint set_nth (l : list bud_context_t) (i : nat) (c : bud_context_t)
  : list bud_context_t :=
  match l, i with
  | [], _ => []
  | _ :: rest, O => c :: rest
  | a :: rest, S i' => a :: set_nth rest i' c
  end.

Definition set_context_at (config : bud_config_t) (i : nat)
    (c : bud_context_t) : bud_config_t :=
  mk_config (json config) (worker_count config) (restart_timeout config)
    (log config) (frontend config) (backend config) (sni config)
    (stapling config) (context_count config) (set_nth (contexts config) i c).

Definition set_init_config (state : bud_init_t) (config : bud_config_t)
  : bud_init_t :=
  mk_init config (is_worker state) (frontend_addr state) (backend_addr state)
    (workers state) (sni_pool state) (stapling_pool state).

(** The fields of a slot after [bud_context_free]; they do not depend on the
    encoded id that the slot may come with. *)
Definition freed_context (c : bud_context_t) : option bud_context_t :=
  match bud_context_free (mk_context_ids c None 0) with
  | Some (_, c') => Some (id_context c')
  | None => None
  end.

(** Label [fatal]: [bud_context_free] on the slots [i], [i - 1], ... 0. *)
Fixpoint free_contexts_down (config : bud_config_t) (i : nat)
  : option bud_config_t :=
  match freed_context (context_at config i) with
  | None => None
  | Some c =>
      let config := set_context_at config i c in
      match i with
      | O => Some config
      | S i' => free_contexts_down config i'
      end
  end.

Section Init.

Context {ext : Externals} {certs : CertificateCalls} {init : InitCalls}.

(** One round of the loop "Load all contexts", for slot [i]: the error of
    the round, [bud_ok] when the slot is complete, and the configuration
    with the slot as the round leaves it. *)
Definition init_context (config : bud_config_t) (i : nat)
  : option (bud_error_t * bud_config_t) :=
  match bud_config_new_ssl_ctx config (context_at config i) with
  | None => None
  | Some (err, config, c) =>
      let config := set_context_at config i c in
      if negb (bud_is_ok err) then Some (err, config)
      else
        let cert_file :=
          match i with
          | O => frontend_cert_file (frontend config)
          | S _ => cert_file c
          end in
        let key_file :=
          match i with
          | O => frontend_key_file (frontend config)
          | S _ => key_file c
          end in
        match BIO_new_file cert_file with
        | None => Some (mk_error kBudErrLoadCert cert_file 0, config)
        | Some bio =>
            let (r, c) := bud_context_use_certificate_chain c bio in
            let config := set_context_at config i c in
            if r =? 0
            then Some (mk_error kBudErrParseCert cert_file 0, config)
            else if SSL_CTX_use_PrivateKey_file (ctx c) key_file
            then Some (bud_ok, config)
            else Some (mk_error kBudErrParseKey key_file 0, config)
        end
  end.

(** The loop from slot [i] with [remaining = context_count + 1 - i] rounds
    to go: [bud_ok] and the configuration when every round succeeds, or the
    error of the first round that fails with the configuration after label
    [fatal]. *)
Fixpoint init_contexts (config : bud_config_t) (i remaining : nat)
  : option (bud_error_t * bud_config_t) :=
  match remaining with
  | O => Some (bud_ok, config)
  | S remaining' =>
      match init_context config i with
      | None => None
      | Some (err, config) =>
          if bud_is_ok err
          then init_contexts config (S i) remaining'
          else match free_contexts_down config i with
               | Some config => Some (err, config)
               | None => None
               end
      end
  end.

(** An exit through label [fatal] before the loop, where [i] is 0. *)
Definition init_fatal (err : bud_error_t) (indexes : ssl_indexes)
    (state : bud_init_t) : option (bud_error_t * ssl_indexes * bud_init_t) :=
  match free_contexts_down (init_config state) 0 with
  | Some config => Some (err, indexes, set_init_config state config)
  | None => None
  end.

(** The pool of one directory service, when it is enabled: the pool, and
    [err] after the call. *)
Definition connect_pool (pool : bud_config_http_pool_t) (err : bud_error_t)
  : option nat * bud_error_t :=
  let (p, e) := bud_http_pool_new (pool_host pool) (pool_port pool) in
  (p, match e with
      | Some e' => e'
      | None => err
      end).

(** The error returned, the global indexes and the configuration as the
    call leaves them.  [None] where C leaves the behaviour undefined: a
    [NULL] host, the return of [err] before anything was stored in it (when
    no ex-data index can be had), and what is undefined in the functions
    called. *)
Definition bud_config_init (indexes : ssl_indexes) (state : bud_init_t)
  : option (bud_error_t * ssl_indexes * bud_init_t) :=
  let config := init_config state in
  match frontend_host (frontend config), backend_host (backend config) with
  | Some fhost, Some bhost =>
      let f := bud_config_str_to_addr fhost (frontend_port (frontend config))
                 (frontend_addr state) in
      let state :=
        mk_init config (is_worker state) (addr_out f) (backend_addr state)
          (workers state) (sni_pool state) (stapling_pool state) in
      if negb (addr_r f =? 0)
      then init_fatal (bud_error_num kBudErrPton (addr_r f)) indexes state
      else
        let b := bud_config_str_to_addr bhost (backend_port (backend config))
                   (backend_addr state) in
        let state :=
          mk_init config (is_worker state) (frontend_addr state) (addr_out b)
            (workers state) (sni_pool state) (stapling_pool state) in
        if negb (addr_r b =? 0)
        then init_fatal (bud_error_num kBudErrPton (addr_r b)) indexes state
        else
          let indexes' :=
            if kBudSSLClientIndex indexes =? -1
            then mk_indexes (fst SSL_get_ex_new_index)
                   (snd SSL_get_ex_new_index)
            else indexes in
          if (kBudSSLClientIndex indexes =? -1)
             && ((kBudSSLClientIndex indexes' =? -1)
                 || (kBudSSLSNIIndex indexes' =? -1))
          then None
          else
            let allocated :=
              if is_worker state =? 0
              then calloc_workers (worker_count config)
              else workers state in
            let state :=
              mk_init config (is_worker state) (frontend_addr state)
                (backend_addr state) allocated (sni_pool state)
                (stapling_pool state) in
            if (is_worker state =? 0) && negb allocated
            then init_fatal (bud_error_str kBudErrNoMem "workers") indexes'
                   state
            else
              let err := bud_logger_new in
              if negb (bud_is_ok err) then init_fatal err indexes' state
              else
                let serves :=
                  negb (is_worker state =? 0) || (worker_count config =? 0) in
                let (spool, err) :=
                  if serves && negb (pool_enabled (sni config) =? 0)
                  then connect_pool (sni config) err
                  else (sni_pool state, err) in
                let state :=
                  mk_init config (is_worker state) (frontend_addr state)
                    (backend_addr state) allocated spool
                    (stapling_pool state) in
                if serves && negb (pool_enabled (sni config) =? 0)
                   && match spool with Some _ => false | None => true end
                then init_fatal err indexes' state
                else
                  let (opool, err) :=
                    if serves && negb (pool_enabled (stapling config) =? 0)
                    then connect_pool (stapling config) err
                    else (stapling_pool state, err) in
                  let state :=
                    mk_init config (is_worker state) (frontend_addr state)
                      (backend_addr state) allocated spool opool in
                  if serves && negb (pool_enabled (stapling config) =? 0)
                     && match opool with Some _ => false | None => true end
                  then init_fatal err indexes' state
                  else
                    match init_contexts config 0 (S (context_count config))
                    with
                    | Some (err, config) =>
                        Some (err, indexes', set_init_config state config)
                    | None => None
                    end
  | _, _ => None
  end.

End Init.

Module ExampleInit.

Definition calls : InitCalls := {|
  SSL_get_ex_new_index := (0, 1);
  calloc_workers := fun _ => true;
  bud_logger_new := bud_ok;
  bud_http_pool_new := fun _ _ => (Some 1%nat, None);
  BIO_new_file := fun name =>
    match name with
    | Some _ => Some (mk_pem (Some 10%nat) [20%nat] true)
    | None => None
    end;
  SSL_CTX_use_PrivateKey_file := fun _ _ => true
|}.

(** One context besides the default one, with its own files; the frontend
    listens on an address that parses. *)
Definition one_host : Parson.JSON_Value :=
  Parson.JSONObject
    [("frontend", Parson.JSONObject [("host", Parson.JSONString "127.0.0.1")]);
     ("contexts",
      Parson.JSONArray
        [Parson.JSONObject [("servername", Parson.JSONString "a.example");
                            ("cert", Parson.JSONString "keys/a.pem");
                            ("key", Parson.JSONString "keys/a.key")]])].

Definition env : Externals :=
  Examples.with_files Sample.env (fun _ => Some one_host).

Definition config : bud_config_t :=
  match fst (bud_config_load (ext := env) "one_host.json") with
  | Some config => config
  | None => Examples.empty_config
  end.

Definition start : bud_init_t :=
  mk_init config 0 (mk_sockaddr None 0 [] []) (mk_sockaddr None 0 [] []) false
    None None.

Definition no_indexes : ssl_indexes := mk_indexes (-1) (-1).

End ExampleInit.

(** A slot that [bud_config_init] has completed, next to the slot [c0] it
    was before: it has an [SSL_CTX] with the session cache off and the
    status callback, and a certificate, and it answers to the same name. *)
Definition slot_ready (c0 c : bud_context_t) : Prop :=
  (exists h,
     ctx c = Some h /\
     session_cache_mode h = SSL_SESS_CACHE_OFF /\
     tlsext_status_cb h = true) /\
  cert c <> None /\
  servername c = servername c0 /\
  servername_len c = servername_len c0.

(** A slot that holds nothing that [bud_context_free] would release. *)
Definition slot_empty (c : bud_context_t) : Prop :=
  ctx c = None /\ cert c = None /\ issuer c = None /\ ocsp_id c = None /\
  npn_line c = BufNull.

Module ExampleInitFailure.

(** As [ExampleInit.calls], but the certificate file of the context cannot
    be opened. *)
Definition calls : InitCalls := {|
  SSL_get_ex_new_index := (0, 1);
  calloc_workers := fun _ => true;
  bud_logger_new := bud_ok;
  bud_http_pool_new := fun _ _ => (Some 1%nat, None);
  BIO_new_file := fun name =>
    match name with
    | Some n =>
        if String.eqb n "keys/a.pem" then None
        else Some (mk_pem (Some 10%nat) [20%nat] true)
    | None => None
    end;
  SSL_CTX_use_PrivateKey_file := fun _ _ => true
|}.

End ExampleInitFailure.

(** * Properties *)

(** ** C strings *)

Lemma code_nonneg (a : ascii) : 0 <= CStr.code a.
Proof. unfold CStr.code. apply N2Z.is_nonneg. Qed.

Lemma tolower_zero (c : Z) : 0 <= c -> (CStr.tolower c = 0 <-> c = 0).
Proof.
  intros Hc. unfold CStr.tolower.
  destruct (65 <=? c) eqn:E1; destruct (c <=? 90) eqn:E2; simpl; lia.
Qed.

Lemma strlen_bytes (s : string) : List.length (CStr.bytes s) = CStr.strlen s.
Proof.
  induction s as [|a s IH]; simpl; [reflexivity|].
  destruct (CStr.is_nul a); simpl; congruence.
Qed.

Lemma strlen_succ (s : string) (n : nat) :
  CStr.strlen s = S n ->
  exists a s', s = String a s' /\ CStr.is_nul a = false /\ CStr.strlen s' = n.
Proof.
  destruct s as [|a s']; simpl; [discriminate|].
  destruct (CStr.is_nul a) eqn:E; [discriminate|].
  intros H. exists a, s'. split; [reflexivity|].
  split; [assumption | congruence].
Qed.

(** Over two strings of length [n], [strncasecmp (l, r, n)] is 0 exactly when
    the strings are equal up to the case of letters. *)
Lemma strncasecmp_full (n : nat) :
  forall l r, CStr.strlen l = n -> CStr.strlen r = n ->
  (CStr.strncasecmp l r n = 0 <-> CStr.lower_bytes l = CStr.lower_bytes r).
Proof.
  induction n as [|n IH]; intros l r Hl Hr.
  - unfold CStr.lower_bytes.
    pose proof (strlen_bytes l) as Bl. pose proof (strlen_bytes r) as Br.
    rewrite Hl in Bl. rewrite Hr in Br.
    destruct (CStr.bytes l); [|discriminate].
    destruct (CStr.bytes r); [|discriminate].
    simpl. tauto.
  - destruct (strlen_succ l n Hl) as (a & l' & -> & Ha & Hl').
    destruct (strlen_succ r n Hr) as (b & r' & -> & Hb & Hr').
    unfold CStr.lower_bytes. simpl. rewrite Ha, Hb. simpl.
    unfold CStr.is_nul in Ha. rewrite Ha. simpl.
    destruct (CStr.tolower (CStr.code a) =? CStr.tolower (CStr.code b)) eqn:E;
      simpl.
    + apply Z.eqb_eq in E. rewrite (IH l' r' Hl' Hr').
      unfold CStr.lower_bytes. split; intros H.
      * now rewrite E, H.
      * now inversion H.
    + apply Z.eqb_neq in E. split; intros H.
      * lia.
      * inversion H. contradiction.
Qed.

(** [strcmp] returns 0 exactly on equal C strings. *)
Lemma strcmp_zero (l : string) :
  forall r, CStr.strcmp l r = 0 <-> CStr.bytes l = CStr.bytes r.
Proof.
  induction l as [|a l IH]; intros r.
  - simpl. destruct r as [|b r]; simpl; [tauto|].
    unfold CStr.is_nul. pose proof (code_nonneg b).
    destruct (CStr.code b =? 0) eqn:E.
    + apply Z.eqb_eq in E. split; [reflexivity | lia].
    + apply Z.eqb_neq in E. split; [lia | discriminate].
  - simpl. unfold CStr.is_nul.
    destruct (CStr.code a =? 0) eqn:Ea.
    + apply Z.eqb_eq in Ea. rewrite Bool.andb_false_r.
      destruct r as [|b r]; simpl.
      * split; [reflexivity | lia].
      * unfold CStr.is_nul. destruct (CStr.code b =? 0) eqn:Eb.
        -- apply Z.eqb_eq in Eb. split; [reflexivity | lia].
        -- apply Z.eqb_neq in Eb. split; [lia | discriminate].
    + apply Z.eqb_neq in Ea. rewrite Bool.andb_true_r.
      destruct r as [|b r]; simpl.
      * destruct (CStr.code a =? 0) eqn:E0; [apply Z.eqb_eq in E0; lia|].
        split; [lia | discriminate].
      * unfold CStr.is_nul.
        destruct (CStr.code a =? CStr.code b) eqn:Eab.
        -- apply Z.eqb_eq in Eab.
           assert (a = b) as ->.
           { unfold CStr.code in Eab. apply N2Z.inj in Eab.
             rewrite <- (ascii_N_embedding a), <- (ascii_N_embedding b).
             now rewrite Eab. }
           destruct (CStr.code b =? 0) eqn:Eb; [apply Z.eqb_eq in Eb; lia|].
           rewrite IH. split; intros H; [now rewrite H | now inversion H].
        -- apply Z.eqb_neq in Eab.
           destruct (CStr.code b =? 0) eqn:Eb.
           ++ split; [lia | discriminate].
           ++ split; [lia|]. intros H. inversion H. subst. contradiction.
Qed.

(** ** The context table: [bud_config_select_context] *)

(** What the loop returns from index [i] on: slot 0, or a later slot that
    passed both tests of the loop body. *)
Lemma select_context_loop_result (config : bud_config_t) (name : string)
    (name_len : nat) :
  forall remaining i,
    let k := select_context_loop config name name_len i remaining in
    k = O \/
    ((i < k <= i + remaining)%nat /\
     name_len = servername_len (context_at config k) /\
     CStr.strncasecmp name (servername_chars (context_at config k)) name_len
     = 0).
Proof.
  induction remaining as [|remaining IH]; intros i; simpl.
  - now left.
  - destruct (name_len =? servername_len (context_at config (i + 1)))%nat
      eqn:Elen; simpl.
    + apply Nat.eqb_eq in Elen.
      destruct (CStr.strncasecmp name
                  (servername_chars (context_at config (i + 1)))
                  (servername_len (context_at config (i + 1))) =? 0) eqn:Ecmp;
        simpl.
      * apply Z.eqb_eq in Ecmp. right. rewrite Elen.
        repeat split; try lia; try assumption.
      * now left.
    + destruct (IH (S i)) as [H0 | (Hk & Hlen & Hcmp)].
      * now left.
      * right. repeat split; try lia; assumption.
Qed.

(** The loop decides on the first slot whose stored length equals the length
    of the query: slots of another length are skipped, and nothing after the
    deciding slot is looked at. *)
Lemma select_context_loop_first_same_length (config : bud_config_t)
    (name : string) (name_len : nat) :
  forall remaining i,
    name_len = servername_len (context_at config (i + 1)) ->
    select_context_loop config name name_len i (S remaining)
    = if CStr.strncasecmp name (servername_chars (context_at config (i + 1)))
           name_len =? 0
      then (i + 1)%nat else O.
Proof.
  intros remaining i Hlen. simpl. rewrite <- Hlen, Nat.eqb_refl. simpl.
  now destruct (CStr.strncasecmp name
                  (servername_chars (context_at config (i + 1))) name_len =? 0).
Qed.

(** C1, evaluated on the table [a.example], [b.example]: the query
    [b.example] equals the name of slot 2 at full length, and
    [bud_config_select_context] returns slot 0, the default context.  Slot 1
    has the length of the query and another name, and the [break] on it ends
    the scan. *)
Theorem select_context_misses_second_entry :
  servername (context_at Sample.two_hosts_config 2) = Some "b.example" /\
  servername_len (context_at Sample.two_hosts_config 2) = CStr.strlen "b.example" /\
  CStr.lower_bytes "b.example"
  = CStr.lower_bytes (servername_chars (context_at Sample.two_hosts_config 2)) /\
  bud_config_select_context Sample.two_hosts_config "b.example"
    (CStr.strlen "b.example") = O.
Proof. repeat split. Qed.

(** C2: lookup is total.  On a configuration whose array holds its
    [context_count + 1] slots, [bud_config_select_context] returns, for every
    server name, the index of a slot of the array: slot 0, the default
    context, or an entry whose name equals the query at full length up to
    case. *)
Theorem select_context_total (config : bud_config_t) (name : string) :
  contexts_allocated config ->
  servername_lengths_stored config ->
  let k := bud_config_select_context config name (CStr.strlen name) in
  (k <= context_count config)%nat /\
  nth_error (contexts config) k = Some (context_at config k) /\
  (k = O \/
   (servername_len (context_at config k) = CStr.strlen name /\
    CStr.lower_bytes name
    = CStr.lower_bytes (servername_chars (context_at config k)))).
Proof.
  intros Halloc Hlens.
  pose proof (select_context_loop_result config name (CStr.strlen name)
                (context_count config) 0) as Hres.
  unfold bud_config_select_context. cbv zeta in *.
  remember (select_context_loop config name (CStr.strlen name) 0
              (context_count config)) as k eqn:Ek.
  clear Ek.
  assert (Hbound : (k <= context_count config)%nat)
    by (destruct Hres as [H0 | (Hk & _)]; lia).
  assert (Hin : (k < List.length (contexts config))%nat)
    by (unfold contexts_allocated in Halloc; lia).
  split; [exact Hbound|]. split.
  - unfold context_at. now apply nth_error_nth'.
  - destruct Hres as [H0 | (_ & Hlen & Hcmp)]; [now left|].
    right. split; [now symmetry|].
    apply (strncasecmp_full (CStr.strlen name)); try reflexivity;
      try assumption.
    rewrite Hlen. symmetry.
    unfold servername_lengths_stored in Hlens.
    rewrite Forall_forall in Hlens. apply Hlens.
    unfold context_at. now apply nth_In.
Qed.

Lemma select_context_total_witness :
  contexts_allocated Sample.two_hosts_config /\
  servername_lengths_stored Sample.two_hosts_config /\
  let k := bud_config_select_context Sample.two_hosts_config "A.EXAMPLE"
             (CStr.strlen "A.EXAMPLE") in
  (k <= context_count Sample.two_hosts_config)%nat /\
  nth_error (contexts Sample.two_hosts_config) k
  = Some (context_at Sample.two_hosts_config k) /\
  (k = O \/
   (servername_len (context_at Sample.two_hosts_config k)
    = CStr.strlen "A.EXAMPLE" /\
    CStr.lower_bytes "A.EXAMPLE"
    = CStr.lower_bytes
        (servername_chars (context_at Sample.two_hosts_config k)))).
Proof.
  assert (Ha : contexts_allocated Sample.two_hosts_config) by reflexivity.
  assert (Hl : servername_lengths_stored Sample.two_hosts_config)
    by (repeat constructor).
  split; [exact Ha|]. split; [exact Hl|].
  exact (select_context_total Sample.two_hosts_config "A.EXAMPLE" Ha Hl).
Defined.

(** ** Loading: [bud_config_verify_npn], [bud_config_load] *)

Lemma verify_npn_result (npn : option Parson.JSON_Array) :
  bud_config_verify_npn npn
  = if npn_has_non_string npn then bud_error kBudErrNPNNonString else bud_ok.
Proof.
  destruct npn as [items|]; simpl; [|reflexivity].
  induction items as [|v items IH]; simpl; [reflexivity|].
  destruct (Parson.is_JSONString v); simpl; [exact IH | reflexivity].
Qed.

Lemma get_object_some (v : Parson.JSON_Value) (obj : Parson.JSON_Object) :
  Parson.json_value_get_object v = Some obj <-> v = Parson.JSONObject obj.
Proof.
  destruct v; simpl; split; intros H; try discriminate;
    injection H as ->; reflexivity.
Qed.

(** A successful pass over "contexts" fills one slot per entry, in order. *)
Lemma load_contexts_slots (entries : Parson.JSON_Array) :
  forall slots,
    load_contexts entries = inr slots ->
    List.length slots = List.length entries /\
    forall i v, nth_error entries i = Some v ->
      exists obj, v = Parson.JSONObject obj /\
                  nth_error slots i = Some (load_context obj).
Proof.
  induction entries as [|v entries IH]; intros slots H;
    cbn [load_contexts] in H.
  - injection H as <-. split; [reflexivity|].
    intros [|i] w Hw; discriminate.
  - destruct (Parson.json_value_get_object v) as [obj|] eqn:Ev;
      [|discriminate].
    destruct (bud_is_ok (bud_config_verify_npn (npn (load_context obj))));
      [|discriminate].
    destruct (load_contexts entries) as [e|rest]; [discriminate|].
    injection H as <-. destruct (IH rest eq_refl) as [Hlen Hnth].
    split; [simpl; congruence|].
    intros [|i] w Hw; simpl in *.
    + injection Hw as <-. exists obj. split; [|reflexivity].
      now apply get_object_some.
    + now apply Hnth.
Qed.

(** The pass over "contexts" stops with the NPN error exactly when it reaches
    an entry whose "npn" array holds a non-string. *)
Lemma load_contexts_npn_error (entries : Parson.JSON_Array) :
  (exists e, load_contexts entries = inl e /\ code e = kBudErrNPNNonString)
  <-> npn_fault_reached entries.
Proof.
  unfold npn_fault_reached.
  induction entries as [|v entries IH]; cbn [load_contexts].
  - split.
    + intros (e & H & _). discriminate.
    + intros ([|i] & obj & H & _); discriminate.
  - destruct (Parson.json_value_get_object v) as [obj|] eqn:Ev.
    + apply get_object_some in Ev. subst v.
      change (npn (load_context obj))
        with (Parson.json_object_get_array obj "npn").
      rewrite verify_npn_result.
      destruct (npn_has_non_string (Parson.json_object_get_array obj "npn"))
        eqn:Enpn; simpl.
      * split.
        -- intros _. exists O, obj. repeat split; try assumption.
           intros j Hj. lia.
        -- intros _. eexists. split; reflexivity.
      * split.
        -- intros (e & H & He).
           destruct (load_contexts entries) as [e'|rest] eqn:El;
             [|discriminate].
           injection H as ->.
           destruct (proj1 IH) as (i & o & Hi & Hn & Hbefore).
           { exists e. now split. }
           exists (S i), o. repeat split; try assumption.
           intros [|j] Hj; simpl.
           ++ now exists obj.
           ++ apply Hbefore. lia.
        -- intros (i & o & Hi & Hn & Hbefore).
           destruct i as [|i]; simpl in Hi.
           ++ injection Hi as <-. congruence.
           ++ destruct (proj2 IH) as (e & He & Hc).
              { exists i, o. repeat split; try assumption.
                intros j Hj. apply (Hbefore (S j)). lia. }
              rewrite He. now exists e.
    + split.
      * intros (e & H & He). injection H as <-. discriminate.
      * intros (i & o & Hi & Hn & Hbefore).
        destruct i as [|i]; simpl in Hi.
        -- injection Hi as ->. discriminate.
        -- destruct (Hbefore O) as (o' & Ho'); [lia|].
           simpl in Ho'. injection Ho' as ->. discriminate.
Qed.

(** The file parsed to the object [obj] and the configuration was allocated. *)
Ltac file_parsed obj :=
  exists (Parson.JSONObject obj), obj;
  split; [reflexivity|]; split; [reflexivity|]; split; [assumption|].

Section Loading.

Context {ext : Externals}.

(** What a successful [bud_config_load] returns: the file parsed to an
    object, and the slots hold what the pass over its "contexts" stored. *)
Lemma load_success (path : string) (config : bud_config_t)
    (err : bud_error_t) :
  bud_config_load path = (Some config, err) ->
  exists value obj slots,
    json_parse_file path = Some value /\
    value = Parson.JSONObject obj /\
    load_contexts (contexts_of_file obj) = inr slots /\
    context_count config = List.length (contexts_of_file obj) /\
    contexts config = zeroed_context :: slots /\
    err = bud_ok.
Proof.
  unfold bud_config_load. intros H.
  destruct (json_parse_file path) as [value|]; [|discriminate].
  destruct (Parson.json_value_get_object value) as [obj|] eqn:Ev;
    [|discriminate].
  apply get_object_some in Ev.
  fold (contexts_of_file obj) in H.
  destruct (negb (calloc_config
                    (Parson.json_array_get_count (contexts_of_file obj))));
    [discriminate|].
  destruct (load_frontend obj) as [ferr fe].
  destruct (negb (bud_is_ok ferr)); [discriminate|].
  destruct (load_contexts (contexts_of_file obj)) as [e|slots] eqn:El;
    [discriminate|].
  injection H as <- <-.
  exists value, obj, slots. repeat split; assumption || reflexivity.
Qed.

(** C4, as amended: after [bud_config_load] succeeds the array holds
    [context_count + 1] slots; slot 0, the default context, has no
    servername; and slot [i + 1] carries the "servername" of entry [i] of the
    "contexts" array of the file, in the order of the file, with its length
    ([NULL] and 0 when the entry has none). *)
Theorem load_contexts_in_file_order (path : string) (config : bud_config_t)
    (err : bud_error_t) :
  bud_config_load path = (Some config, err) ->
  exists value obj,
    json_parse_file path = Some value /\
    value = Parson.JSONObject obj /\
    context_count config = List.length (contexts_of_file obj) /\
    contexts_allocated config /\
    servername (context_at config 0) = None /\
    forall i v,
      nth_error (contexts_of_file obj) i = Some v ->
      exists o,
        v = Parson.JSONObject o /\
        servername (context_at config (S i))
        = Parson.json_object_get_string o "servername" /\
        servername_len (context_at config (S i))
        = match Parson.json_object_get_string o "servername" with
          | Some s => CStr.strlen s
          | None => O
          end.
Proof.
  intros H.
  destruct (load_success path config err H)
    as (value & obj & slots & Hfile & Hobj & Hslots & Hcount & Hctx & _).
  destruct (load_contexts_slots _ _ Hslots) as [Hlen Hnth].
  exists value, obj. repeat split; try assumption.
  - unfold contexts_allocated. rewrite Hctx, Hcount. simpl. congruence.
  - unfold context_at. now rewrite Hctx.
  - intros i v Hv. destruct (Hnth i v Hv) as (o & Ho & Hslot).
    exists o. split; [exact Ho|].
    unfold context_at. rewrite Hctx. simpl.
    rewrite (nth_error_nth _ _ _ Hslot). split; reflexivity.
Qed.

(** The invariants of the table that lookup relies on hold after loading. *)
Lemma load_establishes_table (path : string) (config : bud_config_t)
    (err : bud_error_t) :
  bud_config_load path = (Some config, err) ->
  contexts_allocated config /\ servername_lengths_stored config.
Proof.
  intros H.
  destruct (load_success path config err H)
    as (value & obj & slots & Hfile & Hobj & Hslots & Hcount & Hctx & _).
  destruct (load_contexts_slots _ _ Hslots) as [Hlen Hnth].
  split.
  - unfold contexts_allocated. rewrite Hctx, Hcount. simpl. congruence.
  - unfold servername_lengths_stored. rewrite Hctx.
    constructor; [reflexivity|].
    apply Forall_forall. intros c Hc.
    destruct (In_nth_error _ _ Hc) as [i Hi].
    assert (Hlt : (i < List.length (contexts_of_file obj))%nat).
    { rewrite <- Hlen. apply nth_error_Some. congruence. }
    destruct (nth_error (contexts_of_file obj) i) as [v|] eqn:Ev.
    + destruct (Hnth i v Ev) as (o & _ & Hslot).
      rewrite Hi in Hslot. injection Hslot as ->.
      unfold load_context, servername_chars. simpl.
      now destruct (Parson.json_object_get_string o "servername").
    + apply nth_error_None in Ev. lia.
Qed.

(** Past a frontend without fault, the outcome is that of the pass over
    "contexts". *)
Lemma contexts_pass_decides (obj : Parson.JSON_Object)
    (make : list bud_context_t -> bud_config_t) :
  calloc_config (List.length (contexts_of_file obj)) = true ->
  ~ frontend_npn_fault obj ->
  code (snd match load_contexts (contexts_of_file obj) with
            | inl e => (None, e)
            | inr slots => (Some (make slots), bud_ok)
            end) = kBudErrNPNNonString <->
  exists value obj',
    Some (Parson.JSONObject obj) = Some value /\
    value = Parson.JSONObject obj' /\
    calloc_config (List.length (contexts_of_file obj')) = true /\
    (frontend_npn_fault obj' \/ npn_fault_reached (contexts_of_file obj')).
Proof.
  intros Hcalloc Hfront.
  destruct (load_contexts (contexts_of_file obj)) as [e|slots] eqn:El; simpl.
  - split.
    + intros He. file_parsed obj. right.
      apply load_contexts_npn_error. now exists e.
    + intros (v & o & Hv & Ho & _ & [Hf | Hreach]);
        injection Hv as <-; injection Ho as <-; [contradiction|].
      apply load_contexts_npn_error in Hreach as (e' & He' & Hc).
      congruence.
  - split; [discriminate|].
    intros (v & o & Hv & Ho & _ & [Hf | Hreach]);
      injection Hv as <-; injection Ho as <-; [contradiction|].
    apply load_contexts_npn_error in Hreach as (e' & He' & Hc).
    congruence.
Qed.

(** C9, as amended: [bud_config_load] fails with [kBudErrNPNNonString]
    exactly when the file parses to an object, the configuration is
    allocated, and a non-string is found in the "npn" array of the frontend
    or in that of a context entry that the loop reaches, every entry before
    it being an object; and [bud_config_verify_npn] fails exactly on an array
    with an element that is not a string, with that error, and succeeds on
    an absent array. *)
Theorem load_npn_error_iff (path : string) :
  (code (snd (bud_config_load path)) = kBudErrNPNNonString <->
   exists value obj,
     json_parse_file path = Some value /\
     value = Parson.JSONObject obj /\
     calloc_config (List.length (contexts_of_file obj)) = true /\
     (frontend_npn_fault obj \/ npn_fault_reached (contexts_of_file obj))) /\
  (forall npn,
     bud_config_verify_npn npn
     = if npn_has_non_string npn
       then bud_error kBudErrNPNNonString else bud_ok) /\
  bud_config_verify_npn None = bud_ok.
Proof.
  split; [|split; [exact verify_npn_result | reflexivity]].
  unfold bud_config_load.
  destruct (json_parse_file path) as [value|];
    [|split; [discriminate | intros (? & ? & ? & _); discriminate]].
  destruct (Parson.json_value_get_object value) as [obj|] eqn:Ev.
  2:{ split; [discriminate|].
      intros (v & o & Hv & Ho & _). injection Hv as <-. subst value.
      discriminate. }
  apply get_object_some in Ev. subst value.
  fold (contexts_of_file obj).
  unfold Parson.json_array_get_count.
  destruct (calloc_config (List.length (contexts_of_file obj))) eqn:Ecalloc;
    simpl.
  2:{ split; [discriminate|].
      intros (v & o & Hv & Ho & Hc & _). injection Hv as <-.
      injection Ho as <-. congruence. }
  assert (Hfront :
            fst (load_frontend obj)
            = match Parson.json_object_get_object obj "frontend" with
              | Some f =>
                  if npn_has_non_string (Parson.json_object_get_array f "npn")
                  then bud_error kBudErrNPNNonString else bud_ok
              | None => bud_ok
              end).
  { unfold load_frontend.
    destruct (Parson.json_object_get_object obj "frontend"); simpl;
      [apply verify_npn_result | reflexivity]. }
  destruct (load_frontend obj) as [ferr fe]. simpl in Hfront. subst ferr.
  destruct (Parson.json_object_get_object obj "frontend") as [f|] eqn:Ef.
  - destruct (npn_has_non_string (Parson.json_object_get_array f "npn"))
      eqn:Enpn; simpl.
    + split; [|reflexivity]. intros _. file_parsed obj.
      left. now exists f.
    + apply contexts_pass_decides; [assumption|].
      intros (f' & Hf' & Hn). congruence.
  - simpl. apply contexts_pass_decides; [assumption|].
    intros (f' & Hf' & _). congruence.
Qed.

End Loading.

Lemma load_contexts_in_file_order_witness :
  bud_config_load (ext := Sample.env) "two_hosts.json"
  = (Some Sample.two_hosts_config, bud_ok) /\
  exists value obj,
    json_parse_file (Externals := Sample.env) "two_hosts.json" = Some value /\
    value = Parson.JSONObject obj /\
    context_count Sample.two_hosts_config
    = List.length (contexts_of_file obj) /\
    contexts_allocated Sample.two_hosts_config /\
    servername (context_at Sample.two_hosts_config 0) = None /\
    forall i v,
      nth_error (contexts_of_file obj) i = Some v ->
      exists o,
        v = Parson.JSONObject o /\
        servername (context_at Sample.two_hosts_config (S i))
        = Parson.json_object_get_string o "servername" /\
        servername_len (context_at Sample.two_hosts_config (S i))
        = match Parson.json_object_get_string o "servername" with
          | Some s => CStr.strlen s
          | None => O
          end.
Proof.
  assert (H : bud_config_load (ext := Sample.env) "two_hosts.json"
              = (Some Sample.two_hosts_config, bud_ok)) by reflexivity.
  split; [exact H|].
  exact (load_contexts_in_file_order (ext := Sample.env) _ _ _ H).
Defined.

(** C4 fails as stated: a file whose "contexts" are out of order, repeat a
    name and include an entry without a name loads without error, and the
    table keeps the entries as the file has them. *)
Lemma load_accepts_unordered_table :
  exists config,
    bud_config_load (ext := Sample.env) "unordered.json"
    = (Some config, bud_ok) /\
    table_servernames config
    = [Some "b.example"; Some "a.example"; Some "a.example"; None] /\
    servernames_sorted (table_servernames config) = false /\
    servernames_unique (table_servernames config) = false /\
    forallb servername_nonempty (table_servernames config) = false.
Proof.
  eexists. split; [reflexivity|]. repeat split.
Qed.

(** C9 fails as stated: the "npn" array of the second entry holds a number,
    and loading fails with the error of the first entry, which is not an
    object. *)
Lemma load_reports_first_refusal :
  bud_config_load (ext := Sample.env) "number_then_npn.json"
  = (None, bud_error kBudErrJSONNonObjectCtx) /\
  exists obj item,
    json_parse_file (Externals := Sample.env) "number_then_npn.json"
    = Some (Parson.JSONObject obj) /\
    nth_error (contexts_of_file obj) 1 = Some (Parson.JSONObject item) /\
    npn_has_non_string (Parson.json_object_get_array item "npn") = true.
Proof.
  split; [reflexivity|]. do 2 eexists. repeat split.
Qed.

(** ** The NPN line: [bud_config_encode_npn] *)

Lemma npn_items_of_strings (tokens : list string) :
  npn_items (map Parson.JSONString tokens) = Some tokens.
Proof.
  induction tokens as [|s tokens IH]; simpl; [reflexivity|].
  now rewrite IH.
Qed.

Lemma fill_npn_line_length (items : list string) :
  List.length (fill_npn_line items) = npn_storage items.
Proof.
  induction items as [|s items IH]; simpl; [reflexivity|].
  rewrite length_app, strlen_bytes, IH. reflexivity.
Qed.

(** The line is the concatenation of the tokens, each behind its octet. *)
Lemma fill_npn_line_concat (items : list string) :
  fill_npn_line items
  = List.concat (map (fun s => length_octet (CStr.strlen s) :: CStr.bytes s) items).
Proof.
  induction items as [|s items IH]; simpl; [reflexivity|].
  now rewrite IH.
Qed.

Lemma length_octet_value (n : nat) :
  (n <= 255)%nat -> nat_of_ascii (length_octet n) = n.
Proof.
  intros Hn. unfold length_octet.
  rewrite Nat.mod_small by lia. apply nat_ascii_embedding. lia.
Qed.

(** Reading the line back returns the tokens, given fuel beyond its length. *)
Lemma decode_fill_npn_line (items : list string) :
  Forall (fun s => (CStr.strlen s <= 255)%nat) items ->
  forall fuel,
    (List.length (fill_npn_line items) < fuel)%nat ->
    decode_npn_fuel fuel (fill_npn_line items) = Some (map CStr.bytes items).
Proof.
  induction 1 as [|s items Hs _ IH]; intros fuel Hfuel.
  - destruct fuel; [simpl in Hfuel; lia | reflexivity].
  - destruct fuel as [|fuel]; [lia|].
    cbn [fill_npn_line decode_npn_fuel map].
    cbn [fill_npn_line List.length] in Hfuel.
    rewrite length_app, strlen_bytes in *.
    rewrite (length_octet_value _ Hs).
    replace (CStr.strlen s <=? CStr.strlen s + List.length (fill_npn_line items))%nat
      with true by (symmetry; apply Nat.leb_le; lia).
    rewrite skipn_app, firstn_app, strlen_bytes, Nat.sub_diag.
    rewrite skipn_all2, firstn_all2 by (rewrite strlen_bytes; lia).
    simpl. rewrite app_nil_r.
    rewrite IH by lia. reflexivity.
Qed.

Section Encoding.

Context {ext : Externals}.

(** C5, as amended: for the configured list of tokens (the context's own
    array, else the frontend's), [bud_config_encode_npn] produces the line
    that concatenates, in list order, one length octet and the bytes of each
    token, and its length; when every token is at most 255 bytes long,
    reading the line back by the wire format yields the tokens in order. *)
Theorem encode_npn_round_trip (config : bud_config_t)
    (npn : option Parson.JSON_Array) (tokens : list string) :
  match npn with
  | Some a => Some a
  | None => frontend_npn (frontend config)
  end = Some (map Parson.JSONString tokens) ->
  malloc (npn_storage tokens) = true ->
  exists r,
    bud_config_encode_npn config npn = Some r /\
    encoded_err r = bud_ok /\
    encoded_len r = Some (npn_storage tokens) /\
    npn_line_bytes (encoded_line r) (npn_storage tokens)
    = List.concat (map (fun s => length_octet (CStr.strlen s) :: CStr.bytes s)
                tokens) /\
    (Forall (fun s => (CStr.strlen s <= 255)%nat) tokens ->
     decode_npn (npn_line_bytes (encoded_line r) (npn_storage tokens))
     = Some (map CStr.bytes tokens)).
Proof.
  intros Hnpn Hmalloc. unfold bud_config_encode_npn.
  replace (match npn with
           | Some _ => npn
           | None => frontend_npn (frontend config)
           end) with (Some (map Parson.JSONString tokens))
    by (rewrite <- Hnpn; now destruct npn).
  rewrite npn_items_of_strings.
  destruct (npn_storage tokens =? 0)%nat eqn:Ezero.
  - apply Nat.eqb_eq in Ezero.
    assert (tokens = []) as -> by (destruct tokens; [reflexivity | discriminate]).
    eexists. repeat split.
  - rewrite Hmalloc. eexists. split; [reflexivity|]. simpl.
    rewrite <- fill_npn_line_length, firstn_all.
    repeat split.
    + apply fill_npn_line_concat.
    + intros Hshort. unfold decode_npn.
      apply decode_fill_npn_line; [assumption | lia].
Qed.

End Encoding.

Lemma encode_npn_round_trip_witness :
  match @None Parson.JSON_Array with
  | Some a => Some a
  | None => frontend_npn (frontend Sample.two_hosts_config)
  end = Some (map Parson.JSONString ["http/1.1"; "http/1.0"]) /\
  malloc (Externals := Sample.env) (npn_storage ["http/1.1"; "http/1.0"])
  = true /\
  exists r,
    bud_config_encode_npn (ext := Sample.env) Sample.two_hosts_config None
    = Some r /\
    encoded_err r = bud_ok /\
    encoded_len r = Some (npn_storage ["http/1.1"; "http/1.0"]) /\
    npn_line_bytes (encoded_line r) (npn_storage ["http/1.1"; "http/1.0"])
    = List.concat (map (fun s => length_octet (CStr.strlen s) :: CStr.bytes s)
                ["http/1.1"; "http/1.0"]) /\
    (Forall (fun s => (CStr.strlen s <= 255)%nat) ["http/1.1"; "http/1.0"] ->
     decode_npn
       (npn_line_bytes (encoded_line r) (npn_storage ["http/1.1"; "http/1.0"]))
     = Some (map CStr.bytes ["http/1.1"; "http/1.0"])).
Proof.
  split; [reflexivity|]. split; [reflexivity|].
  apply (encode_npn_round_trip (ext := Sample.env) Sample.two_hosts_config
           None ["http/1.1"; "http/1.0"]); reflexivity.
Defined.

(** C5 fails as stated: the length of a token of 256 bytes is stored as the
    octet 0, and the line does not read back as that token. *)
Lemma long_token_does_not_round_trip :
  exists r,
    bud_config_encode_npn (ext := Sample.env) Sample.two_hosts_config
      (Some [Parson.JSONString Sample.long_token]) = Some r /\
    encoded_err r = bud_ok /\
    encoded_len r = Some 257%nat /\
    hd_error (npn_line_bytes (encoded_line r) 257) = Some "000"%char /\
    decode_npn (npn_line_bytes (encoded_line r) 257) = None /\
    decode_npn (npn_line_bytes (encoded_line r) 257)
    <> Some [CStr.bytes Sample.long_token].
Proof.
  eexists. split; [vm_compute; reflexivity|].
  repeat split; try (vm_compute; reflexivity).
  vm_compute. discriminate.
Qed.

(** ** TLS contexts: [bud_config_new_ssl_ctx] *)

(** None of the masks [bud_config_new_ssl_ctx] passes to
    [SSL_CTX_set_options] has the bit of [SSL_OP_NO_TICKET]. *)
Lemma ssl_options_no_ticket (config : bud_config_t) :
  Z.land (ssl_options config) SSL_OP_NO_TICKET = 0.
Proof.
  unfold ssl_options.
  destruct (frontend_ssl3 (frontend config) =? 0);
    destruct (frontend_server_preference (frontend config) =? 0);
    reflexivity.
Qed.

Lemma set_options_ticket_bit (c : SSL_CTX) (mask : Z) :
  Z.land mask SSL_OP_NO_TICKET = 0 ->
  Z.land (options (SSL_CTX_set_options c mask)) SSL_OP_NO_TICKET
  = Z.land (options c) SSL_OP_NO_TICKET.
Proof.
  intros H. unfold SSL_CTX_set_options. cbn [options].
  now rewrite Z.land_lor_distr_l, H, Z.lor_0_r.
Qed.

Section Contexts.

Context {ext : Externals}.

Lemma select_ecdh_keeps (config : bud_config_t) (context : bud_context_t)
    (c c' : SSL_CTX) :
  select_ecdh config context c = inr c' ->
  session_cache_mode c' = session_cache_mode c /\
  Z.land (options c') SSL_OP_NO_TICKET = Z.land (options c) SSL_OP_NO_TICKET.
Proof.
  unfold select_ecdh. intros H.
  destruct (match ecdh context with
            | Some n => Some n
            | None => frontend_ecdh (frontend config)
            end) as [curve|].
  - destruct (OBJ_sn2nid curve =? NID_undef); [discriminate|].
    destruct (EC_KEY_new_by_curve_name (OBJ_sn2nid curve)); [|discriminate].
    injection H as <-. split; [reflexivity|].
    cbn [SSL_CTX_set_tmp_ecdh options].
    now apply set_options_ticket_bit.
  - injection H as <-. now split.
Qed.

Lemma select_ecdh_error (config : bud_config_t) (context : bud_context_t)
    (c : SSL_CTX) (err : bud_error_t) :
  select_ecdh config context c = inl err ->
  code err = kBudErrECDHNotFound \/ code err = kBudErrNoMem.
Proof.
  unfold select_ecdh. intros H.
  destruct (match ecdh context with
            | Some n => Some n
            | None => frontend_ecdh (frontend config)
            end) as [curve|]; [|discriminate].
  destruct (OBJ_sn2nid curve =? NID_undef).
  - injection H as <-. now left.
  - destruct (EC_KEY_new_by_curve_name (OBJ_sn2nid curve)); [discriminate|].
    injection H as <-. now right.
Qed.

Lemma select_ciphers_keeps (config : bud_config_t) (context : bud_context_t)
    (c : SSL_CTX) :
  session_cache_mode (select_ciphers config context c) = session_cache_mode c /\
  options (select_ciphers config context c) = options c.
Proof.
  unfold select_ciphers.
  destruct (ciphers context); [now split|].
  destruct (frontend_ciphers (frontend config)); now split.
Qed.

Lemma install_servername_callback_keeps (config : bud_config_t)
    (c : SSL_CTX) :
  session_cache_mode (install_servername_callback config c)
  = session_cache_mode c /\
  options (install_servername_callback config c) = options c.
Proof.
  unfold install_servername_callback.
  destruct (context_count config =? 0)%nat; now split.
Qed.

Lemma encode_npn_error (config : bud_config_t)
    (npn : option Parson.JSON_Array) (r : encode_npn_result) :
  bud_config_encode_npn config npn = Some r ->
  code (encoded_err r) = kBudOk \/ code (encoded_err r) = kBudErrNoMem.
Proof.
  unfold bud_config_encode_npn. intros H.
  destruct (match npn with
            | Some _ => npn
            | None => frontend_npn (frontend config)
            end) as [array|].
  - destruct (npn_items array) as [items|]; [|discriminate].
    destruct (npn_storage items =? 0)%nat.
    + injection H as <-. now left.
    + destruct (malloc (npn_storage items)); injection H as <-;
        [now left | now right].
  - injection H as <-. now left.
Qed.

(** The context a successful call stores: built on the one [SSL_CTX_new]
    returned for the method of the configuration, with the session cache
    off and the ticket bit of its options as [SSL_CTX_new] left it. *)
Lemma new_ssl_ctx_result (config : bud_config_t) (context : bud_context_t)
    (err : bud_error_t) (config' : bud_config_t) (context' : bud_context_t) :
  bud_config_new_ssl_ctx config context = Some (err, config', context') ->
  exists m,
    choose_method config = Some m /\
    frontend_method (frontend config') = Some m /\
    (code err = kBudOk \/ code err = kBudErrNoMem \/
     code err = kBudErrECDHNotFound) /\
    (bud_is_ok err = true ->
     exists c0 c,
       SSL_CTX_new m = Some c0 /\
       ctx context' = Some c /\
       session_cache_mode c = SSL_SESS_CACHE_OFF /\
       Z.land (options c) SSL_OP_NO_TICKET
       = Z.land (options c0) SSL_OP_NO_TICKET).
Proof.
  unfold bud_config_new_ssl_ctx. intros H.
  destruct (choose_method config) as [m|]; [|discriminate].
  exists m. split; [reflexivity|].
  destruct (SSL_CTX_new m) as [c0|].
  2:{ injection H as <- <- <-. repeat split; [now right; left | discriminate]. }
  destruct (select_ecdh (set_frontend_method config m) context
              (SSL_CTX_set_session_cache_mode c0 SSL_SESS_CACHE_OFF))
    as [e|c1] eqn:Eecdh.
  { injection H as <- <- <-. split; [reflexivity|].
    destruct (select_ecdh_error _ _ _ _ Eecdh) as [He | He]; rewrite He.
    - split; [now right; right|]. unfold bud_is_ok. rewrite He. discriminate.
    - split; [now right; left|]. unfold bud_is_ok. rewrite He. discriminate. }
  destruct (select_ecdh_keeps _ _ _ _ Eecdh) as [Hmode1 Hbit1].
  destruct (select_ciphers_keeps (set_frontend_method config m) context c1)
    as [Hmode2 Hopt2].
  set (c2 := select_ciphers (set_frontend_method config m) context c1) in *.
  destruct (install_servername_callback_keeps (set_frontend_method config m)
              (SSL_CTX_set_options c2
                 (ssl_options (set_frontend_method config m))))
    as [Hmode3 Hopt3].
  set (c3 := install_servername_callback (set_frontend_method config m)
               (SSL_CTX_set_options c2
                  (ssl_options (set_frontend_method config m)))) in *.
  assert (Hmode : session_cache_mode c3 = SSL_SESS_CACHE_OFF).
  { rewrite Hmode3. cbn [SSL_CTX_set_options session_cache_mode].
    now rewrite Hmode2, Hmode1. }
  assert (Hbit : Z.land (options c3) SSL_OP_NO_TICKET
                 = Z.land (options c0) SSL_OP_NO_TICKET).
  { rewrite Hopt3, set_options_ticket_bit by apply ssl_options_no_ticket.
    now rewrite Hopt2, Hbit1. }
  destruct (bud_config_encode_npn (set_frontend_method config m) (npn context))
    as [r|] eqn:Enpn; [|discriminate].
  pose proof (encode_npn_error _ _ _ Enpn) as Herr.
  destruct (bud_is_ok (encoded_err r)) eqn:Eok; cbn [negb] in H.
  - destruct (encoded_line r); [|discriminate|];
      injection H as <- <- <-; (split; [reflexivity|]);
      (split; [now left|]); intros _; exists c0; eexists;
      (split; [reflexivity|]); (split; [reflexivity|]);
      split; assumption.
  - injection H as <- <- <-. split; [reflexivity|].
    split; [destruct Herr as [He | He]; rewrite He; auto|].
    rewrite Eok. discriminate.
Qed.

(** C6, as amended: every SSL context that [bud_config_new_ssl_ctx]
    constructs has the session cache disabled; the option that disables
    session tickets is not touched, it stays as [SSL_CTX_new] set it. *)
Theorem new_ssl_ctx_session_cache_off (config : bud_config_t)
    (context : bud_context_t) (err : bud_error_t) (config' : bud_config_t)
    (context' : bud_context_t) :
  bud_config_new_ssl_ctx config context = Some (err, config', context') ->
  bud_is_ok err = true ->
  exists m c0 c,
    frontend_method (frontend config') = Some m /\
    SSL_CTX_new m = Some c0 /\
    ctx context' = Some c /\
    session_cache_mode c = SSL_SESS_CACHE_OFF /\
    Z.land (options c) SSL_OP_NO_TICKET = Z.land (options c0) SSL_OP_NO_TICKET.
Proof.
  intros H Hok.
  destruct (new_ssl_ctx_result _ _ _ _ _ H) as (m & _ & Hm & _ & Hctx).
  destruct (Hctx Hok) as (c0 & c & Hnew & Hc & Hmode & Hbit).
  now exists m, c0, c.
Qed.

End Contexts.

Lemma new_ssl_ctx_session_cache_off_witness :
  exists config' context',
    bud_config_new_ssl_ctx (ext := Sample.env) Sample.two_hosts_config
      (context_at Sample.two_hosts_config 1)
    = Some (bud_ok, config', context') /\
    bud_is_ok bud_ok = true /\
    exists m c0 c,
      frontend_method (frontend config') = Some m /\
      SSL_CTX_new (Externals := Sample.env) m = Some c0 /\
      ctx context' = Some c /\
      session_cache_mode c = SSL_SESS_CACHE_OFF /\
      Z.land (options c) SSL_OP_NO_TICKET
      = Z.land (options c0) SSL_OP_NO_TICKET.
Proof.
  do 2 eexists.
  assert (H : bud_config_new_ssl_ctx (ext := Sample.env)
                Sample.two_hosts_config (context_at Sample.two_hosts_config 1)
              = Some (bud_ok,
                      set_frontend_method Sample.two_hosts_config
                        SSLv23_server_method,
                      match bud_config_new_ssl_ctx (ext := Sample.env)
                              Sample.two_hosts_config
                              (context_at Sample.two_hosts_config 1) with
                      | Some (_, _, c) => c
                      | None => zeroed_context
                      end)) by reflexivity.
  split; [exact H|]. split; [reflexivity|].
  exact (new_ssl_ctx_session_cache_off (ext := Sample.env) _ _ _ _ _ H
           eq_refl).
Defined.

(** C6 fails as stated: on a context that OpenSSL creates with its default
    options, [bud_config_new_ssl_ctx] succeeds and the context it stores has
    the session cache off and the bit of [SSL_OP_NO_TICKET] clear, so session
    tickets stay enabled. *)
Lemma new_ssl_ctx_leaves_tickets_enabled :
  exists config' context' c,
    bud_config_new_ssl_ctx (ext := Sample.env) Sample.two_hosts_config
      (context_at Sample.two_hosts_config 0)
    = Some (bud_ok, config', context') /\
    ctx context' = Some c /\
    session_cache_mode c = SSL_SESS_CACHE_OFF /\
    Z.land (options c) SSL_OP_NO_TICKET = 0 /\
    Z.testbit (options c) 14 = false.
Proof.
  do 3 eexists. split; [vm_compute; reflexivity|].
  split; [reflexivity|]. repeat split.
Qed.

(** ** TLS method selection *)

Lemma select_method_fallback (security : string) :
  CStr.bytes security <> CStr.bytes "tls1.1" ->
  CStr.bytes security <> CStr.bytes "tls1.0" ->
  CStr.bytes security <> CStr.bytes "tls1.2" ->
  CStr.bytes security <> CStr.bytes "ssl3" ->
  select_method security = SSLv23_server_method.
Proof.
  intros H11 H10 H12 H3. unfold select_method.
  repeat match goal with
         | |- context [CStr.strcmp security ?name =? 0] =>
             let E := fresh "E" in
             destruct (CStr.strcmp security name =? 0) eqn:E;
             [apply Z.eqb_eq, strcmp_zero in E; contradiction|]
         end.
  reflexivity.
Qed.

(** C10: when the security string of the frontend is none of "tls1.0",
    "tls1.1", "tls1.2" and "ssl3", the method step of
    [bud_config_new_ssl_ctx] chooses the SSLv23 method, and whenever the call
    returns, the configuration carries that method and the error is none
    that concerns the configuration file: it is no error, an allocation
    failure or an unknown ECDH curve. *)
Theorem unknown_security_selects_ssl23 {ext : Externals}
    (config : bud_config_t) (context : bud_context_t) (security : string) :
  frontend_method (frontend config) = None ->
  frontend_security (frontend config) = Some security ->
  CStr.bytes security <> CStr.bytes "tls1.0" ->
  CStr.bytes security <> CStr.bytes "tls1.1" ->
  CStr.bytes security <> CStr.bytes "tls1.2" ->
  CStr.bytes security <> CStr.bytes "ssl3" ->
  select_method security = SSLv23_server_method /\
  choose_method config = Some SSLv23_server_method /\
  forall err config' context',
    bud_config_new_ssl_ctx config context = Some (err, config', context') ->
    frontend_method (frontend config') = Some SSLv23_server_method /\
    (code err = kBudOk \/ code err = kBudErrNoMem \/
     code err = kBudErrECDHNotFound).
Proof.
  intros Hmethod Hsec H10 H11 H12 H3.
  assert (Hsel : select_method security = SSLv23_server_method)
    by now apply select_method_fallback.
  assert (Hchoose : choose_method config = Some SSLv23_server_method).
  { unfold choose_method. now rewrite Hmethod, Hsec, Hsel. }
  split; [exact Hsel|]. split; [exact Hchoose|].
  intros err config' context' H.
  destruct (new_ssl_ctx_result _ _ _ _ _ H) as (m & Hm & Hm' & Herr & _).
  rewrite Hchoose in Hm. injection Hm as <-. now split.
Qed.

Lemma unknown_security_selects_ssl23_witness :
  frontend_method (frontend Sample.two_hosts_config) = None /\
  frontend_security (frontend Sample.two_hosts_config) = Some "bogus" /\
  select_method "bogus" = SSLv23_server_method /\
  choose_method Sample.two_hosts_config = Some SSLv23_server_method /\
  forall err config' context',
    bud_config_new_ssl_ctx (ext := Sample.env) Sample.two_hosts_config
      (context_at Sample.two_hosts_config 0)
    = Some (err, config', context') ->
    frontend_method (frontend config') = Some SSLv23_server_method /\
    (code err = kBudOk \/ code err = kBudErrNoMem \/
     code err = kBudErrECDHNotFound).
Proof.
  split; [reflexivity|]. split; [reflexivity|].
  apply (unknown_security_selects_ssl23 (ext := Sample.env)
           Sample.two_hosts_config (context_at Sample.two_hosts_config 0)
           "bogus"); try reflexivity;
    intros H; vm_compute in H; discriminate H.
Defined.

(** ** OCSP: [bud_context_get_ocsp_req] *)

Lemma pop_returns_last (below : list string) (url : string) :
  sk_OPENSSL_STRING_pop (below ++ [url]) = (Some url, below).
Proof.
  unfold sk_OPENSSL_STRING_pop. rewrite rev_app_distr. simpl.
  now rewrite rev_involutive.
Qed.

(** C8, as amended: on a context with a certificate and no URL yet, whose
    certificate lists OCSP URLs, [bud_context_get_ocsp_req] returns the URL
    that [sk_OPENSSL_STRING_pop] takes off the stack of [X509_get1_ocsp],
    which is the last one of the stack, and stores it on the context; a later
    call returns the stored URL and length whatever OpenSSL would answer
    then, and leaves the context as it is. *)
Theorem ocsp_url_popped_then_cached {ext : Externals} (later : Externals)
    (context : bud_context_t) (x : X509) (below : list string)
    (url : string) :
  ocsp_url context = None ->
  cert context = Some x ->
  X509_get1_ocsp x = Some (below ++ [url])%list ->
  exists r,
    bud_context_get_ocsp_req context = Some r /\
    req_url r = Some url /\
    req_size r = CStr.strlen url /\
    ocsp_url (req_context r) = Some url /\
    exists r',
      bud_context_get_ocsp_req (ext := later) (req_context r) = Some r' /\
      req_url r' = Some url /\
      req_size r' = CStr.strlen url /\
      req_context r' = req_context r.
Proof.
  intros Hurl Hcert Hstack. unfold bud_context_get_ocsp_req at 1.
  rewrite Hurl, Hcert, Hstack, pop_returns_last. simpl.
  eexists. split; [reflexivity|]. repeat split.
  eexists. split; [reflexivity|]. repeat split.
Qed.

Lemma ocsp_url_popped_then_cached_witness :
  ocsp_url (Sample.context_with_cert 2%nat) = None /\
  cert (Sample.context_with_cert 2%nat) = Some 2%nat /\
  X509_get1_ocsp (Externals := Sample.env) 2%nat
  = Some ([] ++ ["http://ocsp.one.example"])%list /\
  exists r,
    bud_context_get_ocsp_req (ext := Sample.env) (Sample.context_with_cert 2%nat)
    = Some r /\
    req_url r = Some "http://ocsp.one.example" /\
    req_size r = CStr.strlen "http://ocsp.one.example" /\
    ocsp_url (req_context r) = Some "http://ocsp.one.example" /\
    exists r',
      bud_context_get_ocsp_req (ext := Sample.env) (req_context r) = Some r' /\
      req_url r' = Some "http://ocsp.one.example" /\
      req_size r' = CStr.strlen "http://ocsp.one.example" /\
      req_context r' = req_context r.
Proof.
  split; [reflexivity|]. split; [reflexivity|]. split; [reflexivity|].
  apply (ocsp_url_popped_then_cached (ext := Sample.env) Sample.env
           (Sample.context_with_cert 2%nat) 2%nat [] "http://ocsp.one.example");
    reflexivity.
Defined.

(** C8 fails as stated: for a certificate that lists two OCSP URLs the URL
    computed is the second, not the first. *)
Lemma ocsp_url_is_last_of_two :
  X509_get1_ocsp (Externals := Sample.env) 1%nat
  = Some ["http://ocsp.one.example"; "http://ocsp.two.example"] /\
  exists r,
    bud_context_get_ocsp_req (ext := Sample.env) (Sample.context_with_cert 1%nat)
    = Some r /\
    req_url r = Some "http://ocsp.two.example" /\
    req_url r <> Some "http://ocsp.one.example".
Proof.
  split; [reflexivity|]. eexists. split; [reflexivity|].
  split; [reflexivity | discriminate].
Qed.

(** ** SNI dispatch: [bud_config_select_sni_context] *)

(** C3: without a server_name the callback returns [SSL_TLSEXT_ERR_OK] and
    leaves the session as it is; with a server_name and a context in the
    slot at [kBudSSLSNIIndex] it adopts that context, whatever the
    configuration holds, and [bud_config_select_context] is not called; with
    a server_name and an empty slot it calls [bud_config_select_context]
    once, with that name, and adopts the context returned. *)
Theorem sni_callback_dispatch (kBudSSLSNIIndex : Z) (s : SSL)
    (config : bud_config_t) :
  (SSL_get_servername s = None ->
   bud_config_select_sni_context kBudSSLSNIIndex s config
   = mk_sni SSL_TLSEXT_ERR_OK s []) /\
  (forall name c,
     SSL_get_servername s = Some name ->
     SSL_get_ex_data s kBudSSLSNIIndex = Some c ->
     forall other : bud_config_t,
       bud_config_select_sni_context kBudSSLSNIIndex s other
       = mk_sni SSL_TLSEXT_ERR_OK (SSL_set_SSL_CTX s (ctx c)) []) /\
  (forall name,
     SSL_get_servername s = Some name ->
     SSL_get_ex_data s kBudSSLSNIIndex = None ->
     bud_config_select_sni_context kBudSSLSNIIndex s config
     = mk_sni SSL_TLSEXT_ERR_OK
         (SSL_set_SSL_CTX s
            (ctx (context_at config
                    (bud_config_select_context config name
                       (CStr.strlen name)))))
         [name]).
Proof.
  unfold bud_config_select_sni_context. repeat split.
  - intros H. now rewrite H.
  - intros name c Hname Hslot other. now rewrite Hname, Hslot.
  - intros name Hname Hslot. now rewrite Hname, Hslot.
Qed.

Lemma sni_callback_dispatch_witness :
  bud_config_select_sni_context 1
    (Sample.session None (Some (Sample.context_with_cert 1%nat)))
    Sample.two_hosts_config
  = mk_sni SSL_TLSEXT_ERR_OK
      (Sample.session None (Some (Sample.context_with_cert 1%nat))) [] /\
  sni_lookups
    (bud_config_select_sni_context 1
       (Sample.session (Some "a.example")
          (Some (Sample.context_with_cert 1%nat)))
       Sample.two_hosts_config) = [] /\
  sni_lookups
    (bud_config_select_sni_context 1
       (Sample.session (Some "a.example") None) Sample.two_hosts_config)
  = ["a.example"].
Proof.
  split; [|split].
  - now apply (sni_callback_dispatch 1
                 (Sample.session None (Some (Sample.context_with_cert 1%nat)))
                 Sample.two_hosts_config).
  - now rewrite (proj1 (proj2 (sni_callback_dispatch 1
                   (Sample.session (Some "a.example")
                      (Some (Sample.context_with_cert 1%nat)))
                   Sample.two_hosts_config))
                   "a.example" (Sample.context_with_cert 1%nat) eq_refl eq_refl
                   Sample.two_hosts_config).
  - now rewrite (proj2 (proj2 (sni_callback_dispatch 1
                   (Sample.session (Some "a.example") None)
                   Sample.two_hosts_config)) "a.example" eq_refl eq_refl).
Defined.

(** ** Addresses: [bud_config_str_to_addr] *)

(** In memory, [htons (port)] is the port in network byte order: high byte
    first. *)
Lemma htons_network_order (order : endianness) (port : Z) :
  0 <= port < 65536 ->
  bytes_in_memory order (htons order port) = [port / 256; port mod 256].
Proof.
  intros Hport.
  assert (Hhi : 0 <= port / 256 < 256)
    by (split; [apply Z.div_pos | apply Z.div_lt_upper_bound]; lia).
  assert (Hlo : 0 <= port mod 256 < 256) by (apply Z.mod_pos_bound; lia).
  destruct order; unfold bytes_in_memory, htons;
    change 255 with (Z.ones 8).
  - rewrite Z.land_lor_distr_l, Z.shiftr_lor, !Z.land_ones by lia.
    rewrite Z.shiftr_shiftl_l, Z.sub_diag, Z.shiftl_0_r by lia.
    rewrite Z.shiftl_mul_pow2, !Z.shiftr_div_pow2 by lia.
    change (2 ^ 8) with 256.
    rewrite Z.mod_mul by lia.
    rewrite (Z.mod_small (port / 256)) by lia.
    rewrite (Z.div_small (port / 256)) by lia.
    now rewrite Z.lor_0_l, Z.lor_0_r.
  - rewrite Z.land_ones, Z.shiftr_div_pow2 by lia. reflexivity.
Qed.

(** C7: [bud_config_str_to_addr] parses the host as IPv4 first and calls the
    IPv6 parser only when that fails; these two calls of [uv_inet_pton] are
    all it asks of the environment.  On success the family and the address
    are those of the parser that succeeded and the port field holds the port
    in network byte order.  It returns an error exactly when both parsers
    fail. *)
Theorem str_to_addr_parses {ext : Externals} (host : string) (port : Z)
    (addr : sockaddr_storage) :
  0 <= port < 65536 ->
  let res := bud_config_str_to_addr host port addr in
  (forall a,
     uv_inet_pton AF_INET host = PtonOk a ->
     addr_parses res = [AF_INET] /\
     addr_r res = 0 /\
     ss_family (addr_out res) = Some AF_INET /\
     sin_addr (addr_out res) = a /\
     bytes_in_memory host_byte_order (ss_port (addr_out res))
     = [port / 256; port mod 256]) /\
  (forall e,
     uv_inet_pton AF_INET host = PtonErr e ->
     addr_parses res = [AF_INET; AF_INET6] /\
     forall a,
       uv_inet_pton AF_INET6 host = PtonOk a ->
       addr_r res = 0 /\
       ss_family (addr_out res) = Some AF_INET6 /\
       sin6_addr (addr_out res) = a /\
       bytes_in_memory host_byte_order (ss_port (addr_out res))
       = [port / 256; port mod 256]) /\
  (addr_r res <> 0 <->
   (exists e, uv_inet_pton AF_INET host = PtonErr e) /\
   (exists e, uv_inet_pton AF_INET6 host = PtonErr e)).
Proof.
  intros Hport res. subst res. unfold bud_config_str_to_addr.
  pose proof (htons_network_order host_byte_order port Hport) as Horder.
  destruct (uv_inet_pton AF_INET host) as [a4|e4] eqn:E4.
  - split; [|split].
    + intros a Ha. injection Ha as <-. now repeat split.
    + intros e He. discriminate.
    + cbn [addr_r]. split; [congruence|].
      intros [(e & He) _]. discriminate.
  - split; [|split].
    + intros a Ha. discriminate.
    + intros e _. split; [reflexivity|].
      intros a Ha. rewrite Ha. now repeat split.
    + cbn [addr_r]. destruct (uv_inet_pton AF_INET6 host) as [a6|e6].
      * split; [simpl; congruence|]. intros [_ (e & He)]. discriminate.
      * split; [|simpl; discriminate].
        intros _. split; eexists; reflexivity.
Qed.

Lemma str_to_addr_parses_witness :
  0 <= 1443 < 65536 /\
  let res := bud_config_str_to_addr (ext := Sample.env) "::1" 1443
               (mk_sockaddr None 0 [] []) in
  addr_parses res = [AF_INET; AF_INET6] /\
  addr_r res = 0 /\
  ss_family (addr_out res) = Some AF_INET6 /\
  bytes_in_memory LittleEndian (ss_port (addr_out res)) = [5; 163].
Proof.
  split; [lia|].
  destruct (str_to_addr_parses (ext := Sample.env) "::1" 1443
              (mk_sockaddr None 0 [] []) ltac:(lia)) as (_ & H6 & _).
  destruct (H6 22%positive eq_refl) as (Hcalls & Hok).
  destruct (Hok _ eq_refl) as (Hr & Hfam & _ & Hbytes).
  cbv zeta. repeat split; assumption.
Defined.

(** * Further properties of [config.c] *)

(** ** Lookup, as the loop behaves *)

(** Slots of another length are passed over. *)
Lemma select_context_loop_skip (config : bud_config_t) (name : string)
    (name_len : nat) :
  forall skipped i remaining,
    (forall j, (i < j <= i + skipped)%nat ->
               servername_len (context_at config j) <> name_len) ->
    select_context_loop config name name_len i (skipped + remaining)
    = select_context_loop config name name_len (i + skipped) remaining.
Proof.
  induction skipped as [|skipped IH]; intros i remaining Hskip.
  - now rewrite Nat.add_0_r.
  - cbn [Nat.add select_context_loop].
    destruct (name_len =? servername_len (context_at config (i + 1)))%nat
      eqn:E.
    + apply Nat.eqb_eq in E. exfalso. apply (Hskip (i + 1)%nat); [lia|].
      now symmetry.
    + cbn [negb]. rewrite IH.
      * f_equal. lia.
      * intros j Hj. apply Hskip. lia.
Qed.

(** The first entry whose stored length is the length of the query decides
    the lookup: the result is that entry when its name compares equal, and
    the default context when it does not, whatever the later entries hold. *)
Theorem select_context_first_same_length_decides (config : bud_config_t)
    (name : string) (name_len k : nat) :
  (1 <= k <= context_count config)%nat ->
  servername_len (context_at config k) = name_len ->
  (forall j, (1 <= j < k)%nat ->
             servername_len (context_at config j) <> name_len) ->
  bud_config_select_context config name name_len
  = if CStr.strncasecmp name (servername_chars (context_at config k))
         name_len =? 0
    then k else O.
Proof.
  intros Hk Hlen Hfirst. unfold bud_config_select_context.
  replace (context_count config)
    with ((k - 1) + S (context_count config - k))%nat by lia.
  rewrite select_context_loop_skip
    by (intros j Hj; apply Hfirst; lia).
  replace (0 + (k - 1))%nat with (k - 1)%nat by lia.
  rewrite select_context_loop_first_same_length
    by (replace (k - 1 + 1)%nat with k by lia; now symmetry).
  now replace (k - 1 + 1)%nat with k by lia.
Qed.

Lemma select_context_first_same_length_decides_witness :
  (1 <= 2 <= context_count Examples.three_hosts_config)%nat /\
  servername_len (context_at Examples.three_hosts_config 2) = 11%nat /\
  (forall j, (1 <= j < 2)%nat ->
             servername_len (context_at Examples.three_hosts_config j)
             <> 11%nat) /\
  bud_config_select_context Examples.three_hosts_config "WWW.Example" 11
  = if CStr.strncasecmp "WWW.Example"
         (servername_chars (context_at Examples.three_hosts_config 2)) 11 =? 0
    then 2%nat else O.
Proof.
  assert (Hk : (1 <= 2 <= context_count Examples.three_hosts_config)%nat)
    by (vm_compute; lia).
  assert (Hfirst : forall j, (1 <= j < 2)%nat ->
             servername_len (context_at Examples.three_hosts_config j)
             <> 11%nat).
  { intros j Hj. assert (j = 1%nat) as -> by lia. vm_compute. discriminate. }
  split; [exact Hk|]. split; [reflexivity|]. split; [exact Hfirst|].
  exact (select_context_first_same_length_decides Examples.three_hosts_config
           "WWW.Example" 11 2 Hk eq_refl Hfirst).
Defined.

(** A query whose length no entry has stored gets the default context. *)
Theorem select_context_unknown_length (config : bud_config_t) (name : string)
    (name_len : nat) :
  (forall j, (1 <= j <= context_count config)%nat ->
             servername_len (context_at config j) <> name_len) ->
  bud_config_select_context config name name_len = O.
Proof.
  intros Hnone. unfold bud_config_select_context.
  replace (context_count config) with (context_count config + 0)%nat by lia.
  rewrite select_context_loop_skip by (intros j Hj; apply Hnone; lia).
  reflexivity.
Qed.

Lemma select_context_unknown_length_witness :
  (forall j, (1 <= j <= context_count Sample.two_hosts_config)%nat ->
             servername_len (context_at Sample.two_hosts_config j) <> 4%nat) /\
  bud_config_select_context Sample.two_hosts_config "a.ex" 4 = O.
Proof.
  assert (Hnone : forall j,
             (1 <= j <= context_count Sample.two_hosts_config)%nat ->
             servername_len (context_at Sample.two_hosts_config j) <> 4%nat).
  { intros j Hj. change (context_count Sample.two_hosts_config) with 2%nat in Hj.
    assert (j = 1 \/ j = 2)%nat as [-> | ->] by lia; vm_compute; discriminate. }
  split; [exact Hnone|].
  exact (select_context_unknown_length Sample.two_hosts_config "a.ex" 4 Hnone).
Defined.

(** In a table whose entries all have different stored lengths, an entry
    that equals the query at full length up to case is the one returned. *)
Theorem select_context_finds_match_among_distinct_lengths
    (config : bud_config_t) (name : string) (k : nat) :
  (forall i j, (1 <= i < j)%nat -> (j <= context_count config)%nat ->
               servername_len (context_at config i)
               <> servername_len (context_at config j)) ->
  (1 <= k <= context_count config)%nat ->
  servername_len (context_at config k) = CStr.strlen name ->
  CStr.strlen (servername_chars (context_at config k)) = CStr.strlen name ->
  CStr.lower_bytes name
  = CStr.lower_bytes (servername_chars (context_at config k)) ->
  bud_config_select_context config name (CStr.strlen name) = k.
Proof.
  intros Hdistinct Hk Hlen Hstored Hequal.
  rewrite (select_context_first_same_length_decides config name
             (CStr.strlen name) k Hk Hlen).
  - replace (CStr.strncasecmp name (servername_chars (context_at config k))
               (CStr.strlen name)) with 0; [reflexivity|].
    symmetry. now apply strncasecmp_full.
  - intros j Hj. rewrite <- Hlen. apply Hdistinct; lia.
Qed.

Lemma select_context_finds_match_among_distinct_lengths_witness :
  (forall i j, (1 <= i < j)%nat ->
               (j <= context_count Examples.three_hosts_config)%nat ->
               servername_len (context_at Examples.three_hosts_config i)
               <> servername_len (context_at Examples.three_hosts_config j)) /\
  (1 <= 3 <= context_count Examples.three_hosts_config)%nat /\
  bud_config_select_context Examples.three_hosts_config "B.EXAMPLE.ORG"
    (CStr.strlen "B.EXAMPLE.ORG") = 3%nat.
Proof.
  assert (Hd : forall i j, (1 <= i < j)%nat ->
               (j <= context_count Examples.three_hosts_config)%nat ->
               servername_len (context_at Examples.three_hosts_config i)
               <> servername_len (context_at Examples.three_hosts_config j)).
  { intros i j Hi Hj.
    change (context_count Examples.three_hosts_config) with 3%nat in Hj.
    assert ((i = 1 /\ j = 2) \/ (i = 1 /\ j = 3) \/ (i = 2 /\ j = 3))%nat
      as [[-> ->] | [[-> ->] | [-> ->]]] by lia; vm_compute; discriminate. }
  assert (Hk : (1 <= 3 <= context_count Examples.three_hosts_config)%nat)
    by (vm_compute; lia).
  split; [exact Hd|]. split; [exact Hk|].
  exact (select_context_finds_match_among_distinct_lengths
           Examples.three_hosts_config "B.EXAMPLE.ORG" 3 Hd Hk eq_refl eq_refl
           eq_refl).
Defined.

(** A string without content starts with the terminator, and conversely. *)
Lemma bytes_nil_head (s : string) : CStr.bytes s = [] <-> CStr.head s = 0.
Proof.
  destruct s as [|a s]; simpl; [tauto|].
  unfold CStr.is_nul. destruct (CStr.code a =? 0) eqn:E.
  - apply Z.eqb_eq in E. tauto.
  - apply Z.eqb_neq in E. split; [discriminate | contradiction].
Qed.

Lemma bytes_cons_head (s : string) (a : ascii) (rest : list ascii) :
  CStr.bytes s = a :: rest ->
  CStr.head s = CStr.code a /\ CStr.code a <> 0 /\
  CStr.bytes (CStr.tail s) = rest.
Proof.
  destruct s as [|b s]; simpl; [discriminate|].
  unfold CStr.is_nul. destruct (CStr.code b =? 0) eqn:E; [discriminate|].
  apply Z.eqb_neq in E. intros H. injection H as -> ->. now repeat split.
Qed.

(** [strncasecmp] sees its first argument only up to the case of letters. *)
Lemma strncasecmp_lower_invariant (n : nat) :
  forall l l' r,
    CStr.lower_bytes l = CStr.lower_bytes l' ->
    CStr.strncasecmp l r n = CStr.strncasecmp l' r n.
Proof.
  induction n as [|n IH]; intros l l' r Heq; [reflexivity|].
  unfold CStr.lower_bytes in Heq. cbn [CStr.strncasecmp].
  destruct (CStr.bytes l) as [|a rest] eqn:El;
    destruct (CStr.bytes l') as [|a' rest'] eqn:El'; simpl in Heq;
    try discriminate.
  - apply bytes_nil_head in El, El'. now rewrite El, El'.
  - injection Heq as Ha Hrest.
    destruct (bytes_cons_head _ _ _ El) as (Hh & Hnz & Ht).
    destruct (bytes_cons_head _ _ _ El') as (Hh' & Hnz' & Ht').
    rewrite Hh, Hh', <- Ha.
    replace (CStr.code a =? 0) with false by (symmetry; now apply Z.eqb_neq).
    replace (CStr.code a' =? 0) with false by (symmetry; now apply Z.eqb_neq).
    rewrite (IH (CStr.tail l) (CStr.tail l') (CStr.tail r)); [reflexivity|].
    unfold CStr.lower_bytes. now rewrite Ht, Ht'.
Qed.

Lemma lower_bytes_strlen (l l' : string) :
  CStr.lower_bytes l = CStr.lower_bytes l' -> CStr.strlen l = CStr.strlen l'.
Proof.
  intros H. rewrite <- !strlen_bytes.
  unfold CStr.lower_bytes in H.
  now rewrite <- (length_map (fun a => CStr.tolower (CStr.code a))), H,
    length_map.
Qed.

(** Lookup does not see the case of the letters of the query: two server
    names that are equal up to case select the same slot. *)
Theorem select_context_ignores_case (config : bud_config_t)
    (name name' : string) :
  CStr.lower_bytes name = CStr.lower_bytes name' ->
  bud_config_select_context config name (CStr.strlen name)
  = bud_config_select_context config name' (CStr.strlen name').
Proof.
  intros Heq. rewrite <- (lower_bytes_strlen _ _ Heq).
  unfold bud_config_select_context.
  generalize 0%nat as i. generalize (context_count config) as remaining.
  induction remaining as [|remaining IH]; intros i; [reflexivity|].
  cbn [select_context_loop].
  rewrite (strncasecmp_lower_invariant _ name name' _ Heq), IH.
  reflexivity.
Qed.

Lemma select_context_ignores_case_witness :
  CStr.lower_bytes "A.Example" = CStr.lower_bytes "a.example" /\
  bud_config_select_context Sample.two_hosts_config "A.Example"
    (CStr.strlen "A.Example")
  = bud_config_select_context Sample.two_hosts_config "a.example"
      (CStr.strlen "a.example").
Proof.
  split; [reflexivity|].
  exact (select_context_ignores_case Sample.two_hosts_config "A.Example"
           "a.example" eq_refl).
Defined.

(** ** The SNI callback, for every session *)

(** The callback never refuses a handshake and never touches what the
    session was given: it returns [SSL_TLSEXT_ERR_OK], and the server_name,
    every ex-data slot and the initial context are as before; it looks a name
    up at most once. *)
Theorem sni_callback_keeps_session (kBudSSLSNIIndex : Z) (s : SSL)
    (config : bud_config_t) :
  let r := bud_config_select_sni_context kBudSSLSNIIndex s config in
  sni_ret r = SSL_TLSEXT_ERR_OK /\
  tlsext_hostname (sni_ssl r) = tlsext_hostname s /\
  (forall idx, ex_data (sni_ssl r) idx = ex_data s idx) /\
  initial_ctx (sni_ssl r) = initial_ctx s /\
  (List.length (sni_lookups r) <= 1)%nat.
Proof.
  unfold bud_config_select_sni_context, SSL_get_servername, SSL_get_ex_data.
  destruct (tlsext_hostname s) as [name|] eqn:En; cbn zeta;
    [destruct (ex_data s kBudSSLSNIIndex)|];
    simpl; rewrite ?En; repeat split; auto.
Qed.

(** A server name that the table does not resolve, because no entry has its
    length, puts the session on the [SSL_CTX] of the default context (on its
    initial one while the default context has none). *)
Theorem sni_callback_unknown_name_gets_default (kBudSSLSNIIndex : Z)
    (s : SSL) (config : bud_config_t) (name : string) :
  SSL_get_servername s = Some name ->
  SSL_get_ex_data s kBudSSLSNIIndex = None ->
  (forall j, (1 <= j <= context_count config)%nat ->
             servername_len (context_at config j) <> CStr.strlen name) ->
  ssl_ctx (sni_ssl (bud_config_select_sni_context kBudSSLSNIIndex s config))
  = match ctx (context_at config 0) with
    | Some c => c
    | None => initial_ctx s
    end.
Proof.
  intros Hname Hslot Hnone. unfold bud_config_select_sni_context.
  rewrite Hname, Hslot, select_context_unknown_length by exact Hnone.
  reflexivity.
Qed.

Lemma sni_callback_unknown_name_gets_default_witness :
  SSL_get_servername (Sample.session (Some "a.ex") None) = Some "a.ex" /\
  SSL_get_ex_data (Sample.session (Some "a.ex") None) 1 = None /\
  ssl_ctx (sni_ssl (bud_config_select_sni_context 1
                      (Sample.session (Some "a.ex") None)
                      Sample.two_hosts_config))
  = match ctx (context_at Sample.two_hosts_config 0) with
    | Some c => c
    | None => initial_ctx (Sample.session (Some "a.ex") None)
    end.
Proof.
  split; [reflexivity|]. split; [reflexivity|].
  apply (sni_callback_unknown_name_gets_default 1
           (Sample.session (Some "a.ex") None) Sample.two_hosts_config "a.ex");
    try reflexivity.
  intros j Hj. change (context_count Sample.two_hosts_config) with 2%nat in Hj.
  assert (j = 1 \/ j = 2)%nat as [-> | ->] by lia; vm_compute; discriminate.
Defined.

(** ** Defaults: [bud_config_set_defaults] *)

Lemma DEFAULT_set (param null value : Z) :
  param <> null -> DEFAULT Z.eqb param null value = param.
Proof.
  intros H. unfold DEFAULT. now destruct (Z.eqb_spec param null).
Qed.

Lemma DEFAULT_filled (param null value : Z) :
  value <> null -> DEFAULT Z.eqb param null value <> null.
Proof.
  intros H. unfold DEFAULT. now destruct (Z.eqb_spec param null).
Qed.

Lemma DEFAULT_ptr_set (param : option string) (value : string) :
  param <> None -> DEFAULT_ptr param value = param.
Proof. destruct param; [reflexivity | contradiction]. Qed.

Lemma DEFAULT_ptr_filled (param : option string) (value : string) :
  DEFAULT_ptr param value <> None.
Proof. destruct param; discriminate. Qed.

(** After [bud_config_set_defaults] no field is left unconfigured, and a
    second application changes nothing. *)
Theorem set_defaults_fills_and_settles (config : bud_config_t) :
  defaults_filled (bud_config_set_defaults config) /\
  bud_config_set_defaults (bud_config_set_defaults config)
  = bud_config_set_defaults config.
Proof.
  assert (Hfilled : defaults_filled (bud_config_set_defaults config)).
  { unfold defaults_filled, bud_config_set_defaults. simpl.
    repeat split;
      solve [apply DEFAULT_filled; lia | apply DEFAULT_ptr_filled]. }
  split; [exact Hfilled|].
  unfold defaults_filled in Hfilled.
  destruct Hfilled
    as ((? & ?) & (? & ? & ? & ?) &
        (? & ? & ? & ? & ? & ? & ? & ? & ? & ? & ? & ?) &
        (? & ? & ?) & (? & ? & ?) & (? & ? & ?)).
  unfold bud_config_set_defaults at 1.
  rewrite !DEFAULT_set, !DEFAULT_ptr_set by assumption.
  reflexivity.
Qed.

(** A configuration in which every field is configured passes through
    [bud_config_set_defaults] unchanged: defaults never replace a value that
    differs from the marker. *)
Theorem set_defaults_keeps_configured (config : bud_config_t) :
  defaults_filled config -> bud_config_set_defaults config = config.
Proof.
  unfold defaults_filled.
  intros ((? & ?) & (? & ? & ? & ?) &
          (? & ? & ? & ? & ? & ? & ? & ? & ? & ? & ? & ?) &
          (? & ? & ?) & (? & ? & ?) & (? & ? & ?)).
  unfold bud_config_set_defaults.
  rewrite !DEFAULT_set, !DEFAULT_ptr_set by assumption.
  destruct config as [j w r l f b s o n cs].
  destruct l, f, b, s, o. reflexivity.
Qed.

Lemma set_defaults_keeps_configured_witness :
  defaults_filled Sample.two_hosts_config /\
  bud_config_set_defaults Sample.two_hosts_config = Sample.two_hosts_config.
Proof.
  assert (H : defaults_filled Sample.two_hosts_config)
    by (unfold defaults_filled; vm_compute; repeat split; discriminate).
  split; [exact H|].
  exact (set_defaults_keeps_configured Sample.two_hosts_config H).
Defined.

(** ** Loading, outcome by outcome *)

Lemma load_contexts_error_not_ok (entries : Parson.JSON_Array)
    (e : bud_error_t) :
  load_contexts entries = inl e -> bud_is_ok e = false.
Proof.
  induction entries as [|v entries IH]; cbn [load_contexts];
    [discriminate|].
  destruct (Parson.json_value_get_object v) as [obj|].
  - rewrite verify_npn_result.
    destruct (npn_has_non_string (npn (load_context obj))); simpl.
    + intros H. now injection H as <-.
    + destruct (load_contexts entries) as [e'|slots]; [|discriminate].
      intros H. injection H as <-. now apply IH.
  - intros H. now injection H as <-.
Qed.

(** The pass over "contexts" succeeds exactly on arrays of accepted
    entries. *)
Lemma load_contexts_accepts (entries : Parson.JSON_Array) :
  (exists slots, load_contexts entries = inr slots)
  <-> Forall entry_accepted entries.
Proof.
  induction entries as [|v entries IH]; cbn [load_contexts].
  - split; [constructor | now exists []].
  - destruct (Parson.json_value_get_object v) as [obj|] eqn:Ev.
    + apply get_object_some in Ev. subst v.
      change (npn (load_context obj))
        with (Parson.json_object_get_array obj "npn").
      rewrite verify_npn_result.
      destruct (npn_has_non_string (Parson.json_object_get_array obj "npn"))
        eqn:En; simpl.
      * split; [intros (slots & H); discriminate|].
        intros H. inversion H as [|? ? (o & Ho & Hn) _]; subst.
        injection Ho as <-. congruence.
      * split.
        -- intros (slots & H).
           destruct (load_contexts entries) as [e|rest]; [discriminate|].
           constructor; [now exists obj|]. apply IH. now exists rest.
        -- intros H. inversion H as [|? ? _ Hrest]; subst.
           apply IH in Hrest as (rest & ->). now eexists.
    + split; [intros (slots & H); discriminate|].
      intros H. inversion H as [|? ? (o & -> & _) _]. discriminate.
Qed.

Section Outcomes.

Context {ext : Externals}.

Lemma load_frontend_error (obj : Parson.JSON_Object) :
  (bud_is_ok (fst (load_frontend obj)) = false <-> frontend_npn_fault obj) /\
  frontend_npn (snd (load_frontend obj))
  = match Parson.json_object_get_object obj "frontend" with
    | Some f => Parson.json_object_get_array f "npn"
    | None => None
    end.
Proof.
  unfold load_frontend, frontend_npn_fault.
  destruct (Parson.json_object_get_object obj "frontend") as [f|]; simpl.
  - rewrite verify_npn_result. split; [|reflexivity].
    destruct (npn_has_non_string (Parson.json_object_get_array f "npn"))
      eqn:E; simpl.
    + split; [|reflexivity]. intros _. now exists f.
    + split; [discriminate|]. intros (f' & Hf & Hn). congruence.
  - split; [|reflexivity]. split; [discriminate|].
    intros (f' & Hf & _). discriminate.
Qed.

(** [bud_config_load] returns [NULL] exactly when the error it stores is not
    [bud_ok]: the assertion "Config load failed without error" of
    [bud_config_cli_load] cannot fire, and no configuration comes with an
    error. *)
Theorem load_null_iff_error (path : string) :
  fst (bud_config_load path) = None
  <-> bud_is_ok (snd (bud_config_load path)) = false.
Proof.
  unfold bud_config_load.
  destruct (json_parse_file path) as [value|]; [|now split].
  destruct (Parson.json_value_get_object value) as [obj|]; [|now split].
  destruct (negb (calloc_config _)); [now split|].
  destruct (load_frontend obj) as [ferr fe].
  destruct (bud_is_ok ferr) eqn:Ef; simpl; [|now split].
  destruct (load_contexts _) as [e|slots] eqn:El; simpl.
  - apply load_contexts_error_not_ok in El. now split.
  - split; discriminate.
Qed.

(** [bud_config_load] succeeds exactly when the file parses to an object,
    the configuration is allocated, the "npn" array of the frontend holds
    strings only, and every entry of "contexts" is an object whose "npn"
    array holds strings only.  Nothing else in the file can make it fail:
    missing sections and fields of another type are read as not
    configured. *)
Theorem load_succeeds_iff (path : string) :
  (exists config, bud_config_load path = (Some config, bud_ok)) <->
  exists value obj,
    json_parse_file path = Some value /\
    value = Parson.JSONObject obj /\
    calloc_config (List.length (contexts_of_file obj)) = true /\
    ~ frontend_npn_fault obj /\
    Forall entry_accepted (contexts_of_file obj).
Proof.
  unfold bud_config_load.
  destruct (json_parse_file path) as [value|].
  2:{ split; [intros (c & H); discriminate|].
      intros (v & o & H & _). discriminate. }
  destruct (Parson.json_value_get_object value) as [obj|] eqn:Ev.
  2:{ split; [intros (c & H); discriminate|].
      intros (v & o & Hv & -> & _). injection Hv as ->. discriminate. }
  apply get_object_some in Ev. subst value.
  fold (contexts_of_file obj). unfold Parson.json_array_get_count.
  pose proof (proj1 (load_frontend_error obj)) as Hfront.
  pose proof (load_contexts_accepts (contexts_of_file obj)) as Hentries.
  destruct (calloc_config (List.length (contexts_of_file obj))) eqn:Ec;
    simpl.
  2:{ split; [intros (c & H); discriminate|].
      intros (v & o & Hv & Ho & Hc & _).
      injection Hv as <-. injection Ho as <-. congruence. }
  destruct (load_frontend obj) as [ferr fe]. simpl in Hfront.
  destruct (bud_is_ok ferr) eqn:Ef; simpl.
  2:{ split; [intros (c & H); discriminate|].
      intros (v & o & Hv & Ho & _ & Hnf & _).
      injection Hv as <-. injection Ho as <-. exfalso. apply Hnf.
      now apply Hfront. }
  destruct (load_contexts (contexts_of_file obj)) as [e|slots].
  - split; [intros (c & H); discriminate|].
    intros (v & o & Hv & Ho & _ & _ & Hall).
    injection Hv as <-. injection Ho as <-.
    apply Hentries in Hall as (slots & H). discriminate.
  - split; [|intros _; now eexists].
    intros _. exists (Parson.JSONObject obj), obj.
    repeat split; try assumption.
    + intros Hfault. apply Hfront in Hfault. discriminate.
    + apply Hentries. now exists slots.
Qed.

(** After [bud_config_load] succeeds every default is filled, and the four
    ports are never 0: a frontend port that the file gives as a number
    that fits a [uint16_t] is kept, except 0, which is replaced by the
    default port 1443. *)
Theorem load_fills_defaults (path : string) (config : bud_config_t)
    (err : bud_error_t) :
  bud_config_load path = (Some config, err) ->
  defaults_filled config /\
  port_in_range (frontend_port (frontend config)) /\
  port_in_range (backend_port (backend config)) /\
  port_in_range (pool_port (sni config)) /\
  port_in_range (pool_port (stapling config)) /\
  forall obj f,
    json_parse_file path = Some (Parson.JSONObject obj) ->
    Parson.json_object_get_object obj "frontend" = Some f ->
    0 <= Parson.json_object_get_number f "port" < 65536 ->
    frontend_port (frontend config)
    = if Parson.json_object_get_number f "port" =? 0
      then 1443
      else Parson.json_object_get_number f "port".
Proof.
  unfold bud_config_load. intros H.
  destruct (json_parse_file path) as [value|]; [|discriminate].
  destruct (Parson.json_value_get_object value) as [obj|] eqn:Ev;
    [|discriminate].
  apply get_object_some in Ev. subst value.
  destruct (negb (calloc_config _)); [discriminate|].
  destruct (load_frontend obj) as [ferr fe] eqn:Ef.
  destruct (negb (bud_is_ok ferr)); [discriminate|].
  destruct (load_contexts _) as [e|slots]; [discriminate|].
  injection H as <- <-.
  split; [apply set_defaults_fills_and_settles|].
  assert (Hrange : forall n d, port_in_range d ->
                     port_in_range (DEFAULT Z.eqb (uint16_t n) 0 d)).
  { intros n d Hd. unfold DEFAULT, uint16_t, port_in_range in *.
    pose proof (Z.mod_pos_bound n 65536 ltac:(lia)).
    destruct (Z.eqb_spec (n mod 65536) 0); lia. }
  assert (Hzero : forall d, port_in_range d ->
                    port_in_range (DEFAULT Z.eqb 0 0 d))
    by (intros d Hd; exact Hd).
  assert (Hpool : forall key d, port_in_range d ->
            port_in_range
              (DEFAULT Z.eqb
                 (pool_port (bud_config_read_pool_conf obj key zeroed_pool))
                 0 d)).
  { intros key d Hd. unfold bud_config_read_pool_conf.
    destruct (Parson.json_object_get_object obj key); simpl; auto. }
  unfold load_frontend in Ef. cbn [bud_config_set_defaults frontend backend
    sni stapling frontend_port backend_port pool_port].
  split; [|split; [|split; [|split]]].
  - destruct (Parson.json_object_get_object obj "frontend");
      injection Ef as <- <-; simpl;
      [apply Hrange | apply Hzero]; unfold port_in_range; lia.
  - unfold load_backend.
    destruct (Parson.json_object_get_object obj "backend"); simpl;
      [apply Hrange | apply Hzero]; unfold port_in_range; lia.
  - apply Hpool. unfold port_in_range. lia.
  - apply Hpool. unfold port_in_range. lia.
  - intros obj' f Hv Hf Hfits. injection Hv as <-. rewrite Hf in Ef.
    injection Ef as <- <-. cbn [frontend_port]. unfold DEFAULT, uint16_t.
    now rewrite Z.mod_small.
Qed.

End Outcomes.

Lemma load_fills_defaults_witness :
  bud_config_load (ext := Examples.env) "three_hosts.json"
  = (Some Examples.three_hosts_config, bud_ok) /\
  defaults_filled Examples.three_hosts_config /\
  port_in_range (frontend_port (frontend Examples.three_hosts_config)) /\
  frontend_port (frontend Examples.three_hosts_config) = 1443 /\
  backend_port (backend Examples.three_hosts_config) = 8080.
Proof.
  assert (H : bud_config_load (ext := Examples.env) "three_hosts.json"
              = (Some Examples.three_hosts_config, bud_ok)) by reflexivity.
  destruct (load_fills_defaults (ext := Examples.env) _ _ _ H)
    as (Hfilled & Hfront & _).
  split; [exact H|]. split; [exact Hfilled|]. split; [exact Hfront|].
  split; reflexivity.
Defined.

(** ** The NPN line, outcome by outcome *)

Lemma npn_items_verified (array : Parson.JSON_Array) :
  npn_has_non_string (Some array) = false ->
  exists items,
    npn_items array = Some items /\ array = map Parson.JSONString items.
Proof.
  induction array as [|v array IH]; simpl; intros H.
  - now exists [].
  - apply Bool.orb_false_iff in H as [Hv Hrest].
    destruct v; try discriminate.
    destruct (IH Hrest) as (items & Hitems & ->).
    exists (s :: items). simpl. now rewrite npn_items_of_strings.
Qed.

Lemma npn_storage_zero (items : list string) :
  npn_storage items = O <-> items = [].
Proof. destruct items; simpl; split; intros H; congruence || lia. Qed.

Section Lines.

Context {ext : Externals}.

(** What [bud_config_encode_npn] returns when it returns: [NULL] with length
    0 when no array is configured; a pointer it never assigned, with length
    0, when the array in effect is empty; a buffer of exactly the length it
    reports, which is positive, so that its assertion [offset ==
    npn_line_len] holds; or [NULL] with the error [kBudErrNoMem] and no
    length stored, when the line could not be allocated. *)
Theorem encode_npn_outcomes (config : bud_config_t)
    (npn : option Parson.JSON_Array) (r : encode_npn_result) :
  bud_config_encode_npn config npn = Some r ->
  (npn_in_effect config npn = None /\
   r = mk_encode BufNull (Some O) bud_ok) \/
  (npn_in_effect config npn = Some [] /\
   r = mk_encode BufUnassigned (Some O) bud_ok) \/
  (exists content,
     r = mk_encode (Buf content) (Some (List.length content)) bud_ok /\
     (0 < List.length content)%nat /\
     malloc (List.length content) = true) \/
  (exists items,
     npn_in_effect config npn = Some (map Parson.JSONString items) /\
     r = mk_encode BufNull None (bud_error_str kBudErrNoMem "NPN copy") /\
     malloc (npn_storage items) = false).
Proof.
  unfold bud_config_encode_npn.
  replace (match npn with
           | Some _ => npn
           | None => frontend_npn (frontend config)
           end) with (npn_in_effect config npn) by now destruct npn.
  destruct (npn_in_effect config npn) as [array|];
    [|intros H; injection H as <-; now left].
  destruct (npn_items array) as [items|] eqn:Eitems; [|discriminate].
  assert (Harray : array = map Parson.JSONString items).
  { clear -Eitems. revert items Eitems.
    induction array as [|v array IH]; simpl; intros items H.
    - now injection H as <-.
    - destruct v; try discriminate.
      destruct (npn_items array) as [rest|]; [|discriminate].
      injection H as <-. simpl. now rewrite <- (IH rest eq_refl). }
  destruct (npn_storage items =? 0)%nat eqn:Ezero.
  - apply Nat.eqb_eq, npn_storage_zero in Ezero. subst items.
    intros H. injection H as <-. right; left. now subst array.
  - apply Nat.eqb_neq in Ezero.
    destruct (malloc (npn_storage items)) eqn:Em; intros H; injection H as <-.
    + right; right; left. exists (fill_npn_line items).
      rewrite fill_npn_line_length. repeat split; [lia | exact Em].
    + right; right; right. exists items. now subst array.
Qed.

End Lines.

Lemma encode_npn_outcomes_witness :
  bud_config_encode_npn (ext := Examples.env) Examples.three_hosts_config
    (npn (context_at Examples.three_hosts_config 3))
  = Some (mk_encode BufUnassigned (Some O) bud_ok) /\
  ((npn_in_effect Examples.three_hosts_config
      (npn (context_at Examples.three_hosts_config 3)) = None /\
    mk_encode BufUnassigned (Some O) bud_ok
    = mk_encode BufNull (Some O) bud_ok) \/
   (npn_in_effect Examples.three_hosts_config
      (npn (context_at Examples.three_hosts_config 3)) = Some [] /\
    mk_encode BufUnassigned (Some O) bud_ok
    = mk_encode BufUnassigned (Some O) bud_ok) \/
   (exists content,
      mk_encode BufUnassigned (Some O) bud_ok
      = mk_encode (Buf content) (Some (List.length content)) bud_ok /\
      (0 < List.length content)%nat /\
      malloc (Externals := Examples.env) (List.length content) = true) \/
   (exists items,
      npn_in_effect Examples.three_hosts_config
        (npn (context_at Examples.three_hosts_config 3))
      = Some (map Parson.JSONString items) /\
      mk_encode BufUnassigned (Some O) bud_ok
      = mk_encode BufNull None (bud_error_str kBudErrNoMem "NPN copy") /\
      malloc (Externals := Examples.env) (npn_storage items) = false)).
Proof.
  assert (H : bud_config_encode_npn (ext := Examples.env)
                Examples.three_hosts_config
                (npn (context_at Examples.three_hosts_config 3))
              = Some (mk_encode BufUnassigned (Some O) bud_ok))
    by reflexivity.
  split; [exact H|].
  exact (encode_npn_outcomes (ext := Examples.env) _ _ _ H).
Defined.


(** ** TLS contexts, setting by setting *)

Lemma option_set_after (c : SSL_CTX) (mask flag : Z) :
  option_set (SSL_CTX_set_options c mask) flag
  = option_set c flag || negb (Z.land mask flag =? 0).
Proof.
  unfold option_set, SSL_CTX_set_options. cbn [options].
  rewrite Z.land_lor_distr_l.
  destruct (Z.eqb_spec (Z.land (options c) flag) 0) as [Ha | Ha];
    destruct (Z.eqb_spec (Z.land mask flag) 0) as [Hb | Hb];
    destruct (Z.eqb_spec (Z.lor (Z.land (options c) flag) (Z.land mask flag)) 0)
      as [Hab | Hab]; try reflexivity; exfalso.
  - apply Hab. now rewrite Ha, Hb.
  - apply Z.lor_eq_0_iff in Hab. tauto.
  - apply Z.lor_eq_0_iff in Hab. tauto.
  - apply Z.lor_eq_0_iff in Hab. tauto.
Qed.

Section NewContext.

Context {ext : Externals}.

(** The steps of a call that returns [bud_ok]. *)
Lemma new_ssl_ctx_success (config : bud_config_t) (context : bud_context_t)
    (err : bud_error_t) (config' : bud_config_t) (context' : bud_context_t) :
  bud_config_new_ssl_ctx config context = Some (err, config', context') ->
  bud_is_ok err = true ->
  exists m c0 c1 line n,
    choose_method config = Some m /\
    config' = set_frontend_method config m /\
    SSL_CTX_new m = Some c0 /\
    select_ecdh config' context
      (SSL_CTX_set_session_cache_mode c0 SSL_SESS_CACHE_OFF) = inr c1 /\
    bud_config_encode_npn config' (npn context)
    = Some (mk_encode line (Some n) bud_ok) /\
    line <> BufUnassigned /\
    context'
    = set_ctx (set_npn_line context line n)
        (SSL_CTX_set_tlsext_status_cb
           (let c := install_servername_callback config'
                       (SSL_CTX_set_options
                          (select_ciphers config' context c1)
                          (ssl_options config')) in
            match line with
            | Buf _ => SSL_CTX_set_next_protos_advertised_cb c
            | _ => c
            end)).
Proof.
  unfold bud_config_new_ssl_ctx. intros H Hok.
  destruct (choose_method config) as [m|]; [|discriminate].
  destruct (SSL_CTX_new m) as [c0|] eqn:Enew;
    [|injection H as <- <- <-; discriminate].
  destruct (select_ecdh (set_frontend_method config m) context
              (SSL_CTX_set_session_cache_mode c0 SSL_SESS_CACHE_OFF))
    as [e|c1] eqn:Eecdh.
  { injection H as <- <- <-.
    destruct (select_ecdh_error _ _ _ _ Eecdh) as [He | He];
      unfold bud_is_ok in Hok; rewrite He in Hok; discriminate. }
  destruct (bud_config_encode_npn (set_frontend_method config m) (npn context))
    as [r|] eqn:Enpn; [|discriminate].
  destruct (encode_npn_outcomes _ _ _ Enpn)
    as [(_ & ->) | [(_ & ->) | [(content & -> & _) | (items & _ & -> & _)]]];
    simpl in H; try discriminate; injection H as He Hc Hx; subst.
  - exists m, c0, c1, BufNull, O. repeat split; assumption || discriminate.
  - exists m, c0, c1, (Buf content), (List.length content).
    repeat split; assumption || discriminate.
  - discriminate Hok.
Qed.

(** The protocol options of every context that [bud_config_new_ssl_ctx]
    constructs: SSLv2 is always disabled; SSLv3 is disabled unless the
    frontend sets "ssl3"; the server's cipher order is preferred unless the
    frontend clears "server_preference"; a fresh ECDH key per handshake is
    asked for when a curve is configured.  Beyond that an option is set only
    if [SSL_CTX_new] had set it. *)
Theorem new_ssl_ctx_protocol_options (config : bud_config_t)
    (context : bud_context_t) (err : bud_error_t) (config' : bud_config_t)
    (context' : bud_context_t) :
  bud_config_new_ssl_ctx config context = Some (err, config', context') ->
  bud_is_ok err = true ->
  exists m c0 c,
    choose_method config = Some m /\
    SSL_CTX_new m = Some c0 /\
    ctx context' = Some c /\
    option_set c SSL_OP_NO_SSLv2 = true /\
    option_set c SSL_OP_NO_SSLv3
    = option_set c0 SSL_OP_NO_SSLv3
      || (frontend_ssl3 (frontend config) =? 0) /\
    option_set c SSL_OP_CIPHER_SERVER_PREFERENCE
    = option_set c0 SSL_OP_CIPHER_SERVER_PREFERENCE
      || negb (frontend_server_preference (frontend config) =? 0) /\
    option_set c SSL_OP_SINGLE_ECDH_USE
    = option_set c0 SSL_OP_SINGLE_ECDH_USE
      || match ecdh_in_effect config context with
         | Some _ => true
         | None => false
         end.
Proof.
  intros H Hok.
  destruct (new_ssl_ctx_success _ _ _ _ _ H Hok)
    as (m & c0 & c1 & line & n & Hm & -> & Hnew & Hecdh & _ & _ & ->).
  exists m, c0. eexists. split; [exact Hm|]. split; [exact Hnew|].
  split; [reflexivity|].
  assert (Hfinal : forall flag,
            option_set
              (SSL_CTX_set_tlsext_status_cb
                 (let c := install_servername_callback
                             (set_frontend_method config m)
                             (SSL_CTX_set_options
                                (select_ciphers (set_frontend_method config m)
                                   context c1)
                                (ssl_options (set_frontend_method config m)))
                  in
                  match line with
                  | Buf _ => SSL_CTX_set_next_protos_advertised_cb c
                  | _ => c
                  end)) flag
            = option_set c1 flag
              || negb (Z.land (ssl_options config) flag =? 0)).
  { intros flag. rewrite <- option_set_after.
    unfold option_set. f_equal. f_equal. f_equal.
    cbv zeta. unfold install_servername_callback, select_ciphers.
    destruct line; destruct (context_count _ =? 0)%nat;
      destruct (ciphers context);
      try destruct (frontend_ciphers (frontend _)); reflexivity. }
  assert (Hcurve : forall flag,
            option_set c1 flag
            = option_set c0 flag
              || match ecdh_in_effect config context with
                 | Some _ => negb (Z.land SSL_OP_SINGLE_ECDH_USE flag =? 0)
                 | None => false
                 end).
  { intros flag. unfold select_ecdh in Hecdh.
    change (match ecdh context with
            | Some n => Some n
            | None => frontend_ecdh (frontend (set_frontend_method config m))
            end) with (ecdh_in_effect config context) in Hecdh.
    destruct (ecdh_in_effect config context) as [curve|].
    - destruct (OBJ_sn2nid curve =? NID_undef); [discriminate|].
      destruct (EC_KEY_new_by_curve_name (OBJ_sn2nid curve)); [|discriminate].
      injection Hecdh as <-.
      transitivity
        (option_set
           (SSL_CTX_set_options
              (SSL_CTX_set_session_cache_mode c0 SSL_SESS_CACHE_OFF)
              SSL_OP_SINGLE_ECDH_USE) flag); [reflexivity|].
      now rewrite option_set_after.
    - injection Hecdh as <-. now rewrite Bool.orb_false_r. }
  rewrite !Hfinal, !Hcurve. unfold ssl_options.
  destruct (ecdh_in_effect config context);
    destruct (frontend_ssl3 (frontend config) =? 0);
    destruct (frontend_server_preference (frontend config) =? 0);
    cbn - [option_set]; rewrite ?Bool.orb_false_r, ?Bool.orb_true_r;
    repeat split; reflexivity.
Qed.

End NewContext.

Lemma new_ssl_ctx_protocol_options_witness :
  exists config' context' c,
    bud_config_new_ssl_ctx (ext := Examples.env) Examples.three_hosts_config
      (context_at Examples.three_hosts_config 1)
    = Some (bud_ok, config', context') /\
    bud_is_ok bud_ok = true /\
    ctx context' = Some c /\
    option_set c SSL_OP_NO_SSLv2 = true /\
    option_set c SSL_OP_NO_SSLv3 = false /\
    option_set c SSL_OP_CIPHER_SERVER_PREFERENCE = false /\
    option_set c SSL_OP_SINGLE_ECDH_USE = true.
Proof.
  do 2 eexists.
  assert (H : bud_config_new_ssl_ctx (ext := Examples.env)
                Examples.three_hosts_config
                (context_at Examples.three_hosts_config 1)
              = Some (bud_ok,
                      set_frontend_method Examples.three_hosts_config
                        SSLv23_server_method,
                      match bud_config_new_ssl_ctx (ext := Examples.env)
                              Examples.three_hosts_config
                              (context_at Examples.three_hosts_config 1) with
                      | Some (_, _, c) => c
                      | None => zeroed_context
                      end)) by reflexivity.
  destruct (new_ssl_ctx_protocol_options (ext := Examples.env) _ _ _ _ _ H
              eq_refl)
    as (m & c0 & c & Hm & Hnew & Hc & H2 & H3 & Hpref & Hecdh).
  injection Hm as <-. injection Hnew as <-.
  exists c. split; [exact H|]. split; [reflexivity|]. split; [exact Hc|].
  split; [exact H2|]. split; [exact H3|]. split; [exact Hpref | exact Hecdh].
Defined.

Section NewContextErrors.

Context {ext : Externals}.

(** The callbacks of every context that [bud_config_new_ssl_ctx]
    constructs: the OCSP status callback is always installed; the SNI
    callback is installed exactly when the configuration has SNI entries,
    and the NPN advertisement callback exactly when an NPN line was built;
    the call leaves the NPN line with the length that
    [bud_config_encode_npn] reported. *)
Theorem new_ssl_ctx_callbacks (config : bud_config_t)
    (context : bud_context_t) (err : bud_error_t) (config' : bud_config_t)
    (context' : bud_context_t) :
  bud_config_new_ssl_ctx config context = Some (err, config', context') ->
  bud_is_ok err = true ->
  exists m c0 c,
    choose_method config = Some m /\
    SSL_CTX_new m = Some c0 /\
    ctx context' = Some c /\
    tlsext_status_cb c = true /\
    tlsext_servername_callback c
    = tlsext_servername_callback c0
      || negb (context_count config =? 0)%nat /\
    next_protos_advertised_cb c
    = next_protos_advertised_cb c0
      || match npn_line context' with
         | Buf _ => true
         | _ => false
         end /\
    bud_config_encode_npn config' (npn context)
    = Some (mk_encode (npn_line context') (Some (npn_line_len context'))
              bud_ok).
Proof.
  intros H Hok.
  destruct (new_ssl_ctx_success _ _ _ _ _ H Hok)
    as (m & c0 & c1 & line & n & Hm & -> & Hnew & Hecdh & Hnpn & _ & ->).
  exists m, c0. eexists. split; [exact Hm|]. split; [exact Hnew|].
  split; [reflexivity|].
  assert (Hc1 : tlsext_servername_callback c1 = tlsext_servername_callback c0
                /\ next_protos_advertised_cb c1 = next_protos_advertised_cb c0).
  { unfold select_ecdh in Hecdh.
    destruct (match ecdh context with
              | Some n => Some n
              | None => _
              end) as [curve|].
    - destruct (OBJ_sn2nid curve =? NID_undef); [discriminate|].
      destruct (EC_KEY_new_by_curve_name (OBJ_sn2nid curve)); [|discriminate].
      injection Hecdh as <-. now split.
    - injection Hecdh as <-. now split. }
  destruct Hc1 as [Hsni Hnext].
  unfold install_servername_callback, select_ciphers.
  cbn [set_ctx set_npn_line npn_line npn_line_len set_frontend_method
       context_count frontend frontend_ciphers].
  split; [|split; [|split; [|exact Hnpn]]].
  - now destruct line.
  - destruct line; destruct (context_count config =? 0)%nat;
      destruct (ciphers context);
      try destruct (frontend_ciphers (frontend config)); simpl;
      rewrite ?Hsni, ?Bool.orb_false_r, ?Bool.orb_true_r; reflexivity.
  - destruct line; destruct (context_count config =? 0)%nat;
      destruct (ciphers context);
      try destruct (frontend_ciphers (frontend config)); simpl;
      rewrite ?Hnext, ?Bool.orb_false_r, ?Bool.orb_true_r; reflexivity.
Qed.

(** A curve that OpenSSL does not know ends [bud_config_new_ssl_ctx] with
    [kBudErrECDHNotFound] and the name of that curve, the context's own
    curve going before the frontend's; the context is left as it was. *)
Theorem new_ssl_ctx_unknown_curve (config : bud_config_t)
    (context : bud_context_t) (m : SSL_METHOD) (c0 : SSL_CTX)
    (curve : string) :
  choose_method config = Some m ->
  SSL_CTX_new m = Some c0 ->
  ecdh_in_effect config context = Some curve ->
  OBJ_sn2nid curve = NID_undef ->
  bud_config_new_ssl_ctx config context
  = Some (bud_error_str kBudErrECDHNotFound curve,
          set_frontend_method config m, context).
Proof.
  intros Hm Hnew Hcurve Hnid. unfold bud_config_new_ssl_ctx.
  rewrite Hm, Hnew. unfold select_ecdh.
  change (match ecdh context with
          | Some n => Some n
          | None => frontend_ecdh (frontend (set_frontend_method config m))
          end) with (ecdh_in_effect config context).
  now rewrite Hcurve, Hnid.
Qed.

(** A call that returns an error stores no [SSL_CTX]: the context is as it
    was, except that its NPN line is [NULL] when it was the allocation of
    the line that failed.  The error is then [kBudErrNoMem] or
    [kBudErrECDHNotFound]. *)
Theorem new_ssl_ctx_failure_keeps_context (config : bud_config_t)
    (context : bud_context_t) (err : bud_error_t) (config' : bud_config_t)
    (context' : bud_context_t) :
  bud_config_new_ssl_ctx config context = Some (err, config', context') ->
  bud_is_ok err = false ->
  (context' = context \/
   context' = set_npn_line context BufNull (npn_line_len context)) /\
  ctx context' = ctx context /\
  (code err = kBudErrNoMem \/ code err = kBudErrECDHNotFound).
Proof.
  unfold bud_config_new_ssl_ctx. intros H Hok.
  destruct (choose_method config) as [m|]; [|discriminate].
  destruct (SSL_CTX_new m) as [c0|];
    [|injection H as <- <- <-; repeat split; auto].
  destruct (select_ecdh (set_frontend_method config m) context
              (SSL_CTX_set_session_cache_mode c0 SSL_SESS_CACHE_OFF))
    as [e|c1] eqn:Eecdh.
  { injection H as <- <- <-.
    destruct (select_ecdh_error _ _ _ _ Eecdh); repeat split; auto. }
  destruct (bud_config_encode_npn (set_frontend_method config m) (npn context))
    as [r|] eqn:Enpn; [|discriminate].
  destruct (encode_npn_outcomes _ _ _ Enpn)
    as [(_ & ->) | [(_ & ->) | [(content & -> & _) | (items & _ & -> & _)]]];
    simpl in H; try discriminate; injection H as He Hc Hx; subst;
    try discriminate Hok.
  repeat split; auto.
Qed.

(** [bud_config_new_ssl_ctx] changes the configuration in one field only,
    the TLS method, and only when none was chosen before: the configuration
    a call returns is returned unchanged by every later call, whatever the
    security string has become. *)
Theorem new_ssl_ctx_method_chosen_once (config : bud_config_t)
    (context : bud_context_t) (err : bud_error_t) (config' : bud_config_t)
    (context' : bud_context_t) :
  bud_config_new_ssl_ctx config context = Some (err, config', context') ->
  exists m,
    config' = set_frontend_method config m /\
    (forall m0, frontend_method (frontend config) = Some m0 ->
                m = m0 /\ config' = config) /\
    forall later err2 config2 context2,
      bud_config_new_ssl_ctx config' later = Some (err2, config2, context2) ->
      config2 = config'.
Proof.
  intros H.
  assert (Hshape : forall cfg c e cfg' c',
            bud_config_new_ssl_ctx cfg c = Some (e, cfg', c') ->
            exists m, choose_method cfg = Some m /\
                      cfg' = set_frontend_method cfg m).
  { clear. unfold bud_config_new_ssl_ctx. intros cfg c e cfg' c' H.
    destruct (choose_method cfg) as [m|]; [|discriminate].
    exists m. split; [reflexivity|].
    destruct (SSL_CTX_new m); [|now injection H as <- <- <-].
    destruct (select_ecdh _ _ _); [now injection H as <- <- <-|].
    destruct (bud_config_encode_npn _ _) as [r|]; [|discriminate].
    destruct (negb (bud_is_ok (encoded_err r)));
      [now injection H as <- <- <-|].
    destruct (encoded_line r); try discriminate;
      now injection H as <- <- <-. }
  assert (Hkeep : forall cfg m0,
            frontend_method (frontend cfg) = Some m0 ->
            set_frontend_method cfg m0 = cfg).
  { clear. intros cfg m0 Hm0. destruct cfg as [j w r l f b s o n cs].
    destruct f. simpl in *. now subst. }
  destruct (Hshape _ _ _ _ _ H) as (m & Hm & ->).
  exists m. split; [reflexivity|]. split.
  - intros m0 Hm0. unfold choose_method in Hm. rewrite Hm0 in Hm.
    injection Hm as <-. split; [reflexivity|]. now apply Hkeep.
  - intros later err2 config2 context2 H2.
    destruct (Hshape _ _ _ _ _ H2) as (m2 & Hm2 & ->).
    apply Hkeep. unfold choose_method in Hm2. simpl in Hm2.
    injection Hm2 as <-. reflexivity.
Qed.

End NewContextErrors.

Lemma new_ssl_ctx_callbacks_witness :
  exists config' context' c,
    bud_config_new_ssl_ctx (ext := Examples.env) Examples.three_hosts_config
      (context_at Examples.three_hosts_config 1)
    = Some (bud_ok, config', context') /\
    bud_is_ok bud_ok = true /\
    ctx context' = Some c /\
    tlsext_status_cb c = true /\
    tlsext_servername_callback c = true /\
    next_protos_advertised_cb c = true /\
    npn_line_len context' = 9%nat.
Proof.
  do 2 eexists.
  assert (H : bud_config_new_ssl_ctx (ext := Examples.env)
                Examples.three_hosts_config
                (context_at Examples.three_hosts_config 1)
              = Some (bud_ok,
                      set_frontend_method Examples.three_hosts_config
                        SSLv23_server_method,
                      match bud_config_new_ssl_ctx (ext := Examples.env)
                              Examples.three_hosts_config
                              (context_at Examples.three_hosts_config 1) with
                      | Some (_, _, c) => c
                      | None => zeroed_context
                      end)) by reflexivity.
  destruct (new_ssl_ctx_callbacks (ext := Examples.env) _ _ _ _ _ H eq_refl)
    as (m & c0 & c & Hm & Hnew & Hc & Hstatus & Hsni & Hnext & _).
  injection Hm as <-. injection Hnew as <-.
  exists c. split; [exact H|]. split; [reflexivity|]. split; [exact Hc|].
  split; [exact Hstatus|]. split; [exact Hsni|]. split; [exact Hnext|].
  reflexivity.
Defined.

Lemma new_ssl_ctx_unknown_curve_witness :
  choose_method Examples.three_hosts_config = Some SSLv23_server_method /\
  ecdh_in_effect Examples.three_hosts_config
    (context_at Examples.three_hosts_config 2) = Some "nocurve" /\
  OBJ_sn2nid (Externals := Examples.env) "nocurve" = NID_undef /\
  bud_config_new_ssl_ctx (ext := Examples.env) Examples.three_hosts_config
    (context_at Examples.three_hosts_config 2)
  = Some (bud_error_str kBudErrECDHNotFound "nocurve",
          set_frontend_method Examples.three_hosts_config
            SSLv23_server_method,
          context_at Examples.three_hosts_config 2).
Proof.
  split; [reflexivity|]. split; [reflexivity|]. split; [reflexivity|].
  exact (new_ssl_ctx_unknown_curve (ext := Examples.env)
           Examples.three_hosts_config
           (context_at Examples.three_hosts_config 2) SSLv23_server_method
           _ "nocurve" eq_refl eq_refl eq_refl eq_refl).
Defined.

Lemma new_ssl_ctx_failure_keeps_context_witness :
  exists config',
    bud_config_new_ssl_ctx (ext := Examples.env_no_memory)
      Examples.three_hosts_config (context_at Examples.three_hosts_config 1)
    = Some (bud_error_str kBudErrNoMem "NPN copy", config',
            set_npn_line (context_at Examples.three_hosts_config 1) BufNull 0)
    /\
    bud_is_ok (bud_error_str kBudErrNoMem "NPN copy") = false /\
    ctx (set_npn_line (context_at Examples.three_hosts_config 1) BufNull 0)
    = ctx (context_at Examples.three_hosts_config 1).
Proof.
  eexists.
  assert (H : bud_config_new_ssl_ctx (ext := Examples.env_no_memory)
                Examples.three_hosts_config
                (context_at Examples.three_hosts_config 1)
              = Some (bud_error_str kBudErrNoMem "NPN copy",
                      set_frontend_method Examples.three_hosts_config
                        SSLv23_server_method,
                      set_npn_line (context_at Examples.three_hosts_config 1)
                        BufNull 0)) by reflexivity.
  split; [exact H|]. split; [reflexivity|].
  exact (proj1 (proj2 (new_ssl_ctx_failure_keeps_context
                         (ext := Examples.env_no_memory) _ _ _ _ _ H
                         eq_refl))).
Defined.

Lemma new_ssl_ctx_method_chosen_once_witness :
  exists err config' context',
    bud_config_new_ssl_ctx (ext := Sample.env) Sample.two_hosts_config
      (context_at Sample.two_hosts_config 0)
    = Some (err, config', context') /\
    frontend_method (frontend config') = Some SSLv23_server_method /\
    forall later err2 config2 context2,
      bud_config_new_ssl_ctx (ext := Sample.env) config' later
      = Some (err2, config2, context2) ->
      config2 = config'.
Proof.
  do 3 eexists.
  assert (H : bud_config_new_ssl_ctx (ext := Sample.env)
                Sample.two_hosts_config (context_at Sample.two_hosts_config 0)
              = Some (bud_ok,
                      set_frontend_method Sample.two_hosts_config
                        SSLv23_server_method,
                      match bud_config_new_ssl_ctx (ext := Sample.env)
                              Sample.two_hosts_config
                              (context_at Sample.two_hosts_config 0) with
                      | Some (_, _, c) => c
                      | None => zeroed_context
                      end)) by reflexivity.
  split; [exact H|]. split; [reflexivity|].
  destruct (new_ssl_ctx_method_chosen_once (ext := Sample.env) _ _ _ _ _ H)
    as (m & _ & _ & Hlater).
  exact Hlater.
Defined.

(** ** From loading to TLS contexts *)

Lemma load_contexts_npn_verified (entries : Parson.JSON_Array) :
  forall slots,
    load_contexts entries = inr slots ->
    Forall (fun c => npn_has_non_string (npn c) = false) slots.
Proof.
  induction entries as [|v entries IH]; cbn [load_contexts]; intros slots H.
  - injection H as <-. constructor.
  - destruct (Parson.json_value_get_object v) as [obj|]; [|discriminate].
    rewrite verify_npn_result in H.
    destruct (npn_has_non_string (npn (load_context obj))) eqn:En;
      [discriminate|].
    simpl in H. destruct (load_contexts entries) as [e|rest]; [discriminate|].
    injection H as <-. constructor; [exact En | now apply IH].
Qed.

Section AfterLoad.

Context {ext : Externals}.

(** What loading checked of the "npn" arrays holds of the configuration it
    returns. *)
Lemma load_npn_verified (path : string) (config : bud_config_t)
    (err : bud_error_t) :
  bud_config_load path = (Some config, err) -> npn_verified config.
Proof.
  unfold bud_config_load. intros H.
  destruct (json_parse_file path) as [value|]; [|discriminate].
  destruct (Parson.json_value_get_object value) as [obj|]; [|discriminate].
  destruct (negb (calloc_config _)); [discriminate|].
  pose proof (load_frontend_error obj) as [Hfault Hnpn].
  destruct (load_frontend obj) as [ferr fe]. simpl in Hfault, Hnpn.
  destruct (bud_is_ok ferr) eqn:Eok; [|discriminate]. simpl in H.
  destruct (load_contexts _) as [e|slots] eqn:El; [discriminate|].
  injection H as <- <-. unfold npn_verified. simpl. split.
  - rewrite Hnpn.
    destruct (Parson.json_object_get_object obj "frontend") as [f|] eqn:Ef;
      [|reflexivity].
    destruct (npn_has_non_string (Parson.json_object_get_array f "npn"))
      eqn:En; [|reflexivity].
    assert (Hf : frontend_npn_fault obj) by (exists f; now split).
    apply Hfault in Hf. discriminate.
  - constructor; [reflexivity|].
    now apply (load_contexts_npn_verified _ _ El).
Qed.

(** On every slot of a configuration that [bud_config_load] returned,
    [bud_config_new_ssl_ctx] stays within defined behaviour as long as the
    "npn" array in effect is not the empty array: the security string is
    there for [strcmp] and every NPN element is a string for [strlen].  With
    an empty array in effect it never returns [bud_ok]: the pointer that
    [bud_config_encode_npn] returns for it was never assigned. *)
Theorem new_ssl_ctx_after_load (path : string) (config : bud_config_t)
    (err : bud_error_t) (i : nat) :
  bud_config_load path = (Some config, err) ->
  (npn_in_effect config (npn (context_at config i)) <> Some [] ->
   exists e config' context',
     bud_config_new_ssl_ctx config (context_at config i)
     = Some (e, config', context')) /\
  (npn_in_effect config (npn (context_at config i)) = Some [] ->
   forall e config' context',
     bud_config_new_ssl_ctx config (context_at config i)
     = Some (e, config', context') ->
     bud_is_ok e = false).
Proof.
  intros Hload.
  pose proof (load_npn_verified _ _ _ Hload) as [Hfront Hslots].
  destruct (load_fills_defaults _ _ _ Hload) as [Hfilled _].
  set (context := context_at config i).
  assert (Hverified :
            npn_has_non_string (npn_in_effect config (npn context)) = false).
  { unfold npn_in_effect.
    destruct (npn context) as [a|] eqn:Ea; [|exact Hfront].
    rewrite <- Ea. subst context. unfold context_at.
    destruct (nth_in_or_default i (contexts config) zeroed_context)
      as [Hin | Hd].
    - rewrite Forall_forall in Hslots. now apply Hslots.
    - now rewrite Hd. }
  assert (Hmethod : exists m, choose_method config = Some m).
  { unfold choose_method, defaults_filled in *.
    destruct (frontend_method (frontend config)); [now eexists|].
    destruct (frontend_security (frontend config)); [now eexists|].
    tauto. }
  destruct Hmethod as (m & Hm).
  assert (Hencode : forall r,
            bud_config_encode_npn (set_frontend_method config m) (npn context)
            = Some r ->
            encoded_line r = BufUnassigned
            <-> npn_in_effect config (npn context) = Some []).
  { intros r Hr.
    destruct (encode_npn_outcomes _ _ _ Hr)
      as [(Ha & ->) | [(Ha & ->) | [(content & -> & _) | (items & Ha & -> & Hm')]]];
      change (npn_in_effect (set_frontend_method config m) (npn context))
        with (npn_in_effect config (npn context)) in *; simpl.
    - split; [discriminate | congruence].
    - tauto.
    - split; [discriminate|]. intros Hempty.
      unfold bud_config_encode_npn in Hr.
      replace (match npn context with
               | Some _ => npn context
               | None => frontend_npn (frontend (set_frontend_method config m))
               end) with (npn_in_effect config (npn context)) in Hr
        by (unfold npn_in_effect; now destruct (npn context)).
      rewrite Hempty in Hr. simpl in Hr. discriminate.
    - split; [discriminate|]. intros Hempty. rewrite Hempty in Ha.
      destruct items; [|discriminate]. simpl in Hm'.
      unfold bud_config_encode_npn in Hr.
      replace (match npn context with
               | Some _ => npn context
               | None => frontend_npn (frontend (set_frontend_method config m))
               end) with (npn_in_effect config (npn context)) in Hr
        by (unfold npn_in_effect; now destruct (npn context)).
      rewrite Hempty in Hr. simpl in Hr. discriminate. }
  assert (Hdefined : exists r,
            bud_config_encode_npn (set_frontend_method config m) (npn context)
            = Some r).
  { unfold bud_config_encode_npn.
    replace (match npn context with
             | Some _ => npn context
             | None => frontend_npn (frontend (set_frontend_method config m))
             end) with (npn_in_effect config (npn context))
      by (unfold npn_in_effect; now destruct (npn context)).
    destruct (npn_in_effect config (npn context)) as [array|];
      [|now eexists].
    destruct (npn_items_verified array Hverified) as (items & -> & _).
    destruct (npn_storage items =? 0)%nat; [now eexists|].
    destruct (malloc (npn_storage items)); now eexists. }
  destruct Hdefined as (r & Hr). specialize (Hencode r Hr).
  unfold bud_config_new_ssl_ctx. rewrite Hm.
  destruct (SSL_CTX_new m) as [c0|].
  2:{ split; [intros _; now do 3 eexists|].
      intros _ e config' context' H. now injection H as <- <- <-. }
  destruct (select_ecdh (set_frontend_method config m) context
              (SSL_CTX_set_session_cache_mode c0 SSL_SESS_CACHE_OFF))
    as [e1|c1] eqn:Eecdh.
  { split; [intros _; now do 3 eexists|].
    intros _ e config' context' H. injection H as <- <- <-.
    destruct (select_ecdh_error _ _ _ _ Eecdh) as [He | He];
      unfold bud_is_ok; now rewrite He. }
  rewrite Hr.
  destruct (negb (bud_is_ok (encoded_err r))) eqn:Eok.
  { split; [intros _; now do 3 eexists|].
    intros _ e config' context' H. injection H as <- <- <-.
    now apply Bool.negb_true_iff in Eok. }
  destruct (encoded_line r) eqn:Eline.
  - split; [intros _; now do 3 eexists|].
    intros Hempty. apply Hencode in Hempty. discriminate.
  - split; [|intros _ e config' context' H; discriminate].
    intros Hne. exfalso. apply Hne. now apply Hencode.
  - split; [intros _; now do 3 eexists|].
    intros Hempty. apply Hencode in Hempty. discriminate.
Qed.

End AfterLoad.

Lemma new_ssl_ctx_after_load_witness :
  bud_config_load (ext := Examples.env) "three_hosts.json"
  = (Some Examples.three_hosts_config, bud_ok) /\
  npn_in_effect Examples.three_hosts_config
    (npn (context_at Examples.three_hosts_config 3)) = Some [] /\
  npn_in_effect Examples.three_hosts_config
    (npn (context_at Examples.three_hosts_config 2)) <> Some [] /\
  (exists e config' context',
     bud_config_new_ssl_ctx (ext := Examples.env) Examples.three_hosts_config
       (context_at Examples.three_hosts_config 2)
     = Some (e, config', context')) /\
  bud_config_new_ssl_ctx (ext := Examples.env) Examples.three_hosts_config
    (context_at Examples.three_hosts_config 3) = None.
Proof.
  assert (H : bud_config_load (ext := Examples.env) "three_hosts.json"
              = (Some Examples.three_hosts_config, bud_ok)) by reflexivity.
  assert (Hne : npn_in_effect Examples.three_hosts_config
                  (npn (context_at Examples.three_hosts_config 2))
                <> Some []) by (vm_compute; discriminate).
  split; [exact H|]. split; [reflexivity|]. split; [exact Hne|].
  split; [|reflexivity].
  exact (proj1 (new_ssl_ctx_after_load (ext := Examples.env) _ _ _ 2 H) Hne).
Defined.

(** ** OCSP requests and ids *)

(** Whatever [bud_context_get_ocsp_req] returns, the URL and the size are
    those the context holds afterwards; the call changes nothing of the
    context but the URL and its length, and those only when it had none; a
    request is built only for a context with a URL and a CertID, as the DER
    encoding of a request that holds a copy of that id; and when no URL is
    found nothing is stored and no request is built. *)
Theorem ocsp_req_invariants {ext : Externals} (context : bud_context_t)
    (r : ocsp_req_result) :
  bud_context_get_ocsp_req context = Some r ->
  req_url r = ocsp_url (req_context r) /\
  req_size r = ocsp_url_len (req_context r) /\
  (req_context r = context \/
   exists url,
     ocsp_url context = None /\ req_context r = set_ocsp_url context url) /\
  (forall der,
     req_encoded r = Some der ->
     req_url r <> None /\
     exists cid id req0 req,
       ocsp_id context = Some cid /\
       OCSP_CERTID_dup cid = Some id /\
       OCSP_REQUEST_new = Some req0 /\
       OCSP_request_add0_id req0 id = Some req /\
       der = i2d_OCSP_REQUEST req) /\
  (req_url r = None -> req_context r = context /\ req_encoded r = None).
Proof.
  assert (Hbuild : forall c der,
            build_ocsp_request c = Some der ->
            ocsp_url c <> None /\
            exists cid id req0 req,
              ocsp_id c = Some cid /\ OCSP_CERTID_dup cid = Some id /\
              OCSP_REQUEST_new = Some req0 /\
              OCSP_request_add0_id req0 id = Some req /\
              der = i2d_OCSP_REQUEST req).
  { intros c der. unfold build_ocsp_request.
    destruct (ocsp_url c); [|discriminate].
    destruct (ocsp_id c) as [cid|]; [|discriminate].
    destruct (OCSP_CERTID_dup cid) as [id|] eqn:Edup; [|discriminate].
    destruct OCSP_REQUEST_new as [req0|] eqn:Enew; [|discriminate].
    destruct (OCSP_request_add0_id req0 id) as [req|] eqn:Eadd;
      [|discriminate].
    destruct (malloc _); [|discriminate].
    intros H. injection H as <-. split; [discriminate|].
    now exists cid, id, req0, req. }
  unfold bud_context_get_ocsp_req. intros H.
  destruct (ocsp_url context) as [u|] eqn:Eu.
  - injection H as <-. unfold ocsp_req_done. simpl.
    split; [reflexivity|]. split; [reflexivity|]. split; [now left|].
    split.
    + intros der Hder. split; [rewrite Eu; discriminate|].
      now destruct (Hbuild _ _ Hder).
    + rewrite Eu. discriminate.
  - destruct (cert context) as [x|]; [|discriminate].
    destruct (X509_get1_ocsp x) as [urls|].
    + destruct (fst (sk_OPENSSL_STRING_pop urls)) as [url|]; [|discriminate].
      injection H as <-. unfold ocsp_req_done. simpl.
      split; [reflexivity|]. split; [reflexivity|].
      split; [right; now exists url|]. split.
      * intros der Hder. split; [discriminate|].
        now destruct (Hbuild _ _ Hder).
      * discriminate.
    + injection H as <-. unfold ocsp_req_done. simpl.
      split; [reflexivity|]. split; [reflexivity|]. split; [now left|].
      split; [discriminate|]. intros _. now split.
Qed.

Lemma ocsp_req_invariants_witness :
  exists r,
    bud_context_get_ocsp_req (ext := Sample.env) (Sample.context_with_cert 3%nat)
    = Some r /\
    req_url r = None /\
    req_context r = Sample.context_with_cert 3%nat /\
    req_encoded r = None.
Proof.
  eexists.
  assert (H : bud_context_get_ocsp_req (ext := Sample.env)
                (Sample.context_with_cert 3%nat)
              = Some (mk_ocsp_req None 0 None (Sample.context_with_cert 3%nat)))
    by reflexivity.
  split; [exact H|]. split; [reflexivity|].
  exact (proj2 (proj2 (proj2 (proj2
           (ocsp_req_invariants (ext := Sample.env) _ _ H)))) eq_refl).
Defined.

(** Once a context holds a URL, [bud_context_get_ocsp_req] returns that URL
    with the stored length and leaves the context as it is, in every
    environment: the certificate is not asked again.  In particular the URL
    that a first call found is what every later call returns, whatever
    [X509_get1_ocsp] would answer by then. *)
Theorem ocsp_url_cached_for_good (first later : Externals)
    (context : bud_context_t) (x : X509) (below : list string)
    (url : string) :
  ocsp_url context = None ->
  cert context = Some x ->
  @X509_get1_ocsp first x = Some (below ++ [url])%list ->
  exists r r',
    @bud_context_get_ocsp_req first context = Some r /\
    req_url r = Some url /\
    @bud_context_get_ocsp_req later (req_context r) = Some r' /\
    req_url r' = Some url /\
    req_size r' = req_size r /\
    req_context r' = req_context r.
Proof.
  intros Hurl Hcert Hstack.
  unfold bud_context_get_ocsp_req at 1.
  rewrite Hurl, Hcert, Hstack, pop_returns_last. cbn [fst].
  do 2 eexists. split; [reflexivity|]. split; [reflexivity|].
  unfold bud_context_get_ocsp_req. cbn [ocsp_req_done req_context].
  cbn [set_ocsp_url ocsp_url]. split; [reflexivity|]. now repeat split.
Qed.

Lemma ocsp_url_cached_for_good_witness :
  ocsp_url (Sample.context_with_cert 1%nat) = None /\
  cert (Sample.context_with_cert 1%nat) = Some 1%nat /\
  exists r r',
    @bud_context_get_ocsp_req Sample.env (Sample.context_with_cert 1%nat)
    = Some r /\
    req_url r = Some "http://ocsp.two.example" /\
    @bud_context_get_ocsp_req Examples.env_no_memory (req_context r)
    = Some r' /\
    req_url r' = Some "http://ocsp.two.example" /\
    req_size r' = req_size r /\
    req_context r' = req_context r.
Proof.
  split; [reflexivity|]. split; [reflexivity|].
  exact (ocsp_url_cached_for_good Sample.env Examples.env_no_memory
           (Sample.context_with_cert 1%nat) 1%nat ["http://ocsp.one.example"]
           "http://ocsp.two.example" eq_refl eq_refl eq_refl).
Defined.

Section Ids.

Context {ext : Externals} {enc : IdEncoders}.

(** For a context with a CertID and no encoded id yet,
    [bud_context_get_ocsp_id] returns, when its two buffers are allocated,
    the base64 encoding of the DER encoding of the CertID, of the size that
    [bud_base64_encoded_size] gives for it, and stores both on the context;
    every later call returns what is stored without encoding again, whatever
    the encoders or the allocator would do then. *)
Theorem ocsp_id_encoded_once (context : bud_context_ids_t)
    (cid : OCSP_CERTID) :
  ocsp_id (id_context context) = Some cid ->
  ocsp_der_id context = None ->
  malloc (List.length (i2d_OCSP_CERTID cid)) = true ->
  malloc (bud_base64_encoded_size (List.length (i2d_OCSP_CERTID cid)))
  = true ->
  let size := bud_base64_encoded_size (List.length (i2d_OCSP_CERTID cid)) in
  let r := bud_context_get_ocsp_id context in
  id_returned r = Some (bud_base64_encode (i2d_OCSP_CERTID cid) size) /\
  id_size r = Some size /\
  id_context (id_after r) = id_context context /\
  forall (later_ext : Externals) (later_enc : IdEncoders),
    @bud_context_get_ocsp_id later_ext later_enc (id_after r)
    = mk_ocsp_id (id_returned r) (Some size) (id_after r).
Proof.
  intros Hid Hnone Hm1 Hm2. cbv zeta.
  assert (Hr : bud_context_get_ocsp_id context
               = let size := bud_base64_encoded_size
                               (List.length (i2d_OCSP_CERTID cid)) in
                 let encoded := bud_base64_encode (i2d_OCSP_CERTID cid) size in
                 mk_ocsp_id (Some encoded) (Some size)
                   (mk_context_ids (id_context context) (Some encoded) size)).
  { unfold bud_context_get_ocsp_id. now rewrite Hid, Hnone, Hm1, Hm2. }
  rewrite Hr. cbv zeta. cbn [id_returned id_size id_after id_context].
  repeat split. intros later_ext later_enc. unfold bud_context_get_ocsp_id.
  cbn [id_context ocsp_der_id ocsp_der_id_len]. now rewrite Hid.
Qed.

(** Without a CertID [bud_context_get_ocsp_id] returns [NULL] and stores
    nothing, not even through [size]; and when an allocation fails it
    returns [NULL] with the stored length and leaves the context as it was,
    so that the next call tries again. *)
Theorem ocsp_id_absent_or_out_of_memory (context : bud_context_ids_t) :
  (ocsp_id (id_context context) = None ->
   bud_context_get_ocsp_id context = mk_ocsp_id None None context) /\
  (forall cid,
     ocsp_id (id_context context) = Some cid ->
     ocsp_der_id context = None ->
     malloc (List.length (i2d_OCSP_CERTID cid))
     && malloc (bud_base64_encoded_size (List.length (i2d_OCSP_CERTID cid)))
     = false ->
     bud_context_get_ocsp_id context
     = mk_ocsp_id None (Some (ocsp_der_id_len context)) context).
Proof.
  unfold bud_context_get_ocsp_id. split.
  - intros H. now rewrite H.
  - intros cid Hid Hnone Hm. now rewrite Hid, Hnone, Hm.
Qed.

End Ids.

Lemma ocsp_id_encoded_once_witness :
  ocsp_id (id_context ExampleIds.context) = Some 9%nat /\
  ocsp_der_id ExampleIds.context = None /\
  id_size (bud_context_get_ocsp_id (ext := Sample.env)
             (enc := ExampleIds.encoders) ExampleIds.context)
  = Some 16%nat /\
  bud_context_get_ocsp_id (ext := Examples.env_no_memory)
    (enc := ExampleIds.other_encoders)
    (id_after (bud_context_get_ocsp_id (ext := Sample.env)
                 (enc := ExampleIds.encoders) ExampleIds.context))
  = mk_ocsp_id
      (id_returned (bud_context_get_ocsp_id (ext := Sample.env)
                      (enc := ExampleIds.encoders) ExampleIds.context))
      (Some 16%nat)
      (id_after (bud_context_get_ocsp_id (ext := Sample.env)
                   (enc := ExampleIds.encoders) ExampleIds.context)).
Proof.
  split; [reflexivity|]. split; [reflexivity|].
  destruct (ocsp_id_encoded_once (ext := Sample.env)
              (enc := ExampleIds.encoders) ExampleIds.context 9%nat
              eq_refl eq_refl eq_refl eq_refl)
    as (_ & Hsize & _ & Hlater).
  split; [exact Hsize|].
  exact (Hlater Examples.env_no_memory ExampleIds.other_encoders).
Defined.

Lemma ocsp_id_absent_or_out_of_memory_witness :
  ocsp_id (id_context ExampleIds.context) = Some 9%nat /\
  ocsp_der_id ExampleIds.context = None /\
  bud_context_get_ocsp_id (ext := Examples.env_no_memory)
    (enc := ExampleIds.encoders) ExampleIds.context
  = mk_ocsp_id None (Some O) ExampleIds.context.
Proof.
  split; [reflexivity|]. split; [reflexivity|].
  exact (proj2 (ocsp_id_absent_or_out_of_memory
                  (ext := Examples.env_no_memory)
                  (enc := ExampleIds.encoders) ExampleIds.context)
           9%nat eq_refl eq_refl eq_refl).
Defined.

(** ** Releasing a context: [bud_context_free] *)

(** [bud_context_free] releases each object the context holds once and
    resets the pointers to them, so that freeing the context again, as
    [bud_config_free] does after a failed [bud_config_init] has already freed
    it, releases nothing and changes nothing; a slot that was never
    initialised releases nothing either.  The OCSP URL is neither released
    nor reset. *)
Theorem context_free_twice (context : bud_context_ids_t)
    (objects : list released) (context' : bud_context_ids_t) :
  bud_context_free context = Some (objects, context') ->
  bud_context_free context' = Some ([], context') /\
  ctx (id_context context') = None /\
  cert (id_context context') = None /\
  issuer (id_context context') = None /\
  ocsp_id (id_context context') = None /\
  ocsp_der_id context' = None /\
  npn_line (id_context context') = BufNull /\
  ocsp_url (id_context context') = ocsp_url (id_context context) /\
  servername (id_context context') = servername (id_context context) /\
  bud_context_free (mk_context_ids zeroed_context None 0)
  = Some ([], mk_context_ids zeroed_context None 0).
Proof.
  unfold bud_context_free. intros H.
  destruct (npn_line (id_context context)); try discriminate;
    injection H as <- <-; repeat split.
Qed.

Lemma context_free_twice_witness :
  exists objects context',
    bud_context_free ExampleIds.context = Some (objects, context') /\
    objects = [FreedX509 2%nat; FreedX509 7%nat; FreedCERTID 9%nat] /\
    bud_context_free context' = Some ([], context').
Proof.
  do 2 eexists.
  assert (H : bud_context_free ExampleIds.context
              = Some ([FreedX509 2%nat; FreedX509 7%nat; FreedCERTID 9%nat],
                      match bud_context_free ExampleIds.context with
                      | Some (_, c) => c
                      | None => ExampleIds.context
                      end)) by reflexivity.
  split; [exact H|]. split; [reflexivity|].
  exact (proj1 (context_free_twice _ _ _ H)).
Defined.

(** ** Addresses, the storage around the result *)

(** [bud_config_str_to_addr] returns 0 or a negative libuv error, and
    writes no more than it parsed: on failure the storage is as it was
    except for the family, which says [AF_INET6]; an IPv4 result leaves the
    IPv6 address field alone and an IPv6 result the IPv4 one. *)
Theorem str_to_addr_frame {ext : Externals} (host : string) (port : Z)
    (addr : sockaddr_storage) :
  let res := bud_config_str_to_addr host port addr in
  addr_r res <= 0 /\
  (addr_r res <> 0 ->
   addr_out res
   = mk_sockaddr (Some AF_INET6) (ss_port addr) (sin_addr addr)
       (sin6_addr addr)) /\
  (ss_family (addr_out res) = Some AF_INET ->
   sin6_addr (addr_out res) = sin6_addr addr) /\
  (ss_family (addr_out res) = Some AF_INET6 ->
   sin_addr (addr_out res) = sin_addr addr) /\
  ss_family (addr_out res) <> None.
Proof.
  unfold bud_config_str_to_addr.
  destruct (uv_inet_pton AF_INET host) as [a4|e4]; cbv zeta.
  - cbn. split; [lia|]. split; [congruence|]. split; [reflexivity|].
    split; discriminate.
  - destruct (uv_inet_pton AF_INET6 host) as [a6|e6]; cbn.
    + split; [lia|]. split; [congruence|]. split; [discriminate|].
      split; [reflexivity | discriminate].
    + split; [lia|]. split; [reflexivity|]. split; [discriminate|].
      split; [reflexivity | discriminate].
Qed.

(** ** Certificates: [bud_context_use_certificate_chain] *)

Section Chains.

Context {calls : CertificateCalls}.




End Chains.


(** ** Initialisation: [bud_config_init] *)

Lemma set_nth_length (l : list bud_context_t) :
  forall i c, List.length (set_nth l i c) = List.length l.
Proof.
  induction l as [|a l IH]; intros [|i] c; simpl; auto.
Qed.

Lemma set_nth_same (l : list bud_context_t) :
  forall i c d, (i < List.length l)%nat -> nth i (set_nth l i c) d = c.
Proof.
  induction l as [|a l IH]; intros [|i] c d H; simpl in *; try lia; auto.
  apply IH. lia.
Qed.

Lemma set_nth_other (l : list bud_context_t) :
  forall i j c d, i <> j -> nth j (set_nth l i c) d = nth j l d.
Proof.
  induction l as [|a l IH]; intros [|i] [|j] c d H; simpl; auto;
    try contradiction.
Qed.

Lemma set_context_at_slots (config : bud_config_t) (i : nat)
    (c : bud_context_t) :
  context_count (set_context_at config i c) = context_count config /\
  List.length (contexts (set_context_at config i c))
  = List.length (contexts config) /\
  frontend (set_context_at config i c) = frontend config /\
  ((i < List.length (contexts config))%nat ->
   context_at (set_context_at config i c) i = c) /\
  (forall j, i <> j ->
             context_at (set_context_at config i c) j = context_at config j).
Proof.
  unfold set_context_at, context_at. simpl.
  split; [reflexivity|]. split; [apply set_nth_length|].
  split; [reflexivity|]. split.
  - intros H. now apply set_nth_same.
  - intros j H. now apply set_nth_other.
Qed.

(** Label [fatal]: the slots from [i] down are emptied, the others are left
    as they are. *)
Lemma free_contexts_down_slots :
  forall i config config',
    (i < List.length (contexts config))%nat ->
    free_contexts_down config i = Some config' ->
    context_count config' = context_count config /\
    List.length (contexts config') = List.length (contexts config) /\
    frontend config' = frontend config /\
    (forall k, (k <= i)%nat -> slot_empty (context_at config' k)) /\
    (forall k, (i < k)%nat -> context_at config' k = context_at config k).
Proof.
  induction i as [|i IH]; intros config config' Hi H; simpl in H;
    unfold freed_context, bud_context_free in H; cbn [id_context] in H;
    destruct (npn_line (context_at config _)) eqn:Eline; try discriminate;
    cbn [ocsp_der_id ocsp_der_id_len id_context] in H.
  all: match type of H with
       | context [set_context_at ?cfg ?i ?c] =>
           destruct (set_context_at_slots cfg i c)
             as (Hcount & Hlen & Hfront & Hsame & Hother)
       end.
  1, 2: injection H as <-; split; [exact Hcount|]; split; [exact Hlen|];
    split; [exact Hfront|]; split;
    [intros k Hk; assert (k = O) as -> by lia; rewrite (Hsame Hi);
     now repeat split
    |intros k Hk; apply Hother; lia].
  all: apply IH in H; [|rewrite Hlen; lia];
    destruct H as (Hc' & Hl' & Hf' & Hempty & Hrest);
    split; [congruence|]; split; [congruence|]; split; [congruence|]; split;
    [intros k Hk; destruct (Nat.eq_dec k (S i)) as [-> | Hne];
     [rewrite Hrest by lia; rewrite (Hsame Hi); now repeat split
     |apply Hempty; lia]
    |intros k Hk; rewrite Hrest by lia; apply Hother; lia].
Qed.

Section InitProperties.

Context {ext : Externals} {certs : CertificateCalls} {init : InitCalls}.

(** Reading the certificates touches the certificate fields only, and a
    call that succeeds leaves a certificate. *)
Lemma use_certificate_chain_frame (c c' : bud_context_t) (input : pem_input)
    (r : Z) :
  bud_context_use_certificate_chain c input = (r, c') ->
  ctx c' = ctx c /\ servername c' = servername c /\
  servername_len c' = servername_len c /\ npn_line c' = npn_line c /\
  (r <> 0 -> cert c' <> None).
Proof.
  unfold bud_context_use_certificate_chain. intros H.
  destruct (pem_leaf input) as [x|];
    [|injection H as <- <-; now repeat split].
  destruct (_ && _); [|injection H as <- <-; now repeat split].
  destruct (read_chain _ _ _ _) as [added i].
  destruct (added && _); [|injection H as <- <-; now repeat split].
  destruct (find_issuer _ _ _ _) as [[ret i'] id].
  injection H as <- <-. repeat split. discriminate.
Qed.

(** One round of the loop. *)
Lemma init_context_round (config config' : bud_config_t) (i : nat)
    (err : bud_error_t) :
  (i < List.length (contexts config))%nat ->
  init_context config i = Some (err, config') ->
  context_count config' = context_count config /\
  List.length (contexts config') = List.length (contexts config) /\
  (forall j, i <> j -> context_at config' j = context_at config j) /\
  (exists m, frontend_method (frontend config') = Some m /\
             forall m0, frontend_method (frontend config) = Some m0 ->
                        m = m0) /\
  (bud_is_ok err = true ->
   slot_ready (context_at config i) (context_at config' i)).
Proof.
  unfold init_context. intros Hi H.
  destruct (bud_config_new_ssl_ctx config (context_at config i))
    as [[[e cfg] c]|] eqn:Enew; [|discriminate].
  destruct (new_ssl_ctx_result _ _ _ _ _ Enew)
    as (m & Hm & Hmethod & _ & Hctx).
  assert (Hcfg : cfg = set_frontend_method config m).
  { destruct (new_ssl_ctx_method_chosen_once _ _ _ _ _ Enew)
      as (m' & -> & _). simpl in Hmethod. now injection Hmethod as ->. }
  assert (Hlen : List.length (contexts cfg) = List.length (contexts config))
    by now subst cfg.
  assert (Hcount : context_count cfg = context_count config)
    by now subst cfg.
  assert (Hat : forall j, context_at cfg j = context_at config j)
    by now subst cfg.
  assert (Hmethods : exists m1,
            frontend_method (frontend cfg) = Some m1 /\
            forall m0, frontend_method (frontend config) = Some m0 ->
                       m1 = m0).
  { exists m. split; [exact Hmethod|]. intros m0 Hm0.
    unfold choose_method in Hm. rewrite Hm0 in Hm. congruence. }
  assert (Hstep : forall c1 e1,
            Some (e1, set_context_at cfg i c1) = Some (err, config') ->
            (bud_is_ok e1 = true -> slot_ready (context_at config i) c1) ->
            context_count config' = context_count config /\
            List.length (contexts config') = List.length (contexts config) /\
            (forall j, i <> j -> context_at config' j = context_at config j) /\
            (exists m, frontend_method (frontend config') = Some m /\
                       forall m0, frontend_method (frontend config) = Some m0
                                  -> m = m0) /\
            (bud_is_ok err = true ->
             slot_ready (context_at config i) (context_at config' i))).
  { intros c1 e1 Heq Hready. injection Heq as <- <-.
    destruct (set_context_at_slots cfg i c1)
      as (Hc & Hl & Hf & Hsame & Hother).
    split; [congruence|]. split; [congruence|]. split.
    - intros j Hj. rewrite Hother by exact Hj. apply Hat.
    - split; [now rewrite Hf|]. intros Hok.
      rewrite Hsame by (rewrite Hlen; exact Hi). now apply Hready. }
  destruct (bud_is_ok e) eqn:Eok; cbn [negb] in H.
  2:{ apply (Hstep _ _ H). intros Hx. congruence. }
  destruct (Hctx eq_refl) as (c0 & h & _ & Hh & Hmode & _).
  destruct (new_ssl_ctx_callbacks _ _ _ _ _ Enew Eok)
    as (m2 & c2 & h2 & _ & _ & Hh2 & Hstatus & _).
  rewrite Hh in Hh2. injection Hh2 as <-.
  destruct (new_ssl_ctx_success _ _ _ _ _ Enew Eok)
    as (? & ? & ? & line & n & _ & _ & _ & _ & _ & _ & Hc).
  assert (Hname : servername c = servername (context_at config i) /\
                  servername_len c = servername_len (context_at config i))
    by (rewrite Hc; now split).
  destruct Hname as [Hname Hnamelen].
  rewrite (proj1 (proj2 (proj2 (set_context_at_slots cfg i c)))) in H.
  destruct (BIO_new_file _) as [bio|]; [|apply (Hstep _ _ H); intros Hx; discriminate Hx].
  destruct (bud_context_use_certificate_chain c bio) as [r c'] eqn:Echain.
  destruct (use_certificate_chain_frame _ _ _ _ Echain)
    as (Hctx' & Hn' & Hl' & _ & Hcert).
  assert (Htwice : set_context_at (set_context_at cfg i c) i c'
                   = set_context_at cfg i c').
  { unfold set_context_at. simpl. f_equal.
    clear. generalize (contexts cfg) as l. revert c c'.
    induction i as [|i IH]; intros c c' [|a l]; simpl; auto.
    now rewrite IH. }
  rewrite Htwice in H.
  destruct (r =? 0) eqn:Er; [apply (Hstep _ _ H); intros Hx; discriminate Hx|].
  apply Z.eqb_neq in Er.
  destruct (SSL_CTX_use_PrivateKey_file (ctx c') _);
    [|apply (Hstep _ _ H); intros Hx; discriminate Hx].
  apply (Hstep _ _ H). intros _. unfold slot_ready.
  split; [exists h; rewrite Hctx'; now repeat split|].
  split; [now apply Hcert|]. split; congruence.
Qed.

End InitProperties.

Section InitLoop.

Context {ext : Externals} {certs : CertificateCalls} {init : InitCalls}.

(** The loop "Load all contexts": either every round succeeds and the slots
    it went over are complete, or the round of some slot [j] fails and the
    slots up to [j] are emptied again; the slots the loop did not reach are
    as they were. *)
Lemma init_contexts_loop :
  forall remaining i config err config',
    (i + remaining <= List.length (contexts config))%nat ->
    init_contexts config i remaining = Some (err, config') ->
    context_count config' = context_count config /\
    List.length (contexts config') = List.length (contexts config) /\
    (forall m0, frontend_method (frontend config) = Some m0 ->
                frontend_method (frontend config') = Some m0) /\
    ((0 < remaining)%nat -> frontend_method (frontend config') <> None) /\
    (bud_is_ok err = true ->
     (forall k, (i <= k < i + remaining)%nat ->
                slot_ready (context_at config k) (context_at config' k)) /\
     (forall k, (k < i)%nat -> context_at config' k = context_at config k)) /\
    (bud_is_ok err = false ->
     exists j,
       (i <= j < i + remaining)%nat /\
       (forall k, (k <= j)%nat -> slot_empty (context_at config' k)) /\
       (forall k, (j < k)%nat -> context_at config' k = context_at config k)).
Proof.
  induction remaining as [|remaining IH]; intros i config err config' Hi H;
    cbn [init_contexts] in H.
  - injection H as <- <-. repeat split; auto; try lia; discriminate.
  - destruct (init_context config i) as [[e cfg]|] eqn:Eround;
      [|discriminate].
    assert (Hlt : (i < List.length (contexts config))%nat) by lia.
    destruct (init_context_round _ _ _ _ Hlt Eround)
      as (Hcount & Hlen & Hother & (m & Hm & Hsame) & Hready).
    assert (Hlt' : (i < List.length (contexts cfg))%nat) by lia.
    assert (Hnext : (S i + remaining <= List.length (contexts cfg))%nat)
      by lia.
    assert (Hkeep : forall m0, frontend_method (frontend config) = Some m0 ->
                               frontend_method (frontend cfg) = Some m0).
    { intros m0 Hm0. rewrite Hm. f_equal. now apply Hsame. }
    destruct (bud_is_ok e) eqn:Eok.
    + destruct (IH (S i) cfg err config' Hnext H)
        as (Hc & Hl & Hmeth & _ & Hsuccess & Hfailure).
      split; [congruence|]. split; [congruence|].
      split; [intros m0 Hm0; apply Hmeth; now apply Hkeep|].
      split; [intros _; rewrite (Hmeth m Hm); discriminate|]. split.
      * intros Hok. destruct (Hsuccess Hok) as [Hlater Hbefore]. split.
        -- intros k Hk. destruct (Nat.eq_dec k i) as [-> | Hne].
           ++ rewrite Hbefore by lia. now apply Hready.
           ++ rewrite <- (Hother k) by lia. apply Hlater. lia.
        -- intros k Hk. rewrite Hbefore by lia. apply Hother. lia.
      * intros Hnok. destruct (Hfailure Hnok) as (j & Hj & Hempty & Hrest).
        exists j. split; [lia|]. split; [exact Hempty|].
        intros k Hk. rewrite Hrest by exact Hk. apply Hother. lia.
    + destruct (free_contexts_down cfg i) as [cfg'|] eqn:Efree;
        [|discriminate].
      injection H as <- <-.
      destruct (free_contexts_down_slots _ _ _ Hlt' Efree)
        as (Hc & Hl & Hf & Hempty & Hrest).
      split; [congruence|]. split; [congruence|].
      split; [intros m0 Hm0; rewrite Hf; now apply Hkeep|].
      split; [intros _; rewrite Hf, Hm; discriminate|].
      split; [intros Hok; congruence|].
      intros _. exists i. split; [lia|]. split; [exact Hempty|].
      intros k Hk. rewrite Hrest by exact Hk. apply Hother. lia.
Qed.


End InitLoop.

Section InitFailure.

Context {ext : Externals} {certs : CertificateCalls} {init : InitCalls}.

(** The two ways [bud_config_init] returns: through label [fatal] before
    the loop, or with what the loop over the contexts returns. *)
Lemma init_exits (indexes indexes' : ssl_indexes) (state state' : bud_init_t)
    (err : bud_error_t) :
  bud_config_init indexes state = Some (err, indexes', state') ->
  (exists config,
     free_contexts_down (init_config state) 0 = Some config /\
     init_config state' = config) \/
  init_contexts (init_config state) 0 (S (context_count (init_config state)))
  = Some (err, init_config state').
Proof.
  unfold bud_config_init. intros H.
  destruct (frontend_host _) as [fhost|]; [|discriminate].
  destruct (backend_host _) as [bhost|]; [|discriminate].
  cbv zeta in H. cbn [frontend_addr backend_addr is_worker workers sni_pool
                      stapling_pool init_config] in H.
  assert (Hfatal : forall e ix st,
            init_config st = init_config state ->
            init_fatal e ix st = Some (err, indexes', state') ->
            exists config,
              free_contexts_down (init_config state) 0 = Some config /\
              init_config state' = config).
  { intros e ix st Hst. unfold init_fatal. rewrite Hst.
    destruct (free_contexts_down (init_config state) 0) as [cfg|];
      [|discriminate].
    intros Hx. injection Hx as _ _ <-. now exists cfg. }
  destruct (init_contexts (init_config state) 0
              (S (context_count (init_config state))))
    as [[e cfg]|] eqn:Eloop.
  - repeat match type of H with
           | context [if ?b then _ else _] => destruct b
           | context [let (_, _) := ?x in _] => destruct x
           | context [match ?x with Some _ => _ | None => _ end] => destruct x
           end;
      first [discriminate
            |left; eapply Hfatal; [|exact H]; reflexivity
            |right; now injection H as <- <- <-].
  - repeat match type of H with
           | context [if ?b then _ else _] => destruct b
           | context [let (_, _) := ?x in _] => destruct x
           | context [match ?x with Some _ => _ | None => _ end] => destruct x
           end;
      first [discriminate
            |left; eapply Hfatal; [|exact H]; reflexivity
            |cbn beta iota in H; discriminate].
Qed.

(** When [bud_config_init] returns an error it has released what it built:
    the slots up to the one it failed on are empty again, slot 0 in every
    case, and the slots after it are as they were.  So a table that held no
    [SSL_CTX] and no certificate before holds none after a failed
    initialisation. *)
Theorem init_failure_releases_contexts (indexes indexes' : ssl_indexes)
    (state state' : bud_init_t) (err : bud_error_t) :
  contexts_allocated (init_config state) ->
  bud_config_init indexes state = Some (err, indexes', state') ->
  bud_is_ok err = false ->
  (exists j,
     (j <= context_count (init_config state))%nat /\
     (forall k, (k <= j)%nat ->
                slot_empty (context_at (init_config state') k)) /\
     (forall k, (j < k)%nat ->
                context_at (init_config state') k
                = context_at (init_config state) k)) /\
  ((forall k, slot_empty (context_at (init_config state) k)) ->
   forall k, slot_empty (context_at (init_config state') k)).
Proof.
  intros Halloc H Hnok. unfold contexts_allocated in Halloc.
  assert (Hj : exists j,
            (j <= context_count (init_config state))%nat /\
            (forall k, (k <= j)%nat ->
                       slot_empty (context_at (init_config state') k)) /\
            (forall k, (j < k)%nat ->
                       context_at (init_config state') k
                       = context_at (init_config state) k)).
  { destruct (init_exits _ _ _ _ _ H) as [(config & Hfree & Hcfg) | Hloop].
    - assert (H0 : (0 < List.length (contexts (init_config state)))%nat)
        by lia.
      destruct (free_contexts_down_slots _ _ _ H0 Hfree)
        as (_ & _ & _ & Hempty & Hrest).
      exists O. rewrite Hcfg. split; [lia|]. now split.
    - assert (Hsize : (0 + S (context_count (init_config state))
                       <= List.length (contexts (init_config state)))%nat)
        by lia.
      destruct (init_contexts_loop _ _ _ _ _ Hsize Hloop)
        as (_ & _ & _ & _ & _ & Hfailure).
      destruct (Hfailure Hnok) as (j & Hj & Hempty & Hrest).
      exists j. split; [lia|]. now split. }
  split; [exact Hj|].
  destruct Hj as (j & _ & Hempty & Hrest). intros Hbefore k.
  destruct (Nat.le_gt_cases k j) as [Hk | Hk].
  - now apply Hempty.
  - rewrite Hrest by exact Hk. apply Hbefore.
Qed.

End InitFailure.


Lemma init_failure_releases_contexts_witness :
  exists err indexes' state',
    bud_config_init (ext := ExampleInit.env) (certs := ExampleChain.calls)
      (init := ExampleInitFailure.calls) ExampleInit.no_indexes
      ExampleInit.start
    = Some (err, indexes', state') /\
    bud_is_ok err = false /\
    exists j, (j <= context_count ExampleInit.config)%nat /\
      (forall k, (k <= j)%nat ->
                 slot_empty (context_at (init_config state') k)) /\
      (forall k, (j < k)%nat ->
                 context_at (init_config state') k
                 = context_at ExampleInit.config k).
Proof.
  assert (Hrun : exists err indexes' state',
            bud_config_init (ext := ExampleInit.env)
              (certs := ExampleChain.calls) (init := ExampleInitFailure.calls)
              ExampleInit.no_indexes ExampleInit.start
            = Some (err, indexes', state') /\ bud_is_ok err = false)
    by (eexists; eexists; eexists; vm_compute; split; reflexivity).
  destruct Hrun as (err & indexes' & state' & Hrun & Hnok).
  exists err, indexes', state'. split; [exact Hrun|]. split; [exact Hnok|].
  apply (init_failure_releases_contexts (ext := ExampleInit.env)
           (certs := ExampleChain.calls) (init := ExampleInitFailure.calls)
           ExampleInit.no_indexes indexes' ExampleInit.start state' err).
  - reflexivity.
  - exact Hrun.
  - exact Hnok.
Defined.
